(** * packer-provisioner-windows-update: the provisioner of update/provisioner.go

    A shallow embedding of the Windows update provisioner: the command
    encoder ([escapePowerShellString], [searchCriteriaArgument],
    [filtersArgument], [encodeUtf16Le], [windowsUpdateCommand],
    [windowsUpdateCheckForRebootRequiredCommand]), the configuration
    defaults of [Prepare], and the update/restart loop of [Provision],
    [update], [restart] and [retryable].

    Go strings are byte sequences: they are modelled by [string], whose
    characters are the bytes.  A [[]string] that may be [nil] is an
    [option (list string)].  Integers ([int], [time.Duration], runes,
    UTF-16 code units, bytes) are [Z]. *)

From Stdlib Require Import ZArith List String Ascii Bool Lia DecimalString.
Import ListNotations.

Local Open Scope string_scope.
Local Open Scope Z_scope.

(** ** The parts of the Go standard library the provisioner calls *)

Module Go.

(** [fmt]'s [%d] verb on an [int]. *)
Definition fmt_d (n : Z) : string := NilZero.string_of_int (Z.to_int n).

(** [strings.Replace(s, old, new, -1)] for a pattern [old] of one byte:
    every occurrence of the byte is replaced, left to right. *)
Fixpoint Replace (s : string) (old : ascii) (new : string) : string :=
  match s with
  | EmptyString => EmptyString
  | String c rest =>
      if Ascii.eqb c old then new ++ Replace rest old new
      else String c (Replace rest old new)
  end.

(** [bytes.Buffer]: [WriteString] appends, [String] reads the contents. *)
Definition Buffer := string.
Definition WriteString (b : Buffer) (s : string) : Buffer := b ++ s.

(** The bytes of a string, and the string of a byte slice. *)
Definition byteOf (c : ascii) : Z := Z.of_N (N_of_ascii c).
Definition charOf (b : Z) : ascii := ascii_of_N (Z.to_N b).
Definition bytesOf (s : string) : list Z := map byteOf (list_ascii_of_string s).
Definition stringOf (bs : list Z) : string := string_of_list_ascii (map charOf bs).

(** Conversions to [byte] and [uint16] truncate. *)
Definition byte (v : Z) : Z := Z.land v 0xFF.
Definition uint16 (v : Z) : Z := Z.land v 0xFFFF.

(** *** unicode/utf8, as the runtime decodes a string into runes *)

Definition runeError : Z := 0xFFFD.
Definition maxRune : Z := 0x10FFFF.
Definition surrogateMin : Z := 0xD800.
Definition surrogateMax : Z := 0xDFFF.

Definition isCont (b : Z) : bool := (0x80 <=? b) && (b <=? 0xBF).

(** [decoderune]: the rune at the head of a string whose first byte is not
    ASCII, and the number of bytes it takes.  A malformed, overlong or
    surrogate sequence gives [runeError] and one byte. *)
Definition decoderune (s : list Z) : Z * nat :=
  match s with
  | [] => (runeError, 1%nat)
  | s0 :: t =>
      if (0xC0 <=? s0) && (s0 <? 0xE0) then
        match t with
        | s1 :: _ =>
            let r := Z.lor (Z.shiftl (Z.land s0 0x1F) 6) (Z.land s1 0x3F) in
            if isCont s1 && (0x7F <? r) then (r, 2%nat) else (runeError, 1%nat)
        | _ => (runeError, 1%nat)
        end
      else if (0xE0 <=? s0) && (s0 <? 0xF0) then
        match t with
        | s1 :: s2 :: _ =>
            let r := Z.lor (Z.lor (Z.shiftl (Z.land s0 0x0F) 12)
                                  (Z.shiftl (Z.land s1 0x3F) 6))
                           (Z.land s2 0x3F) in
            if isCont s1 && isCont s2 && (0x7FF <? r)
               && negb ((surrogateMin <=? r) && (r <=? surrogateMax))
            then (r, 3%nat) else (runeError, 1%nat)
        | _ => (runeError, 1%nat)
        end
      else if (0xF0 <=? s0) && (s0 <? 0xF8) then
        match t with
        | s1 :: s2 :: s3 :: _ =>
            let r := Z.lor (Z.lor (Z.lor (Z.shiftl (Z.land s0 0x07) 18)
                                         (Z.shiftl (Z.land s1 0x3F) 12))
                                  (Z.shiftl (Z.land s2 0x3F) 6))
                           (Z.land s3 0x3F) in
            if isCont s1 && isCont s2 && isCont s3
               && (0xFFFF <? r) && (r <=? maxRune)
            then (r, 4%nat) else (runeError, 1%nat)
        | _ => (runeError, 1%nat)
        end
      else (runeError, 1%nat)
  end.

(** One step of the [range] loop over a string: the rune at the head and
    its width. *)
Definition rangeStep (s : list Z) : Z * nat :=
  match s with
  | [] => (runeError, 1%nat)
  | c :: _ => if c <? 0x80 then (c, 1%nat) else decoderune s
  end.

(** [[]rune(s)] on the bytes of [s].  [skip] counts the bytes of the
    current rune that the loop index still has to step over. *)
Fixpoint runesFrom (skip : nat) (s : list Z) : list Z :=
  match s with
  | [] => []
  | _ :: t =>
      match skip with
      | S k => runesFrom k t
      | O => let '(r, n) := rangeStep s in r :: runesFrom (n - 1) t
      end
  end.

Definition runes (s : string) : list Z := runesFrom 0 (bytesOf s).

(** [utf8.ValidString]: no step of the decoding meets a malformed
    sequence, that is, a non-ASCII head byte that decodes to width one. *)
Fixpoint validFrom (skip : nat) (s : list Z) : bool :=
  match s with
  | [] => true
  | c :: t =>
      match skip with
      | S k => validFrom k t
      | O =>
          if c <? 0x80 then validFrom 0 t
          else let '(_, n) := decoderune s in
               negb (Nat.eqb n 1) && validFrom (n - 1) t
      end
  end.

Definition ValidString (s : string) : bool := validFrom 0 (bytesOf s).

(** *** unicode/utf16 *)

Definition surr1 : Z := 0xD800.
Definition surr2 : Z := 0xDC00.
Definition surr3 : Z := 0xE000.
Definition surrSelf : Z := 0x10000.
Definition replacementChar : Z := 0xFFFD.

(** [utf16.EncodeRune] on a rune that needs a surrogate pair. *)
Definition EncodeRune (r : Z) : Z * Z :=
  let r := r - surrSelf in
  (surr1 + Z.land (Z.shiftr r 10) 0x3FF, surr2 + Z.land r 0x3FF).

(** [utf16.Encode]. *)
Fixpoint Encode (s : list Z) : list Z :=
  match s with
  | [] => []
  | v :: t =>
      if ((0 <=? v) && (v <? surr1)) || ((surr3 <=? v) && (v <? surrSelf))
      then uint16 v :: Encode t
      else if (surrSelf <=? v) && (v <=? maxRune)
      then let '(r1, r2) := EncodeRune v in uint16 r1 :: uint16 r2 :: Encode t
      else uint16 replacementChar :: Encode t
  end.

(** *** encoding/base64, [StdEncoding] *)

Definition encodeStd : string :=
  "ABCDEFGHIJKLMNOPQRSTUVWXYZabcdefghijklmnopqrstuvwxyz0123456789+/".
Definition StdPadding : ascii := "="%char.

Definition enc (i : Z) : ascii :=
  match String.get (Z.to_nat i) encodeStd with
  | Some c => c
  | None => StdPadding
  end.

(** [StdEncoding.EncodeToString]: three bytes give four characters; a
    remainder of one or two bytes is padded. *)
Fixpoint EncodeToString (src : list Z) : string :=
  match src with
  | [] => ""
  | [b0] =>
      let val := Z.shiftl b0 16 in
      String (enc (Z.land (Z.shiftr val 18) 0x3F))
        (String (enc (Z.land (Z.shiftr val 12) 0x3F))
           (String StdPadding (String StdPadding "")))
  | [b0; b1] =>
      let val := Z.lor (Z.shiftl b0 16) (Z.shiftl b1 8) in
      String (enc (Z.land (Z.shiftr val 18) 0x3F))
        (String (enc (Z.land (Z.shiftr val 12) 0x3F))
           (String (enc (Z.land (Z.shiftr val 6) 0x3F))
              (String StdPadding "")))
  | b0 :: b1 :: b2 :: rest =>
      let val := Z.lor (Z.lor (Z.shiftl b0 16) (Z.shiftl b1 8)) b2 in
      String (enc (Z.land (Z.shiftr val 18) 0x3F))
        (String (enc (Z.land (Z.shiftr val 12) 0x3F))
           (String (enc (Z.land (Z.shiftr val 6) 0x3F))
              (String (enc (Z.land val 0x3F)) (EncodeToString rest))))
  end.

(** A slice written by index: [b[i] = v].  Out of range Go panics; the
    buffers of this program are allocated to the length they are written
    to, and [store] leaves a too short buffer as it is. *)
Fixpoint store (b : list Z) (i : nat) (v : Z) : list Z :=
  match b, i with
  | [], _ => []
  | _ :: t, O => v :: t
  | x :: t, S j => x :: store t j v
  end.

End Go.

(** ** Constants of the provisioner *)

Definition dquote : string := String (ascii_of_nat 34) EmptyString.

Definition elevatedPath : string :=
  "C:/Windows/Temp/packer-windows-update-elevated.ps1".
Definition elevatedCommand : string :=
  "PowerShell -ExecutionPolicy Bypass -OutputFormat Text -File C:/Windows/Temp/packer-windows-update-elevated.ps1".
Definition windowsUpdatePath : string :=
  "C:/Windows/Temp/packer-windows-update.ps1".
Definition pendingRebootElevatedPath : string :=
  "C:/Windows/Temp/packer-windows-update-pending-reboot-elevated.ps1".
Definition pendingRebootElevatedCommand : string :=
  "PowerShell -ExecutionPolicy Bypass -OutputFormat Text -File C:/Windows/Temp/packer-windows-update-pending-reboot-elevated.ps1".
Definition restartCommand : string :=
  Eval cbv in "shutdown.exe -f -r -t 0 -c " ++ dquote ++ "packer restart" ++ dquote.
Definition testRestartCommand : string :=
  Eval cbv in "shutdown.exe -f -r -t 60 -c " ++ dquote ++ "packer restart test" ++ dquote.
Definition abortTestRestartCommand : string := "shutdown.exe -a".

(** [time.Duration] counts nanoseconds. *)
Definition Duration := Z.
Definition Second : Duration := 1000000000.
Definition Hour : Duration := 3600 * Second.
Definition retryableDelay : Duration := 5 * Second.

(** ** Configuration *)

Record Config := mkConfig {
  RestartTimeout : Duration;
  Username : string;
  Password : string;
  SearchCriteria : string;
  Filters : option (list string);   (* [None] is the nil slice *)
  UpdateLimit : Z
}.

Record Provisioner := mkProvisioner { config : Config }.

(** ** Command encoder *)

Definition escapePowerShellString (value : string) : string :=
  "'" ++ Go.Replace value "'"%char "''" ++ "'".

Definition searchCriteriaArgument (searchCriteria : string) : string :=
  if String.eqb searchCriteria "" then ""
  else
    let buffer : Go.Buffer := "" in
    let buffer := Go.WriteString buffer " -SearchCriteria " in
    let buffer := Go.WriteString buffer (escapePowerShellString searchCriteria) in
    buffer.

(** The body of the [range] loop of [filtersArgument]: the state is the
    index and the buffer. *)
Definition filtersStep (st : nat * Go.Buffer) (filter : string) : nat * Go.Buffer :=
  let '(i, buffer) := st in
  let buffer := if (0 <? i)%nat then Go.WriteString buffer "," else buffer in
  (S i, Go.WriteString buffer (escapePowerShellString filter)).

Definition filtersArgument (filters : option (list string)) : string :=
  match filters with
  | None => ""
  | Some fs =>
      let buffer : Go.Buffer := "" in
      let buffer := Go.WriteString buffer " -Filters " in
      snd (fold_left filtersStep fs (0%nat, buffer))
  end.

(** The escaping rule in the words of the specification: every single
    quote of the value doubled, every other byte kept. *)
Definition quoteDoubled (value : string) : string :=
  String.concat ""
    (map (fun c => if Ascii.eqb c "'"%char then "''" else String c "")
       (list_ascii_of_string value)).

(** The body of the loop of [encodeUtf16Le]: the state is the index and
    the byte slice. *)
Definition utf16LeStep (st : nat * list Z) (r : Z) : nat * list Z :=
  let '(i, b) := st in
  let b := Go.store b (i * 2) (Go.byte r) in
  let b := Go.store b (i * 2 + 1) (Go.byte (Z.shiftr r 8)) in
  (S i, b).

Definition encodeUtf16Le (s : string) : list Z :=
  let d := Go.Encode (Go.runes s) in
  let b := repeat 0 (List.length d * 2) in
  snd (fold_left utf16LeStep d (0%nat, b)).

Definition encodedCommandPrefix : string :=
  "PowerShell -ExecutionPolicy Bypass -OutputFormat Text -EncodedCommand ".

(** The script invocation that [windowsUpdateCommand] formats and encodes. *)
Definition windowsUpdateInvocation (p : Provisioner) : string :=
  windowsUpdatePath
    ++ searchCriteriaArgument (SearchCriteria (config p))
    ++ filtersArgument (Filters (config p))
    ++ " -UpdateLimit " ++ Go.fmt_d (UpdateLimit (config p)).

Definition windowsUpdateCommand (p : Provisioner) : string :=
  encodedCommandPrefix
    ++ Go.EncodeToString (encodeUtf16Le (windowsUpdateInvocation p)).

Definition checkForRebootRequiredInvocation : string :=
  windowsUpdatePath ++ " -OnlyCheckForRebootRequired".

Definition windowsUpdateCheckForRebootRequiredCommand (p : Provisioner) : string :=
  encodedCommandPrefix
    ++ Go.EncodeToString (encodeUtf16Le checkForRebootRequiredInvocation).

(** ** The remote side: how the interpreter reads [-EncodedCommand]

    The payload is base64 text; its bytes are UTF-16LE code units; the
    code units are a string.  These decoders are the reference the
    encoder is checked against. *)

Module Decoder.

Fixpoint indexOf (c : ascii) (s : string) (i : Z) : option Z :=
  match s with
  | EmptyString => None
  | String d t => if Ascii.eqb c d then Some i else indexOf c t (i + 1)
  end.

Definition dec (c : ascii) : option Z := indexOf c Go.encodeStd 0.

Definition isPad (c : ascii) : bool := Ascii.eqb c Go.StdPadding.

(** Standard base64 with padding: four characters give three bytes, and
    padding is accepted in the last quantum only. *)
Fixpoint DecodeString (s : string) : option (list Z) :=
  match s with
  | EmptyString => Some []
  | String c0 (String c1 (String c2 (String c3 rest))) =>
      match dec c0, dec c1 with
      | Some v0, Some v1 =>
          let b0 := v0 * 4 + v1 / 16 in
          if isPad c2 then
            if isPad c3 && String.eqb rest "" then Some [b0] else None
          else
            match dec c2 with
            | Some v2 =>
                let b1 := (v1 mod 16) * 16 + v2 / 4 in
                if isPad c3 then
                  if String.eqb rest "" then Some [b0; b1] else None
                else
                  match dec c3, DecodeString rest with
                  | Some v3, Some bs => Some (b0 :: b1 :: (v2 mod 4) * 64 + v3 :: bs)
                  | _, _ => None
                  end
            | None => None
            end
      | _, _ => None
      end
  | _ => None
  end.

(** Little-endian byte pairs to 16-bit code units. *)
Fixpoint unitsOfBytes (bs : list Z) : option (list Z) :=
  match bs with
  | [] => Some []
  | lo :: hi :: rest =>
      match unitsOfBytes rest with
      | Some us => Some (lo + 256 * hi :: us)
      | None => None
      end
  | _ => None
  end.

(** UTF-16 code units to code points: a high surrogate followed by a low
    surrogate is one code point, a lone surrogate is U+FFFD. *)
Fixpoint utf16Decode (us : list Z) : list Z :=
  match us with
  | [] => []
  | r :: t =>
      if (r <? Go.surr1) || (Go.surr3 <=? r) then r :: utf16Decode t
      else
        match t with
        | r2 :: t' =>
            if (r <? Go.surr2) && (Go.surr2 <=? r2) && (r2 <? Go.surr3)
            then (r - Go.surr1) * 1024 + (r2 - Go.surr2) + Go.surrSelf :: utf16Decode t'
            else Go.replacementChar :: utf16Decode t
        | [] => [Go.replacementChar]
        end
  end.

(** The UTF-8 bytes of a code point. *)
Definition utf8Bytes (r : Z) : list Z :=
  if (0 <=? r) && (r <=? 0x7F) then [r]
  else if (0 <=? r) && (r <=? 0x7FF) then [0xC0 + r / 64; 0x80 + r mod 64]
  else if (r <? 0) || (Go.maxRune <? r)
          || ((Go.surrogateMin <=? r) && (r <=? Go.surrogateMax))
  then [0xEF; 0xBF; 0xBD]
  else if r <=? 0xFFFF
  then [0xE0 + r / 4096; 0x80 + (r / 64) mod 64; 0x80 + r mod 64]
  else [0xF0 + r / 262144; 0x80 + (r / 4096) mod 64;
        0x80 + (r / 64) mod 64; 0x80 + r mod 64].

Definition stringOfRunes (rs : list Z) : string :=
  Go.stringOf (flat_map utf8Bytes rs).

(** Base64, then UTF-16LE. *)
Definition decodePayload (payload : string) : option string :=
  match DecodeString payload with
  | Some bs =>
      match unitsOfBytes bs with
      | Some us => Some (stringOfRunes (utf16Decode us))
      | None => None
      end
  | None => None
  end.

(** The argument that follows a prefix of a command line. *)
Fixpoint stripPrefix (prefix s : string) : option string :=
  match prefix, s with
  | EmptyString, _ => Some s
  | String a p', String b s' => if Ascii.eqb a b then stripPrefix p' s' else None
  | String _ _, EmptyString => None
  end.

Definition encodedPayload (command : string) : option string :=
  stripPrefix encodedCommandPrefix command.

(** Reading back a single-quoted literal: the text between the quotes
    with every doubled quote read as one, and what follows the closing
    quote. *)
Fixpoint readQuoted (s : string) : option (string * string) :=
  match s with
  | EmptyString => None
  | String c t =>
      if Ascii.eqb c "'"%char then
        match t with
        | String c' t' =>
            if Ascii.eqb c' "'"%char then
              match readQuoted t' with
              | Some (v, rest) => Some (String "'"%char v, rest)
              | None => None
              end
            else Some (EmptyString, t)
        | EmptyString => Some (EmptyString, EmptyString)
        end
      else
        match readQuoted t with
        | Some (v, rest) => Some (String c v, rest)
        | None => None
        end
  end.

Definition readLiteral (s : string) : option (string * string) :=
  match s with
  | String c t => if Ascii.eqb c "'"%char then readQuoted t else None
  | EmptyString => None
  end.

End Decoder.

(** ** Errors *)

#[local] Set Warnings "-register-all".

Inductive error : Type :=
| errorString (msg : string)        (* [errors.New], [fmt.Errorf] *)
| MultiError (errs : list error).   (* [packer.MultiError] *)

(** [packer.MultiErrorAppend] with one error to append. *)
Definition MultiErrorAppend (err : option error) (e : error) : error :=
  match err with
  | None => MultiError [e]
  | Some (MultiError es) => MultiError (es ++ [e])
  | Some e0 => MultiError [e0; e]
  end.

(** ** Prepare *)

Definition withRestartTimeout (c : Config) (d : Duration) : Config :=
  mkConfig d (Username c) (Password c) (SearchCriteria c) (Filters c) (UpdateLimit c).
Definition withUsername (c : Config) (u : string) : Config :=
  mkConfig (RestartTimeout c) u (Password c) (SearchCriteria c) (Filters c) (UpdateLimit c).
Definition withUpdateLimit (c : Config) (n : Z) : Config :=
  mkConfig (RestartTimeout c) (Username c) (Password c) (SearchCriteria c) (Filters c) n.

Section Prepare.

(** [config.Decode] belongs to the configuration loader: it writes the
    decoded settings into the configuration and may fail. *)
Variable Raw : Type.
Variable Decode : Config -> list Raw -> Config * option error.

Definition Prepare (p : Provisioner) (raws : list Raw) : Provisioner * option error :=
  let '(c, err) := Decode (config p) raws in
  match err with
  | Some e => (mkProvisioner c, Some e)
  | None =>
      let c := if RestartTimeout c =? 0 then withRestartTimeout c (4 * Hour) else c in
      let c := if String.eqb (Username c) "" then withUsername c "SYSTEM" else c in
      let errs : option error := None in
      let errs :=
        if String.eqb (Username c) ""
        then Some (MultiErrorAppend errs (errorString "Must supply an 'username'"))
        else errs in
      let c := if UpdateLimit c =? 0 then withUpdateLimit c 1000 else c in
      (mkProvisioner c, errs)
  end.

End Prepare.

(** ** The collaborators of Provision *)

Module Elevated.
Record elevatedOptions := mkOptions {
  Username : string;
  Password : string;
  TaskDescription : string;
  TaskName : string;
  Command : string
}.
End Elevated.

(** What [cmd.RunWithUi] reports: an error of the transport, or the exit
    status the command finished with. *)
Inductive RunResult : Type :=
| RunError (e : error)
| Exited (status : Z).

(** The communicator, the context, the UUID source, and the two parts of
    the repository that the provisioner uses and that live in other files
    (the elevated template and the embedded update script).  A command
    takes the time the environment says. *)
Class Collaborators (Env : Type) := {
  comm_Upload : Env -> string -> string -> Env * option error;
  cmd_RunWithUi : Env -> string -> Env * RunResult * N;
  ctx_Done : Env -> Z -> bool;
  uuid_TimeOrderedUUID : Env -> Env * string;
  elevatedTemplate_Execute : Elevated.elevatedOptions -> string * option error;
  MustAsset : string -> string
}.

(** What can be observed of a run, in order. *)
Inductive Event : Type :=
| Said (msg : string)                        (* [ui.Say] *)
| Printed (format : string) (e : error)      (* [fmt.Printf] *)
| Uploaded (path content : string)            (* [comm.Upload] *)
| Ran (command : string)                    (* [cmd.RunWithUi] *)
| Slept (d : Duration).                     (* [time.Sleep] *)

Record State (Env : Type) := mkState {
  env : Env;
  now : Z;                 (* the clock, in nanoseconds *)
  trace : list Event
}.
Arguments mkState {Env}.
Arguments env {Env}.
Arguments now {Env}.
Arguments trace {Env}.

(** A step of the provisioner: a state transformer that gives nothing
    when a loop runs out of fuel. *)
Definition M (Env A : Type) : Type := State Env -> option (State Env * A).

Definition ret {Env A} (a : A) : M Env A := fun s => Some (s, a).
Definition bind {Env A B} (m : M Env A) (f : A -> M Env B) : M Env B :=
  fun s => match m s with
           | Some (s', a) => f a s'
           | None => None
           end.
Definition outOfFuel {Env A} : M Env A := fun _ => None.

Notation "x <- m ;; k" := (bind m (fun x => k))
  (at level 61, m at next level, right associativity).
Notation "' pat <- m ;; k" := (bind m (fun x => match x with pat => k end))
  (at level 61, pat pattern, m at next level, right associativity).
Notation "m ;;; k" := (bind m (fun _ => k))
  (at level 61, right associativity).

Section Provision.

Context {Env : Type} `{Collaborators Env}.

Definition emit (e : Event) : M Env unit :=
  fun s => Some (mkState (env s) (now s) (trace s ++ [e]), tt).

Definition ui_Say (msg : string) : M Env unit := emit (Said msg).

Definition time_Sleep (d : Duration) : M Env unit :=
  fun s => Some (mkState (env s) (now s + d) (trace s ++ [Slept d]), tt).

Definition Upload (path content : string) : M Env (option error) :=
  fun s =>
    let '(e', err) := comm_Upload (env s) path content in
    Some (mkState e' (now s) (trace s ++ [Uploaded path content]), err).

(** [cmd := &packer.RemoteCmd{Command: c}; err := cmd.RunWithUi(...)],
    with [cmd.ExitStatus()] in the result. *)
Definition RunWithUi (command : string) : M Env RunResult :=
  fun s =>
    let '(e', r, dt) := cmd_RunWithUi (env s) command in
    Some (mkState e' (now s + Z.of_N dt) (trace s ++ [Ran command]), r).

Definition TimeOrderedUUID : M Env string :=
  fun s =>
    let '(e', u) := uuid_TimeOrderedUUID (env s) in
    Some (mkState e' (now s) (trace s), u).

Definition ctxDone : M Env bool :=
  fun s => Some (s, ctx_Done (env s) (now s)).

Definition time_Now : M Env Z := fun s => Some (s, now s).

(** *** retry.Config.Run *)

Record RetryConfig := mkRetry {
  RetryDelay : Duration;
  StartTimeout : Duration
}.

(** Modelled from the spec: the loop of [retry.Config.Run], which is not
    among the sources (the Retry Executor of the specification).  Call
    [fn]; on an error stop when the context is done or the start timeout
    has fired, else sleep for the fixed delay and try again. *)
Fixpoint retryLoop (fuel : nat) (delay : Duration) (deadline : option Z)
    (fn : M Env (option error)) : M Env (option error) :=
  match fuel with
  | O => outOfFuel
  | S fuel' =>
      err <- fn ;;
      match err with
      | None => ret None
      | Some e =>
          done <- ctxDone ;;
          t <- time_Now ;;
          let fired := match deadline with
                       | Some d => d <=? t
                       | None => false
                       end in
          if done || fired then ret (Some e)
          else time_Sleep delay ;;; retryLoop fuel' delay deadline fn
      end
  end.

(** Modelled from the spec: [retry.Config.Run] of packer's [common/retry]
    is not among the sources.  It is the Retry Executor of the
    specification: the action is repeated with a fixed delay until it
    succeeds, the budget measured from the first attempt has elapsed, or
    the context is cancelled; then the last error is returned.  A start
    timeout of zero sets no deadline. *)
Definition retry_Run (fuel : nat) (cfg : RetryConfig) (fn : M Env (option error))
    : M Env (option error) :=
  t0 <- time_Now ;;
  let deadline := if StartTimeout cfg =? 0 then None
                  else Some (t0 + StartTimeout cfg) in
  retryLoop fuel (RetryDelay cfg) deadline fn.

(** *** The provisioner *)

Definition retryable (fuel : nat) (p : Provisioner) (f : M Env (option error))
    : M Env (option error) :=
  retry_Run fuel (mkRetry retryableDelay (RestartTimeout (config p))) f.

Definition update (p : Provisioner) : M Env (bool * option error) :=
  ui_Say "Running Windows update..." ;;;
  r <- RunWithUi elevatedCommand ;;
  match r with
  | RunError err => ret (false, Some err)
  | Exited exitStatus =>
      if exitStatus =? 0 then ret (false, None)
      else if exitStatus =? 101 then ret (true, None)
      else ret (false, Some (errorString
             ("Windows update script exited with non-zero exit status: "
                ++ Go.fmt_d exitStatus)))
  end.

(** The first retried function of [restart]. *)
Definition restartAttempt : M Env (option error) :=
  r <- RunWithUi restartCommand ;;
  match r with
  | RunError err => ret (Some err)
  | Exited exitStatus =>
      if negb (exitStatus =? 0)
      then ret (Some (errorString
             ("Failed to restart the machine with exit status: "
                ++ Go.fmt_d exitStatus)))
      else ret None
  end.

(** The second retried function of [restart]: the test restart, its
    abort, and the check for a pending reboot. *)
Definition waitAttempt : M Env (option error) :=
  r <- RunWithUi testRestartCommand ;;
  match r with
  | RunError err => ret (Some err)
  | Exited exitStatus =>
      if negb (exitStatus =? 0)
      then ret (Some (errorString
             ("Machine not yet available (exit status "
                ++ Go.fmt_d exitStatus ++ ")")))
      else
        r <- RunWithUi abortTestRestartCommand ;;
        match r with
        | RunError err => ret (Some err)
        | Exited _ =>
            r <- RunWithUi pendingRebootElevatedCommand ;;
            match r with
            | RunError err => ret (Some err)
            | Exited exitStatus =>
                if negb (exitStatus =? 0)
                then ret (Some (errorString
                       ("Machine not yet available (exit status "
                          ++ Go.fmt_d exitStatus ++ ")")))
                else ret None
            end
        end
  end.

Definition restart (fuel : nat) (p : Provisioner) : M Env (option error) :=
  ui_Say "Restarting the machine..." ;;;
  err <- retryable fuel p restartAttempt ;;
  match err with
  | Some e => ret (Some e)
  | None =>
      ui_Say "Waiting for machine to become available..." ;;;
      retryable fuel p waitAttempt
  end.

(** The [for] loop of [Provision]. *)
Fixpoint provisionLoop (fuel : nat) (p : Provisioner) : M Env (option error) :=
  match fuel with
  | O => outOfFuel
  | S fuel' =>
      '(restartPending, err) <- update p ;;
      match err with
      | Some e => ret (Some e)
      | None =>
          if negb restartPending then ret None
          else
            err <- restart fuel p ;;
            match err with
            | Some e => ret (Some e)
            | None => provisionLoop fuel' p
            end
      end
  end.

(** Rendering an elevated script and uploading it. *)
Definition uploadElevated (p : Provisioner) (path description namePrefix command : string)
    : M Env (option error) :=
  u <- TimeOrderedUUID ;;
  let '(buffer, err) :=
    elevatedTemplate_Execute
      (Elevated.mkOptions (Username (config p)) (Password (config p))
         description (namePrefix ++ u) command) in
  match err with
  | Some e => emit (Printed "Error creating elevated template: %s" e) ;;; ret (Some e)
  | None => Upload path buffer
  end.

(** The three uploads that precede the loop. *)
Definition uploadElevatedScript (p : Provisioner) : M Env (option error) :=
  ui_Say "Uploading the Windows update elevated script..." ;;;
  uploadElevated p elevatedPath "Packer Windows update elevated task"
    "packer-windows-update-" (windowsUpdateCommand p).

Definition uploadPendingRebootScript (p : Provisioner) : M Env (option error) :=
  ui_Say "Uploading the Windows update check for reboot required elevated script..." ;;;
  uploadElevated p pendingRebootElevatedPath
    "Packer Windows update pending reboot elevated task"
    "packer-windows-update-pending-reboot-"
    (windowsUpdateCheckForRebootRequiredCommand p).

Definition uploadUpdateScript : M Env (option error) :=
  ui_Say "Uploading the Windows update script..." ;;;
  Upload windowsUpdatePath (MustAsset "windows-update.ps1").

Definition Provision (fuel : nat) (p : Provisioner) : M Env (option error) :=
  err <- uploadElevatedScript p ;;
  match err with
  | Some e => ret (Some e)
  | None =>
      err <- uploadPendingRebootScript p ;;
      match err with
      | Some e => ret (Some e)
      | None =>
          err <- uploadUpdateScript ;;
          match err with
          | Some e => ret (Some e)
          | None => provisionLoop fuel p
          end
      end
  end.

End Provision.

(** ** What the specification says of the restart sequence, for comparison *)

Section RestartAsSpecified.

Context {Env : Type} `{Collaborators Env}.

(** The availability probe alone: the test restart, aborted on success. *)
Definition probeAttempt : M Env (option error) :=
  r <- RunWithUi testRestartCommand ;;
  match r with
  | RunError err => ret (Some err)
  | Exited exitStatus =>
      if negb (exitStatus =? 0)
      then ret (Some (errorString
             ("Machine not yet available (exit status "
                ++ Go.fmt_d exitStatus ++ ")")))
      else
        r <- RunWithUi abortTestRestartCommand ;;
        match r with
        | RunError err => ret (Some err)
        | Exited _ => ret None
        end
  end.

(** The check for a pending reboot alone. *)
Definition drainAttempt : M Env (option error) :=
  r <- RunWithUi pendingRebootElevatedCommand ;;
  match r with
  | RunError err => ret (Some err)
  | Exited exitStatus =>
      if negb (exitStatus =? 0)
      then ret (Some (errorString
             ("Machine not yet available (exit status "
                ++ Go.fmt_d exitStatus ++ ")")))
      else ret None
  end.

(** Three sub-steps, each retried on its own with the whole budget. *)
Definition restartThreeRetries (fuel : nat) (p : Provisioner) : M Env (option error) :=
  ui_Say "Restarting the machine..." ;;;
  err <- retryable fuel p restartAttempt ;;
  match err with
  | Some e => ret (Some e)
  | None =>
      ui_Say "Waiting for machine to become available..." ;;;
      err <- retryable fuel p probeAttempt ;;
      match err with
      | Some e => ret (Some e)
      | None => retryable fuel p drainAttempt
      end
  end.

(** *** Phases of a run, read off the trace *)

Inductive Phase : Type := UpdateRun | RestartSequence.

Definition phaseOf (e : Event) : list Phase :=
  match e with
  | Ran c => if String.eqb c elevatedCommand then [UpdateRun] else []
  | Said m => if String.eqb m "Restarting the machine..." then [RestartSequence] else []
  | _ => []
  end.

Definition phases (evs : list Event) : list Phase := flat_map phaseOf evs.

(** update, restart, update, ..., update: [k] restarts. *)
Fixpoint alternating (k : nat) : list Phase :=
  match k with
  | O => [UpdateRun]
  | S k' => UpdateRun :: RestartSequence :: alternating k'
  end.

(** What the update script answers when it is run in state [s], and the
    state one run of [update] leaves. *)
Definition scriptResult (s : State Env) : RunResult :=
  snd (fst (cmd_RunWithUi (env s) elevatedCommand)).

Definition afterUpdate (s : State Env) : State Env :=
  mkState (fst (fst (cmd_RunWithUi (env s) elevatedCommand)))
          (now s + Z.of_N (snd (cmd_RunWithUi (env s) elevatedCommand)))
          (trace s ++ [Said "Running Windows update..."; Ran elevatedCommand]).

(** The state and the result that the communicator gives when [command]
    is run in state [s]. *)
Definition ran (s : State Env) (command : string) : State Env * RunResult :=
  (mkState (fst (fst (cmd_RunWithUi (env s) command)))
           (now s + Z.of_N (snd (cmd_RunWithUi (env s) command)))
           (trace s ++ [Ran command]),
   snd (fst (cmd_RunWithUi (env s) command))).

(** [m] only adds events that satisfy [P] to the trace. *)
Definition adds {A} (P : Event -> Prop) (m : M Env A) : Prop :=
  forall s s' a, m s = Some (s', a) ->
    exists evs, trace s' = (trace s ++ evs)%list /\ Forall P evs.

(** [m] always returns, and never turns the clock back. *)
Definition returns {A} (m : M Env A) : Prop :=
  forall s, exists s' a, m s = Some (s', a) /\ now s <= now s'.

(** The update script exits with 101 on its first [k] runs and with 0 on
    the next, and each restart sequence in between completes. *)
Fixpoint RestartsThenConverges (fuel : nat) (p : Provisioner) (k : nat)
    (s : State Env) : Prop :=
  match k with
  | O => scriptResult s = Exited 0
  | S k' =>
      scriptResult s = Exited 101 /\
      exists s1 r s2,
        update p s = Some (s1, r) /\
        restart fuel p s1 = Some (s2, None) /\
        RestartsThenConverges fuel p k' s2
  end.

End RestartAsSpecified.

(** ** A scripted environment

    The communicator answers the commands it is given from a script, one
    answer a command; uploads are answered from a second script.  When a
    script is at its end, commands fail at the transport and uploads
    succeed.  The context is cancelled once a given number of commands
    has been answered ([None]: never); under a cancelled context a
    command is not run: [RunWithUi] returns the error of the context at
    once. *)

Record Scripted := mkScripted {
  answers : list (RunResult * N);
  uploadAnswers : list (option error);
  cancelAfter : option nat
}.

Definition scriptedRun (e : Scripted) (command : string) : Scripted * RunResult * N :=
  match cancelAfter e with
  | Some O => (e, RunError (errorString "context canceled"), 0%N)
  | _ =>
      match answers e with
      | (r, dt) :: rest =>
          (mkScripted rest (uploadAnswers e) (option_map Nat.pred (cancelAfter e)),
           r, dt)
      | [] =>
          (mkScripted [] (uploadAnswers e) (option_map Nat.pred (cancelAfter e)),
           RunError (errorString "connection refused"), 1%N)
      end
  end.

Definition scriptedUpload (e : Scripted) (path content : string)
    : Scripted * option error :=
  match uploadAnswers e with
  | r :: rest => (mkScripted (answers e) rest (cancelAfter e), r)
  | [] => (e, None)
  end.

#[export] Instance ScriptedCollaborators : Collaborators Scripted := {
  comm_Upload := scriptedUpload;
  cmd_RunWithUi := scriptedRun;
  ctx_Done := fun e t => match cancelAfter e with
                         | Some O => true
                         | _ => false
                         end;
  uuid_TimeOrderedUUID := fun e => (e, "5c0a34a6-0000-0000-0000-000000000000");
  elevatedTemplate_Execute := fun o => (Elevated.Command o, None);
  MustAsset := fun name => name
}.

Definition scripted (rs : list (RunResult * N)) : State Scripted :=
  mkState (mkScripted rs [] None) 0 [].

Definition ok : RunResult * N := (Exited 0, 1000000000%N).
Definition exits (status : Z) : RunResult * N := (Exited status, 1000000000%N).
Definition refused : RunResult * N :=
  (RunError (errorString "connection refused"), 1000000000%N).

Definition sampleP : Provisioner :=
  mkProvisioner (mkConfig (4 * Hour) "SYSTEM" "" "IsInstalled=0"
                   (Some ["include:$_.Title -like '*x*'"; "exclude:$true"]) 1000).

(** A loader that takes the last of the raw configurations as it is. *)
Definition lastRaw (c : Config) (raws : list Config) : Config * option error :=
  (last raws c, None).

Definition unsetConfig : Config := mkConfig 0 "" "" "" None 0.

(** A provisioner that gives a restart twelve seconds. *)
Definition hastyP : Provisioner :=
  mkProvisioner (mkConfig (12 * Second) "SYSTEM" "" "" None 1000).

(** The commands of a trace, in the order they were run. *)
Definition commandsOf (evs : list Event) : list string :=
  flat_map (fun e => match e with Ran c => [c] | _ => [] end) evs.

Definition commandsRun {Env A} (r : option (State Env * A)) : option (list string) :=
  option_map (fun x => commandsOf (trace (fst x))) r.

(** An environment whose first upload fails. *)
Definition uploadFails : State Scripted :=
  mkState (mkScripted [] [Some (errorString "upload failed")] None) 0 [].

(** A provisioner whose search criteria is the single byte 0xFF, which is
    not UTF-8, and the three bytes of U+FFFD. *)
Definition byteFF : string := String "255"%char "".
Definition replacementBytes : string :=
  String "239"%char (String "191"%char (String "189"%char "")).

Definition badP : Provisioner :=
  mkProvisioner (mkConfig (4 * Hour) "SYSTEM" "" byteFF None 1000).

(** A provisioner whose filter has a quote and a letter outside ASCII
    (the two bytes of U+00E9). *)
Definition quotedP : Provisioner :=
  mkProvisioner (mkConfig (4 * Hour) "SYSTEM" "" "IsInstalled=0"
                   (Some ["include:$_.Title -like 'O''Brien'";
                          String "195"%char (String "169"%char "")]) 25).

(** ** Ranges of the encodings *)

(** A byte, a UTF-16 code unit, a Unicode scalar value. *)
Definition isByte (b : Z) : Prop := 0 <= b < 256.
Definition isUnit (u : Z) : Prop := 0 <= u < 65536.
Definition isScalar (r : Z) : Prop :=
  0 <= r < 0xD800 \/ 0xE000 <= r <= 0x10FFFF.

(** The two bytes of a code unit, low byte first. *)
Definition leBytes (r : Z) : list Z := [r mod 256; (r / 256) mod 256].

Definition Phase_eq_dec (a b : Phase) : {a = b} + {a <> b}.
Proof. decide equality. Defined.

(** ** Reading an argument list back *)

Definition startsWith (c : ascii) (s : string) : bool :=
  match s with
  | String d _ => Ascii.eqb d c
  | EmptyString => false
  end.

(** Comma-separated single-quoted literals, as the interpreter reads the
    value of an array parameter: a literal, and after each comma another.
    [fuel] bounds the number of literals. *)
Fixpoint readLiterals (fuel : nat) (s : string) : option (list string * string) :=
  match fuel with
  | O => None
  | S fuel' =>
      match Decoder.readLiteral s with
      | None => None
      | Some (v, rest) =>
          match rest with
          | String c rest' =>
              if Ascii.eqb c ","%char then
                match readLiterals fuel' rest' with
                | Some (vs, r) => Some (v :: vs, r)
                | None => None
                end
              else Some ([v], rest)
          | EmptyString => Some ([v], rest)
          end
      end
  end.

(** The characters of a base64 text: the alphabet and the padding. *)
Definition isBase64Char (c : ascii) : bool :=
  match Decoder.dec c with
  | Some _ => true
  | None => Decoder.isPad c
  end.

(** A string of ASCII bytes only. *)
Definition isAscii (s : string) : bool :=
  forallb (fun b => b <? 0x80) (Go.bytesOf s).

(** The paths of the uploads of a trace, in order. *)
Definition uploadedPaths (evs : list Event) : list string :=
  flat_map (fun e => match e with Uploaded path _ => [path] | _ => [] end) evs.

(** The events of the two stages of a restart sequence. *)
Definition forcedRestartEvents : list Event :=
  [Ran restartCommand; Slept retryableDelay].

Definition waitEvents : list Event :=
  [Ran testRestartCommand; Ran abortTestRestartCommand;
   Ran pendingRebootElevatedCommand; Slept retryableDelay].

(** The events of [n] probes that failed, each followed by its sleep. *)
Definition failedProbes (n : nat) : list Event :=
  List.concat (repeat [Ran testRestartCommand; Slept retryableDelay] n).

(** A machine that accepts the forced restart, refuses the probe [n]
    times while it reboots, and then answers the probe, the abort and the
    check; every answer takes a second. *)
Definition rebooting (n : nat) : State Scripted :=
  scripted (ok :: repeat refused n ++ [ok; ok; ok]).

(** * Properties *)

(** ** Strings *)

Lemma append_nil_r (s : string) : s ++ "" = s.
Proof. induction s; simpl; congruence. Qed.

Lemma append_assoc (a b c : string) : (a ++ b) ++ c = a ++ (b ++ c).
Proof. induction a; simpl; congruence. Qed.

Lemma concat_empty_cons (x : string) (xs : list string) :
  String.concat "" (x :: xs) = x ++ String.concat "" xs.
Proof.
  destruct xs; simpl; [symmetry; apply append_nil_r | reflexivity].
Qed.

(** ** The command encoder *)

Lemma Replace_quoteDoubled (value : string) :
  Go.Replace value "'"%char "''" = quoteDoubled value.
Proof.
  unfold quoteDoubled.
  induction value as [|c rest IH]; [reflexivity|].
  cbn [Go.Replace list_ascii_of_string map].
  rewrite concat_empty_cons, IH.
  destruct (Ascii.eqb c "'"%char); reflexivity.
Qed.

Lemma readQuoted_escape (value rest : string) :
  match rest with String c _ => c <> "'"%char | EmptyString => True end ->
  Decoder.readQuoted (Go.Replace value "'"%char "''" ++ String "'"%char rest)
  = Some (value, rest).
Proof.
  intros Hrest.
  induction value as [|c v IH]; simpl.
  - destruct rest as [|c r]; [reflexivity|].
    destruct (Ascii.eqb_spec c "'"%char); [contradiction|reflexivity].
  - destruct (Ascii.eqb_spec c "'"%char) as [->|Hc]; simpl.
    + rewrite IH. reflexivity.
    + destruct (Ascii.eqb_spec c "'"%char); [contradiction|].
      rewrite IH. reflexivity.
Qed.

Lemma readLiteral_escape (value rest : string) :
  match rest with String c _ => c <> "'"%char | EmptyString => True end ->
  Decoder.readLiteral (escapePowerShellString value ++ rest) = Some (value, rest).
Proof.
  intros Hrest. unfold escapePowerShellString. simpl.
  rewrite append_assoc. apply (readQuoted_escape value rest Hrest).
Qed.

Lemma filters_loop (fs : list string) (i : nat) (buffer : string) :
  snd (fold_left filtersStep fs (S i, buffer))
  = buffer ++ String.concat "" (map (fun f => "," ++ escapePowerShellString f) fs).
Proof.
  revert i buffer.
  induction fs as [|f fs IH]; intros i buffer.
  - simpl. symmetry. apply append_nil_r.
  - cbn [fold_left map]. rewrite concat_empty_cons.
    change (filtersStep (S i, buffer) f)
      with (S (S i), Go.WriteString (Go.WriteString buffer ",")
                       (escapePowerShellString f)).
    rewrite IH. unfold Go.WriteString.
    rewrite !append_assoc. reflexivity.
Qed.

Lemma concat_comma (f : string) (fs : list string) :
  String.concat "," (map escapePowerShellString (f :: fs))
  = escapePowerShellString f
      ++ String.concat "" (map (fun f => "," ++ escapePowerShellString f) fs).
Proof.
  revert f. induction fs as [|g fs IH]; intros f.
  - change (escapePowerShellString f = escapePowerShellString f ++ "").
    symmetry. apply append_nil_r.
  - change (String.concat "," (map escapePowerShellString (f :: g :: fs)))
      with (escapePowerShellString f ++ ","
              ++ String.concat "," (map escapePowerShellString (g :: fs))).
    rewrite IH. cbn [map]. rewrite concat_empty_cons, !append_assoc.
    reflexivity.
Qed.

Lemma filtersArgument_join (fs : list string) :
  filtersArgument (Some fs)
  = " -Filters " ++ String.concat "," (map escapePowerShellString fs).
Proof.
  unfold filtersArgument, Go.WriteString.
  destruct fs as [|f fs]; [reflexivity|].
  cbn [fold_left filtersStep Nat.ltb Nat.leb].
  rewrite filters_loop, concat_comma. unfold Go.WriteString.
  rewrite !append_assoc. reflexivity.
Qed.

(** C5: a free-form value is embedded between single quotes with every
    single quote in it doubled and every other byte kept (O'Brien gives
    'O''Brien'), so that reading the literal back gives the value; several
    filters are joined by a bare comma. *)
Theorem escape_quotes_and_join_with_comma :
  (forall value,
      escapePowerShellString value = "'" ++ quoteDoubled value ++ "'"
      /\ Decoder.readLiteral (escapePowerShellString value) = Some (value, ""))
  /\ escapePowerShellString "O'Brien" = "'O''Brien'"
  /\ (forall c searchCriteria,
         searchCriteriaArgument (String c searchCriteria)
         = " -SearchCriteria " ++ escapePowerShellString (String c searchCriteria))
  /\ (forall filters,
         filtersArgument (Some filters)
         = " -Filters " ++ String.concat "," (map escapePowerShellString filters)).
Proof.
  split; [|split; [reflexivity|split]].
  - intros value. split.
    + unfold escapePowerShellString. now rewrite Replace_quoteDoubled.
    + rewrite <- (append_nil_r (escapePowerShellString value)).
      now apply readLiteral_escape.
  - reflexivity.
  - apply filtersArgument_join.
Qed.

(** The arguments that are left out: an empty search criteria and a nil
    filter slice add nothing to the invocation. *)
Lemma absent_arguments_are_omitted :
  searchCriteriaArgument "" = "" /\ filtersArgument None = "".
Proof. split; reflexivity. Qed.

Lemma absent_arguments_invocation (c : Config) :
  SearchCriteria c = "" -> Filters c = None ->
  windowsUpdateInvocation (mkProvisioner c)
  = windowsUpdatePath ++ " -UpdateLimit " ++ Go.fmt_d (UpdateLimit c).
Proof.
  intros Hs Hf. unfold windowsUpdateInvocation. simpl config.
  rewrite Hs, Hf. reflexivity.
Qed.

(** C4: the filters argument is left out for the nil slice only.  For a
    slice that is empty and not nil, the guard [filters == nil] does not
    hold and the loop writes nothing: the encoder emits the flag
    [-Filters] with an empty value, followed directly by the next flag. *)
Theorem filtersArgument_empty_slice_emits_flag :
  filtersArgument (Some []) = " -Filters "
  /\ windowsUpdateInvocation
       (mkProvisioner (mkConfig (4 * Hour) "SYSTEM" "" "" (Some []) 1000))
     = "C:/Windows/Temp/packer-windows-update.ps1 -Filters  -UpdateLimit 1000".
Proof. split; reflexivity. Qed.

(** ** Prepare *)

Section PrepareProperties.

Variable Raw : Type.
Variable Decode : Config -> list Raw -> Config * option error.

Lemma Prepare_decode_error (p : Provisioner) (raws : list Raw) c e :
  Decode (config p) raws = (c, Some e) ->
  Prepare Raw Decode p raws = (mkProvisioner c, Some e).
Proof. intros HD. unfold Prepare. now rewrite HD. Qed.

(** C9: after a successful decoding, a restart timeout of 0 becomes 4
    hours, an empty username becomes SYSTEM, an update limit of 0 becomes
    1000, and every field that was set keeps its value. *)
Theorem Prepare_fills_defaults (p : Provisioner) (raws : list Raw) (c : Config) :
  Decode (config p) raws = (c, None) ->
  config (fst (Prepare Raw Decode p raws))
  = mkConfig (if RestartTimeout c =? 0 then 4 * Hour else RestartTimeout c)
             (if String.eqb (Username c) "" then "SYSTEM" else Username c)
             (Password c)
             (SearchCriteria c)
             (Filters c)
             (if UpdateLimit c =? 0 then 1000 else UpdateLimit c).
Proof.
  intros HD. unfold Prepare. rewrite HD.
  destruct c as [rt u pw sc fs ul].
  cbn [RestartTimeout Username UpdateLimit Password SearchCriteria Filters].
  destruct (rt =? 0); cbn -[Z.mul];
    destruct (String.eqb_spec u "") as [->|Hu]; cbn -[Z.mul];
    destruct (ul =? 0); reflexivity.
Qed.

(** C10: the username is defaulted before it is tested, so the test for
    an empty username never holds: whenever the decoding succeeds,
    Prepare returns no error. *)
Theorem Prepare_never_reports_missing_username
    (p : Provisioner) (raws : list Raw) (c : Config) :
  Decode (config p) raws = (c, None) ->
  snd (Prepare Raw Decode p raws) = None.
Proof.
  intros HD. unfold Prepare. rewrite HD.
  destruct (String.eqb_spec
              (Username (if RestartTimeout c =? 0
                         then withRestartTimeout c (4 * Hour) else c)) "")
    as [Hu|Hu].
  - reflexivity.
  - destruct (String.eqb_spec
                (Username (if RestartTimeout c =? 0
                           then withRestartTimeout c (4 * Hour) else c)) "");
      [contradiction | reflexivity].
Qed.

End PrepareProperties.


Lemma four_hours : 4 * Hour = 14400000000000.
Proof. vm_compute. reflexivity. Qed.

Lemma Prepare_fills_defaults_witness :
  lastRaw unsetConfig [unsetConfig] = (unsetConfig, None)
  /\ config (fst (Prepare Config lastRaw (mkProvisioner unsetConfig) [unsetConfig]))
     = mkConfig (4 * Hour) "SYSTEM" "" "" None 1000.
Proof.
  split; [reflexivity|].
  exact (Prepare_fills_defaults Config lastRaw (mkProvisioner unsetConfig)
           [unsetConfig] unsetConfig eq_refl).
Defined.

Lemma Prepare_never_reports_missing_username_witness :
  lastRaw unsetConfig [unsetConfig] = (unsetConfig, None)
  /\ snd (Prepare Config lastRaw (mkProvisioner unsetConfig) [unsetConfig]) = None.
Proof.
  split; [reflexivity|].
  exact (Prepare_never_reports_missing_username Config lastRaw
           (mkProvisioner unsetConfig) [unsetConfig] unsetConfig eq_refl).
Defined.

(** ** The update and restart loop *)

Section Orchestration.

Context {Env : Type} `{Collaborators Env}.

Lemma update_eq (p : Provisioner) (s : State Env) :
  update p s
  = Some (afterUpdate s,
          match scriptResult s with
          | RunError err => (false, Some err)
          | Exited st =>
              if st =? 0 then (false, None)
              else if st =? 101 then (true, None)
              else (false, Some (errorString
                     ("Windows update script exited with non-zero exit status: "
                        ++ Go.fmt_d st)))
          end).
Proof.
  unfold update, afterUpdate, scriptResult, bind, ui_Say, emit, RunWithUi, ret.
  cbn [env now trace].
  destruct (cmd_RunWithUi (env s) elevatedCommand) as [[e' r] dt].
  cbn [fst snd]. rewrite <- app_assoc. cbn [app].
  destruct r as [err|st]; [reflexivity|].
  destruct (st =? 0); [reflexivity|].
  destruct (st =? 101); reflexivity.
Qed.

Lemma provisionLoop_step (p : Provisioner) (fuel : nat) (s : State Env) :
  provisionLoop (S fuel) p s
  = match scriptResult s with
    | RunError err => Some (afterUpdate s, Some err)
    | Exited st =>
        if st =? 0 then Some (afterUpdate s, None)
        else if st =? 101 then
          match restart (S fuel) p (afterUpdate s) with
          | Some (s2, Some e) => Some (s2, Some e)
          | Some (s2, None) => provisionLoop fuel p s2
          | None => None
          end
        else Some (afterUpdate s, Some (errorString
               ("Windows update script exited with non-zero exit status: "
                  ++ Go.fmt_d st)))
    end.
Proof.
  cbn [provisionLoop]. unfold bind at 1. rewrite update_eq.
  destruct (scriptResult s) as [err|st]; [reflexivity|].
  destruct (st =? 0); [reflexivity|].
  destruct (st =? 101); [|reflexivity].
  cbn [negb]. unfold bind.
  destruct (restart (S fuel) p (afterUpdate s)) as [[s2 [e|]]|]; reflexivity.
Qed.

Lemma Upload_eq (path content : string) (s : State Env) :
  Upload path content s
  = Some (mkState (fst (comm_Upload (env s) path content)) (now s)
            (trace s ++ [Uploaded path content]),
          snd (comm_Upload (env s) path content)).
Proof.
  unfold Upload. destruct (comm_Upload (env s) path content). reflexivity.
Qed.

Lemma uploadElevated_one_event
    (p : Provisioner) (path description namePrefix command : string)
    (s s' : State Env) (r : option error) :
  uploadElevated p path description namePrefix command s = Some (s', r) ->
  exists e, trace s' = (trace s ++ [e])%list /\ forall c, e <> Ran c.
Proof.
  unfold uploadElevated, bind, TimeOrderedUUID.
  destruct (uuid_TimeOrderedUUID (env s)) as [e1 u].
  destruct (elevatedTemplate_Execute _) as [buffer [err|]].
  - unfold emit, ret. cbn [env now trace]. intros [= <- <-].
    eexists. split; [reflexivity|discriminate].
  - rewrite Upload_eq. cbn [env now trace]. intros [= <- <-].
    eexists. split; [reflexivity|discriminate].
Qed.

Lemma Provision_eq (p : Provisioner) (fuel : nat) (s : State Env) :
  Provision fuel p s
  = match uploadElevatedScript p s with
    | Some (s1, Some e) => Some (s1, Some e)
    | Some (s1, None) =>
        match uploadPendingRebootScript p s1 with
        | Some (s2, Some e) => Some (s2, Some e)
        | Some (s2, None) =>
            match uploadUpdateScript s2 with
            | Some (s3, Some e) => Some (s3, Some e)
            | Some (s3, None) => provisionLoop fuel p s3
            | None => None
            end
        | None => None
        end
    | None => None
    end.
Proof.
  unfold Provision, bind.
  destruct (uploadElevatedScript p s) as [[s1 [e|]]|]; try reflexivity.
  destruct (uploadPendingRebootScript p s1) as [[s2 [e|]]|]; try reflexivity.
  destruct (uploadUpdateScript s2) as [[s3 [e|]]|]; reflexivity.
Qed.

Lemma uploadElevated_uploads
    (p : Provisioner) (path description namePrefix command : string)
    (s : State Env) (e1 : Env) (u buffer : string) (e2 : Env) (r : option error) :
  uuid_TimeOrderedUUID (env s) = (e1, u) ->
  elevatedTemplate_Execute
    (Elevated.mkOptions (Username (config p)) (Password (config p))
       description (namePrefix ++ u) command)
  = (buffer, None) ->
  comm_Upload e1 path buffer = (e2, r) ->
  uploadElevated p path description namePrefix command s
  = Some (mkState e2 (now s) (trace s ++ [Uploaded path buffer]), r).
Proof.
  intros Hu Ht Hc. unfold uploadElevated, bind, TimeOrderedUUID.
  rewrite Hu, Ht, Upload_eq. cbn [env now trace]. rewrite Hc. reflexivity.
Qed.

(** C7: an error of an upload step, or a transport error of the run of
    the update script, is what Provision returns, in the state the failed
    step left: each upload step adds its message and one more event, the
    failed run of the script is the last event, nothing is retried and the
    loop is not entered again.  In particular, when the communicator
    fails the upload of the elevated script, of the pending reboot script
    or of the update script, Provision returns that error with the failed
    upload as its last event; and when, after the three uploads, the
    communicator fails the first run of the update script, Provision
    returns that error with that run as its last event. *)
Theorem transport_errors_are_fatal (p : Provisioner) (fuel : nat) (s : State Env) :
  (forall s1 e,
      uploadElevatedScript p s = Some (s1, Some e) ->
      Provision fuel p s = Some (s1, Some e))
  /\ (forall s1 s2 e,
      uploadElevatedScript p s = Some (s1, None) ->
      uploadPendingRebootScript p s1 = Some (s2, Some e) ->
      Provision fuel p s = Some (s2, Some e))
  /\ (forall s1 s2 s3 e,
      uploadElevatedScript p s = Some (s1, None) ->
      uploadPendingRebootScript p s1 = Some (s2, None) ->
      uploadUpdateScript s2 = Some (s3, Some e) ->
      Provision fuel p s = Some (s3, Some e))
  /\ (forall s' r,
      uploadElevatedScript p s = Some (s', r)
      \/ uploadPendingRebootScript p s = Some (s', r)
      \/ uploadUpdateScript s = Some (s', r) ->
      exists msg e, trace s' = (trace s ++ [Said msg; e])%list
                    /\ forall c, e <> Ran c)
  /\ (forall path content e' err,
      comm_Upload (env s) path content = (e', Some err) ->
      Upload path content s
      = Some (mkState e' (now s) (trace s ++ [Uploaded path content]), Some err))
  /\ (forall err,
      scriptResult s = RunError err ->
      provisionLoop (S fuel) p s = Some (afterUpdate s, Some err)
      /\ trace (afterUpdate s)
         = (trace s ++ [Said "Running Windows update..."; Ran elevatedCommand])%list)
  /\ (forall e1 u buffer e2 err,
      uuid_TimeOrderedUUID (env s) = (e1, u) ->
      elevatedTemplate_Execute
        (Elevated.mkOptions (Username (config p)) (Password (config p))
           "Packer Windows update elevated task"
           ("packer-windows-update-" ++ u) (windowsUpdateCommand p))
      = (buffer, None) ->
      comm_Upload e1 elevatedPath buffer = (e2, Some err) ->
      Provision fuel p s
      = Some (mkState e2 (now s)
                (trace s ++ [Said "Uploading the Windows update elevated script...";
                             Uploaded elevatedPath buffer]),
              Some err))
  /\ (forall s1 e1 u buffer e2 err,
      uploadElevatedScript p s = Some (s1, None) ->
      uuid_TimeOrderedUUID (env s1) = (e1, u) ->
      elevatedTemplate_Execute
        (Elevated.mkOptions (Username (config p)) (Password (config p))
           "Packer Windows update pending reboot elevated task"
           ("packer-windows-update-pending-reboot-" ++ u)
           (windowsUpdateCheckForRebootRequiredCommand p))
      = (buffer, None) ->
      comm_Upload e1 pendingRebootElevatedPath buffer = (e2, Some err) ->
      Provision fuel p s
      = Some (mkState e2 (now s1)
                (trace s1
                   ++ [Said "Uploading the Windows update check for reboot required elevated script...";
                       Uploaded pendingRebootElevatedPath buffer]),
              Some err))
  /\ (forall s1 s2 e3 err,
      uploadElevatedScript p s = Some (s1, None) ->
      uploadPendingRebootScript p s1 = Some (s2, None) ->
      comm_Upload (env s2) windowsUpdatePath (MustAsset "windows-update.ps1")
      = (e3, Some err) ->
      Provision fuel p s
      = Some (mkState e3 (now s2)
                (trace s2 ++ [Said "Uploading the Windows update script...";
                              Uploaded windowsUpdatePath
                                (MustAsset "windows-update.ps1")]),
              Some err))
  /\ (forall s1 s2 s3 err,
      uploadElevatedScript p s = Some (s1, None) ->
      uploadPendingRebootScript p s1 = Some (s2, None) ->
      uploadUpdateScript s2 = Some (s3, None) ->
      scriptResult s3 = RunError err ->
      Provision (S fuel) p s = Some (afterUpdate s3, Some err)).
Proof.
  split; [|split; [|split; [|split; [|split; [|split; [|split; [|split; [|split]]]]]]]].
  - intros s1 e H1. rewrite Provision_eq, H1. reflexivity.
  - intros s1 s2 e H1 H2. rewrite Provision_eq, H1, H2. reflexivity.
  - intros s1 s2 s3 e H1 H2 H3. rewrite Provision_eq, H1, H2, H3. reflexivity.
  - intros s' r [Hu|[Hu|Hu]].
    + unfold uploadElevatedScript, bind, ui_Say, emit in Hu.
      apply uploadElevated_one_event in Hu. destruct Hu as [e [Ht He]].
      cbn [trace] in Ht. rewrite <- app_assoc in Ht.
      do 2 eexists. split; [exact Ht|exact He].
    + unfold uploadPendingRebootScript, bind, ui_Say, emit in Hu.
      apply uploadElevated_one_event in Hu. destruct Hu as [e [Ht He]].
      cbn [trace] in Ht. rewrite <- app_assoc in Ht.
      do 2 eexists. split; [exact Ht|exact He].
    + unfold uploadUpdateScript, bind, ui_Say, emit in Hu.
      rewrite Upload_eq in Hu. cbn [env now trace] in Hu.
      injection Hu as <- <-. cbn [trace]. rewrite <- app_assoc.
      do 2 eexists. split; [reflexivity|discriminate].
  - intros path content e' err Hc. rewrite Upload_eq, Hc. reflexivity.
  - intros err Hs. split; [|reflexivity].
    rewrite provisionLoop_step, Hs. reflexivity.
  - intros e1 u buffer e2 err Hu Ht Hc. rewrite Provision_eq.
    unfold uploadElevatedScript, bind at 1, ui_Say, emit.
    rewrite (uploadElevated_uploads p _ _ _ _
               (mkState (env s) (now s)
                  (trace s ++ [Said "Uploading the Windows update elevated script..."]))
               _ _ _ _ _ Hu Ht Hc).
    cbn [now trace]. rewrite <- app_assoc. reflexivity.
  - intros s1 e1 u buffer e2 err H1 Hu Ht Hc. rewrite Provision_eq, H1.
    unfold uploadPendingRebootScript, bind at 1, ui_Say, emit.
    rewrite (uploadElevated_uploads p _ _ _ _
               (mkState (env s1) (now s1)
                  (trace s1 ++ [Said "Uploading the Windows update check for reboot required elevated script..."]))
               _ _ _ _ _ Hu Ht Hc).
    cbn [now trace]. rewrite <- app_assoc. reflexivity.
  - intros s1 s2 e3 err H1 H2 Hc. rewrite Provision_eq, H1, H2.
    unfold uploadUpdateScript, bind, ui_Say, emit.
    rewrite Upload_eq. cbn [env now trace]. rewrite Hc.
    cbn [fst snd]. rewrite <- app_assoc. reflexivity.
  - intros s1 s2 s3 err H1 H2 H3 Hs.
    rewrite Provision_eq, H1, H2, H3, provisionLoop_step, Hs. reflexivity.
Qed.

(** *** What a step adds to the trace *)

Lemma adds_ret {A} (P : Event -> Prop) (a : A) : adds P (ret a : M Env A).
Proof.
  intros s s' a' [= <- <-]. exists []. split; [now rewrite app_nil_r|constructor].
Qed.

Lemma adds_bind {A B} (P : Event -> Prop) (m : M Env A) (f : A -> M Env B) :
  adds P m -> (forall a, adds P (f a)) -> adds P (bind m f).
Proof.
  intros Hm Hf s s' b Hb. unfold bind in Hb.
  destruct (m s) as [[s1 a]|] eqn:Em; [|discriminate].
  destruct (Hm _ _ _ Em) as [evs1 [E1 F1]].
  destruct (Hf a _ _ _ Hb) as [evs2 [E2 F2]].
  exists (evs1 ++ evs2)%list. split.
  - rewrite E2, E1. now rewrite app_assoc.
  - apply Forall_app. now split.
Qed.

Lemma adds_emit (P : Event -> Prop) (e : Event) : P e -> adds P (emit e : M Env unit).
Proof.
  intros He s s' a [= <- <-]. exists [e]. split; [reflexivity|now constructor].
Qed.

Lemma adds_Sleep (P : Event -> Prop) (d : Duration) :
  P (Slept d) -> adds P (time_Sleep d : M Env unit).
Proof.
  intros He s s' a [= <- <-]. exists [Slept d]. split; [reflexivity|now constructor].
Qed.

Lemma adds_RunWithUi (P : Event -> Prop) (command : string) :
  P (Ran command) -> adds P (RunWithUi command : M Env RunResult).
Proof.
  intros He s s' a. unfold RunWithUi.
  destruct (cmd_RunWithUi (env s) command) as [[e' r] dt].
  intros [= <- <-]. exists [Ran command]. split; [reflexivity|now constructor].
Qed.

Lemma adds_ctxDone (P : Event -> Prop) : adds P (ctxDone : M Env bool).
Proof.
  intros s s' a [= <- <-]. exists []. split; [now rewrite app_nil_r|constructor].
Qed.

Lemma adds_time_Now (P : Event -> Prop) : adds P (time_Now : M Env Z).
Proof.
  intros s s' a [= <- <-]. exists []. split; [now rewrite app_nil_r|constructor].
Qed.

Lemma adds_outOfFuel {A} (P : Event -> Prop) : adds P (@outOfFuel Env A).
Proof. intros s s' a [=]. Qed.

Lemma adds_retryLoop (P : Event -> Prop) (fuel : nat) (delay : Duration)
    (deadline : option Z) (fn : M Env (option error)) :
  adds P fn -> P (Slept delay) -> adds P (retryLoop fuel delay deadline fn).
Proof.
  intros Hfn Hs. induction fuel as [|fuel IH]; [apply adds_outOfFuel|].
  cbn [retryLoop]. apply adds_bind; [exact Hfn|].
  intros [e|]; [|apply adds_ret].
  apply adds_bind; [apply adds_ctxDone|]. intros done.
  apply adds_bind; [apply adds_time_Now|]. intros t.
  destruct (done || _); [apply adds_ret|].
  apply adds_bind; [now apply adds_Sleep|]. intros _. exact IH.
Qed.

Lemma adds_retryable (P : Event -> Prop) (fuel : nat) (p : Provisioner)
    (fn : M Env (option error)) :
  adds P fn -> P (Slept retryableDelay) -> adds P (retryable fuel p fn).
Proof.
  intros Hfn Hs. unfold retryable, retry_Run.
  apply adds_bind; [apply adds_time_Now|]. intros t0.
  now apply adds_retryLoop.
Qed.

Lemma adds_restartAttempt (P : Event -> Prop) :
  P (Ran restartCommand) -> adds P (restartAttempt : M Env (option error)).
Proof.
  intros HP. unfold restartAttempt.
  apply adds_bind; [now apply adds_RunWithUi|].
  intros [err|st]; [apply adds_ret|].
  destruct (negb _); apply adds_ret.
Qed.

Lemma adds_waitAttempt (P : Event -> Prop) :
  P (Ran testRestartCommand) -> P (Ran abortTestRestartCommand) ->
  P (Ran pendingRebootElevatedCommand) ->
  adds P (waitAttempt : M Env (option error)).
Proof.
  intros H1 H2 H3. unfold waitAttempt.
  apply adds_bind; [now apply adds_RunWithUi|].
  intros [err|st]; [apply adds_ret|].
  destruct (negb _); [apply adds_ret|].
  apply adds_bind; [now apply adds_RunWithUi|].
  intros [err|st']; [apply adds_ret|].
  apply adds_bind; [now apply adds_RunWithUi|].
  intros [err|st'']; [apply adds_ret|].
  destruct (negb _); apply adds_ret.
Qed.

(** The events of a restart sequence: its opening message, and then
    nothing that counts as the start of a phase. *)
Lemma restart_trace (fuel : nat) (p : Provisioner) (s s' : State Env)
    (r : option error) :
  restart fuel p s = Some (s', r) ->
  exists evs,
    trace s' = (trace s ++ Said "Restarting the machine..." :: evs)%list
    /\ Forall (fun e => phaseOf e = []) evs.
Proof.
  unfold restart, bind at 1, ui_Say, emit. intros Hr.
  assert (Ha : adds (fun e => phaseOf e = [])
                 (err <- retryable fuel p restartAttempt ;;
                  match err with
                  | Some e => ret (Some e)
                  | None =>
                      emit (Said "Waiting for machine to become available...") ;;;
                      retryable fuel p waitAttempt
                  end)).
  { apply adds_bind.
    - apply adds_retryable; [apply adds_restartAttempt|]; reflexivity.
    - intros [e|]; [apply adds_ret|].
      apply adds_bind; [apply adds_emit; reflexivity|]. intros _.
      apply adds_retryable; [apply adds_waitAttempt|]; reflexivity. }
  destruct (Ha _ _ _ Hr) as [evs [Et Fe]]. cbn [trace] in Et.
  exists evs. split; [|exact Fe].
  rewrite Et, <- app_assoc. reflexivity.
Qed.

Lemma provisionLoop_trace (fuel : nat) (p : Provisioner) (s s' : State Env)
    (r : option error) :
  provisionLoop fuel p s = Some (s', r) ->
  exists evs,
    trace s' = (trace s ++ Said "Running Windows update..."
                  :: Ran elevatedCommand :: evs)%list.
Proof.
  revert s. induction fuel as [|fuel IH]; intros s; [discriminate|].
  rewrite provisionLoop_step.
  assert (Hdone : forall x, Some (afterUpdate s, x) = Some (s', r) ->
            exists evs, trace s' = (trace s ++ Said "Running Windows update..."
                                      :: Ran elevatedCommand :: evs)%list).
  { intros x [= <- _]. exists []. reflexivity. }
  destruct (scriptResult s) as [err|st]; [apply Hdone|].
  destruct (st =? 0); [apply Hdone|].
  destruct (st =? 101); [|apply Hdone].
  destruct (restart (S fuel) p (afterUpdate s)) as [[s2 r2]|] eqn:Er; [|discriminate].
  destruct (restart_trace _ _ _ _ _ Er) as (evsR & EtR & _).
  cbn [afterUpdate trace] in EtR. rewrite <- app_assoc in EtR. cbn [app] in EtR.
  destruct r2 as [e|].
  - intros [= <- _]. eexists. exact EtR.
  - intros Hl. destruct (IH _ Hl) as (evs & Et).
    eexists. rewrite Et, EtR, <- app_assoc. reflexivity.
Qed.

(** C1: the exit status of the update script is read three ways.  With 0
    the loop ends without error.  With 101 the restart sequence runs
    next: its error, if any, is returned, and when it completes the loop
    goes on, and what it does first is to run the update script again.
    With any other status the loop ends at once with the error that
    carries the status, and the run of the script is the last event: no
    restart follows. *)
Theorem update_exit_status_three_ways
    (p : Provisioner) (fuel : nat) (s : State Env) (status : Z) :
  scriptResult s = Exited status ->
  trace (afterUpdate s)
  = (trace s ++ [Said "Running Windows update..."; Ran elevatedCommand])%list
  /\ (status = 0 -> provisionLoop (S fuel) p s = Some (afterUpdate s, None))
  /\ (status = 101 ->
      provisionLoop (S fuel) p s
      = match restart (S fuel) p (afterUpdate s) with
        | Some (s2, Some e) => Some (s2, Some e)
        | Some (s2, None) => provisionLoop fuel p s2
        | None => None
        end
      /\ (forall s2 r2,
          restart (S fuel) p (afterUpdate s) = Some (s2, r2) ->
          exists evs,
            trace s2 = (trace (afterUpdate s)
                          ++ Said "Restarting the machine..." :: evs)%list)
      /\ (forall s2 s' r,
          restart (S fuel) p (afterUpdate s) = Some (s2, None) ->
          provisionLoop (S fuel) p s = Some (s', r) ->
          exists evs,
            trace s' = (trace s2 ++ Said "Running Windows update..."
                          :: Ran elevatedCommand :: evs)%list))
  /\ (status <> 0 -> status <> 101 ->
      provisionLoop (S fuel) p s
      = Some (afterUpdate s,
              Some (errorString
                      ("Windows update script exited with non-zero exit status: "
                         ++ Go.fmt_d status)))).
Proof.
  intros Hst. split; [reflexivity|]. split; [|split].
  - intros ->. rewrite provisionLoop_step, Hst. reflexivity.
  - intros ->. split; [|split].
    + rewrite provisionLoop_step, Hst. reflexivity.
    + intros s2 r2 Hr. destruct (restart_trace _ _ _ _ _ Hr) as (evs & Et & _).
      exists evs. exact Et.
    + intros s2 s' r Hr. rewrite provisionLoop_step, Hst, Hr.
      cbn [Z.eqb Pos.eqb]. apply provisionLoop_trace.
  - intros H0 H101. rewrite provisionLoop_step, Hst.
    destruct (Z.eqb_spec status 0); [contradiction|].
    destruct (Z.eqb_spec status 101); [contradiction|reflexivity].
Qed.

(** *** More fuel changes nothing *)

Lemma retryLoop_mono (fuel fuel' : nat) (delay : Duration) (deadline : option Z)
    (fn : M Env (option error)) (s : State Env) x :
  retryLoop fuel delay deadline fn s = Some x -> (fuel <= fuel')%nat ->
  retryLoop fuel' delay deadline fn s = Some x.
Proof.
  revert fuel' s. induction fuel as [|fuel IH]; intros fuel' s; [discriminate|].
  intros Hr Hle. destruct fuel' as [|fuel']; [lia|].
  cbn [retryLoop] in *. unfold bind in *.
  destruct (fn s) as [[s1 [e|]]|]; [|exact Hr|discriminate].
  unfold ctxDone, time_Now in *.
  destruct (ctx_Done (env s1) (now s1) || _); [exact Hr|].
  unfold time_Sleep in *. apply IH; [exact Hr|lia].
Qed.

Lemma retryable_mono (fuel fuel' : nat) (p : Provisioner)
    (fn : M Env (option error)) (s : State Env) x :
  retryable fuel p fn s = Some x -> (fuel <= fuel')%nat ->
  retryable fuel' p fn s = Some x.
Proof.
  unfold retryable, retry_Run, bind, time_Now. apply retryLoop_mono.
Qed.

Lemma restart_eq (fuel : nat) (p : Provisioner) (s : State Env) :
  restart fuel p s
  = match retryable fuel p restartAttempt
            (mkState (env s) (now s) (trace s ++ [Said "Restarting the machine..."])) with
    | Some (s1, Some e) => Some (s1, Some e)
    | Some (s1, None) =>
        retryable fuel p waitAttempt
          (mkState (env s1) (now s1)
             (trace s1 ++ [Said "Waiting for machine to become available..."]))
    | None => None
    end.
Proof.
  unfold restart, bind, ui_Say, emit.
  destruct (retryable fuel p restartAttempt _) as [[s1 [e|]]|]; reflexivity.
Qed.

Lemma restart_mono (fuel fuel' : nat) (p : Provisioner) (s : State Env) x :
  restart fuel p s = Some x -> (fuel <= fuel')%nat ->
  restart fuel' p s = Some x.
Proof.
  intros Hr Hle. rewrite restart_eq in *.
  destruct (retryable fuel p restartAttempt _) as [[s1 r1]|] eqn:E1; [|discriminate].
  rewrite (retryable_mono _ _ _ _ _ _ E1 Hle).
  destruct r1 as [e|]; [exact Hr|].
  eapply retryable_mono; eassumption.
Qed.

Lemma provisionLoop_mono (fuel fuel' : nat) (p : Provisioner) (s : State Env) x :
  provisionLoop fuel p s = Some x -> (fuel <= fuel')%nat ->
  provisionLoop fuel' p s = Some x.
Proof.
  revert fuel' s. induction fuel as [|fuel IH]; intros fuel' s; [discriminate|].
  intros Hr Hle. destruct fuel' as [|fuel']; [lia|].
  rewrite provisionLoop_step in *.
  destruct (scriptResult s) as [err|st]; [exact Hr|].
  destruct (st =? 0); [exact Hr|].
  destruct (st =? 101); [|exact Hr].
  destruct (restart (S fuel) p (afterUpdate s)) as [[s2 r]|] eqn:E; [|discriminate].
  rewrite (restart_mono _ (S fuel') _ _ _ E) by lia.
  destruct r as [e|]; [exact Hr|]. apply IH; [exact Hr|lia].
Qed.

(** *** Counting phases *)

Lemma phases_app (a b : list Event) : phases (a ++ b) = (phases a ++ phases b)%list.
Proof. apply flat_map_app. Qed.

Lemma phases_silent (evs : list Event) :
  Forall (fun e => phaseOf e = []) evs -> phases evs = [].
Proof.
  induction 1 as [|e evs He _ IH]; [reflexivity|].
  cbn [phases flat_map]. fold (phases evs). now rewrite He, IH.
Qed.

Lemma alternating_counts (k : nat) :
  count_occ Phase_eq_dec (alternating k) UpdateRun = S k
  /\ count_occ Phase_eq_dec (alternating k) RestartSequence = k.
Proof.
  induction k as [|k [IHu IHr]]; [split; reflexivity|].
  cbn [alternating]. split.
  - rewrite count_occ_cons_eq by reflexivity.
    rewrite count_occ_cons_neq by discriminate. now rewrite IHu.
  - rewrite count_occ_cons_neq by discriminate.
    rewrite count_occ_cons_eq by reflexivity. now rewrite IHr.
Qed.

(** C2: when the update script exits with 101 on its first [k] runs and
    with 0 on the next, and every restart sequence in between completes,
    the loop returns without error (given enough fuel, and then with any
    larger amount), and the phases it went through are update, restart,
    update, ..., update: [k + 1] runs of the update script and [k] restart
    sequences, in alternation. *)
Theorem k_restarts_then_success
    (p : Provisioner) (k fuel : nat) (s : State Env) :
  RestartsThenConverges fuel p k s ->
  exists n s' evs,
    (forall fuel', (n <= fuel')%nat -> provisionLoop fuel' p s = Some (s', None))
    /\ trace s' = (trace s ++ evs)%list
    /\ phases evs = alternating k
    /\ count_occ Phase_eq_dec (phases evs) UpdateRun = S k
    /\ count_occ Phase_eq_dec (phases evs) RestartSequence = k.
Proof.
  intros HC.
  enough (exists n s' evs,
             provisionLoop n p s = Some (s', None)
             /\ trace s' = (trace s ++ evs)%list
             /\ phases evs = alternating k) as (n & s' & evs & Hn & Ht & Hp).
  { exists n, s', evs. rewrite Hp.
    destruct (alternating_counts k) as [Hu Hr].
    repeat split; try assumption.
    intros fuel' Hle. eapply provisionLoop_mono; eassumption. }
  revert s HC. induction k as [|k IH]; intros s HC; cbn [RestartsThenConverges] in HC.
  - exists 1%nat, (afterUpdate s),
      [Said "Running Windows update..."; Ran elevatedCommand].
    rewrite provisionLoop_step, HC. repeat split.
  - destruct HC as (Hst & s1 & r & s2 & Hu & Hr & HC).
    rewrite update_eq in Hu. injection Hu as <- _.
    destruct (IH _ HC) as (n & s' & evs & Hn & Ht & Hp).
    destruct (restart_trace _ _ _ _ _ Hr) as (evsR & EtR & FR).
    exists (S (Nat.max n fuel)), s',
      ([Said "Running Windows update..."; Ran elevatedCommand]
         ++ Said "Restarting the machine..." :: evsR ++ evs)%list.
    split; [|split].
    + rewrite provisionLoop_step, Hst. cbn [Z.eqb Pos.eqb].
      rewrite (restart_mono _ (S (Nat.max n fuel)) _ _ _ Hr) by lia.
      apply (provisionLoop_mono n); [exact Hn|lia].
    + rewrite Ht, EtR. cbn [afterUpdate trace].
      rewrite <- !app_assoc. reflexivity.
    + change (Said "Restarting the machine..." :: evsR ++ evs)%list
        with ([Said "Restarting the machine..."] ++ evsR ++ evs)%list.
      rewrite !phases_app, (phases_silent evsR FR), Hp. reflexivity.
Qed.

(** *** The restart sequence *)

Lemma retryable_eq (fuel : nat) (p : Provisioner) (fn : M Env (option error))
    (s : State Env) :
  retryable fuel p fn s
  = retryLoop fuel retryableDelay
      (if RestartTimeout (config p) =? 0 then None
       else Some (now s + RestartTimeout (config p))) fn s.
Proof. reflexivity. Qed.

Lemma retryLoop_success (fuel : nat) (delay : Duration) (deadline : option Z)
    (fn : M Env (option error)) (s s1 : State Env) :
  fn s = Some (s1, None) ->
  retryLoop (S fuel) delay deadline fn s = Some (s1, None).
Proof. intros Hfn. cbn [retryLoop]. unfold bind. now rewrite Hfn. Qed.

Lemma retryLoop_budget_exhausted (fuel : nat) (delay : Duration) (deadline : Z)
    (fn : M Env (option error)) (s s1 : State Env) (e : error) :
  fn s = Some (s1, Some e) -> deadline <= now s1 ->
  retryLoop (S fuel) delay (Some deadline) fn s = Some (s1, Some e).
Proof.
  intros Hfn Hd. cbn [retryLoop]. unfold bind. rewrite Hfn.
  unfold ctxDone, time_Now.
  destruct (Z.leb_spec deadline (now s1)); [|lia].
  now rewrite orb_true_r.
Qed.

Lemma retryLoop_retry (fuel : nat) (delay : Duration) (deadline : option Z)
    (fn : M Env (option error)) (s s1 : State Env) (e : error) :
  fn s = Some (s1, Some e) ->
  ctx_Done (env s1) (now s1) = false ->
  match deadline with Some d => now s1 < d | None => True end ->
  retryLoop (S fuel) delay deadline fn s
  = retryLoop fuel delay deadline fn
      (mkState (env s1) (now s1 + delay) (trace s1 ++ [Slept delay])).
Proof.
  intros Hfn Hc Hd. cbn [retryLoop]. unfold bind at 1. rewrite Hfn.
  unfold bind, ctxDone, time_Now, time_Sleep. rewrite Hc.
  destruct deadline as [d|]; [|reflexivity].
  destruct (Z.leb_spec d (now s1)); [lia|reflexivity].
Qed.

(** An attempt of the second retried function runs the probe first, and
    goes on to the abort and to the check only as far as each succeeds. *)
Lemma waitAttempt_trace (s s' : State Env) (r : option error) :
  waitAttempt s = Some (s', r) ->
  exists evs,
    trace s' = (trace s ++ Ran testRestartCommand :: evs)%list
    /\ (evs = [] \/ evs = [Ran abortTestRestartCommand]
        \/ evs = [Ran abortTestRestartCommand; Ran pendingRebootElevatedCommand])
    /\ (r = None ->
        evs = [Ran abortTestRestartCommand; Ran pendingRebootElevatedCommand]).
Proof.
  unfold waitAttempt, bind, RunWithUi, ret.
  destruct (cmd_RunWithUi (env s) testRestartCommand) as [[e1 r1] d1].
  destruct r1 as [err|st].
  { intros [= <- <-]. exists []. cbn [trace]. repeat split; auto. discriminate. }
  destruct (negb (st =? 0)).
  { intros [= <- <-]. exists []. cbn [trace]. repeat split; auto. discriminate. }
  cbn [env now trace].
  destruct (cmd_RunWithUi e1 abortTestRestartCommand) as [[e2 r2] d2].
  destruct r2 as [err|st2].
  { intros [= <- <-]. exists [Ran abortTestRestartCommand]. cbn [trace].
    rewrite <- app_assoc. repeat split; auto. discriminate. }
  cbn [env now trace].
  destruct (cmd_RunWithUi e2 pendingRebootElevatedCommand) as [[e3 r3] d3].
  intros Hw.
  exists [Ran abortTestRestartCommand; Ran pendingRebootElevatedCommand].
  assert (Ht : trace s' = (trace s ++ Ran testRestartCommand
                 :: [Ran abortTestRestartCommand;
                     Ran pendingRebootElevatedCommand])%list).
  { destruct r3 as [err|st3]; [|destruct (negb (st3 =? 0))];
      injection Hw as <- _; cbn [trace]; rewrite <- !app_assoc; reflexivity. }
  repeat split; auto.
Qed.

(** *** The retry loop comes to an end *)

Lemma returns_ret {A} (a : A) : returns (ret a : M Env A).
Proof. intros s. exists s, a. split; [reflexivity|lia]. Qed.

Lemma returns_bind {A B} (m : M Env A) (f : A -> M Env B) :
  returns m -> (forall a, returns (f a)) -> returns (bind m f).
Proof.
  intros Hm Hf s. destruct (Hm s) as (s1 & a & E1 & L1).
  destruct (Hf a s1) as (s2 & b & E2 & L2).
  exists s2, b. unfold bind. rewrite E1. split; [exact E2|lia].
Qed.

Lemma returns_RunWithUi (command : string) :
  returns (RunWithUi command : M Env RunResult).
Proof.
  intros s. unfold RunWithUi.
  destruct (cmd_RunWithUi (env s) command) as [[e' r] dt].
  do 2 eexists. split; [reflexivity|]. cbn [now]. lia.
Qed.

Lemma returns_restartAttempt : returns (restartAttempt : M Env (option error)).
Proof.
  unfold restartAttempt. apply returns_bind; [apply returns_RunWithUi|].
  intros [err|st]; [apply returns_ret|]. destruct (negb _); apply returns_ret.
Qed.

Lemma returns_waitAttempt : returns (waitAttempt : M Env (option error)).
Proof.
  unfold waitAttempt. apply returns_bind; [apply returns_RunWithUi|].
  intros [err|st]; [apply returns_ret|]. destruct (negb _); [apply returns_ret|].
  apply returns_bind; [apply returns_RunWithUi|].
  intros [err|st']; [apply returns_ret|].
  apply returns_bind; [apply returns_RunWithUi|].
  intros [err|st'']; [apply returns_ret|]. destruct (negb _); apply returns_ret.
Qed.

Lemma retryLoop_returns (fn : M Env (option error)) (delay deadline : Z) :
  returns fn -> 0 < delay ->
  forall (fuel : nat) (s : State Env),
    deadline - now s < delay * Z.of_nat fuel ->
    exists s' r, retryLoop (S fuel) delay (Some deadline) fn s = Some (s', r)
                 /\ now s <= now s'.
Proof.
  intros Hfn Hd. induction fuel as [|fuel IH]; intros s Hb.
  - destruct (Hfn s) as (s1 & [e|] & E1 & L1).
    + exists s1, (Some e). split; [|exact L1].
      apply retryLoop_budget_exhausted; [exact E1|lia].
    + exists s1, None. split; [|exact L1]. now apply retryLoop_success.
  - destruct (Hfn s) as (s1 & [e|] & E1 & L1).
    + cbn [retryLoop]. unfold bind at 1. rewrite E1.
      unfold bind at 1, ctxDone. unfold bind at 1, time_Now.
      destruct (ctx_Done (env s1) (now s1) || (deadline <=? now s1)).
      * exists s1, (Some e). split; [reflexivity|exact L1].
      * unfold bind, time_Sleep.
        destruct (IH (mkState (env s1) (now s1 + delay) (trace s1 ++ [Slept delay])))
          as (s' & r & E & L).
        { cbn [now]. lia. }
        exists s', r. split; [exact E|]. cbn [now] in L. lia.
    + exists s1, None. split; [|exact L1]. now apply retryLoop_success.
Qed.

Lemma retryable_returns (p : Provisioner) (fn : M Env (option error))
    (fuel : nat) (s : State Env) :
  returns fn ->
  RestartTimeout (config p) <> 0 ->
  RestartTimeout (config p) < retryableDelay * Z.of_nat fuel ->
  exists s' r, retryable (S fuel) p fn s = Some (s', r) /\ now s <= now s'.
Proof.
  intros Hfn Hnz Hb. rewrite retryable_eq.
  destruct (Z.eqb_spec (RestartTimeout (config p)) 0); [contradiction|].
  apply retryLoop_returns; [exact Hfn|reflexivity|lia].
Qed.

Lemma restart_returns (p : Provisioner) (fuel : nat) (s : State Env) :
  RestartTimeout (config p) <> 0 ->
  RestartTimeout (config p) < retryableDelay * Z.of_nat fuel ->
  exists s' r, restart (S fuel) p s = Some (s', r).
Proof.
  intros Hnz Hb. rewrite restart_eq.
  destruct (retryable_returns p restartAttempt fuel
              (mkState (env s) (now s) (trace s ++ [Said "Restarting the machine..."]))
              returns_restartAttempt Hnz Hb) as (s1 & r1 & E1 & _).
  rewrite E1. destruct r1 as [e|]; [eauto|].
  destruct (retryable_returns p waitAttempt fuel
              (mkState (env s1) (now s1)
                 (trace s1 ++ [Said "Waiting for machine to become available..."]))
              returns_waitAttempt Hnz Hb) as (s2 & r2 & E2 & _).
  eauto.
Qed.

Lemma RunWithUi_ran (command : string) (s : State Env) :
  RunWithUi command s = Some (ran s command).
Proof.
  unfold RunWithUi, ran.
  destruct (cmd_RunWithUi (env s) command) as [[e' r] dt]. reflexivity.
Qed.

Lemma restartAttempt_eq (s : State Env) :
  restartAttempt s
  = Some (fst (ran s restartCommand),
          match snd (ran s restartCommand) with
          | RunError err => Some err
          | Exited st =>
              if st =? 0 then None
              else Some (errorString
                     ("Failed to restart the machine with exit status: "
                        ++ Go.fmt_d st))
          end).
Proof.
  unfold restartAttempt, bind. rewrite RunWithUi_ran.
  destruct (ran s restartCommand) as [s1 [err|st]]; [reflexivity|].
  cbn [fst snd]. destruct (st =? 0); reflexivity.
Qed.

Lemma waitAttempt_eq (s : State Env) :
  waitAttempt s
  = match snd (ran s testRestartCommand) with
    | RunError err => Some (fst (ran s testRestartCommand), Some err)
    | Exited st =>
        if st =? 0 then
          match snd (ran (fst (ran s testRestartCommand)) abortTestRestartCommand) with
          | RunError err =>
              Some (fst (ran (fst (ran s testRestartCommand))
                           abortTestRestartCommand), Some err)
          | Exited _ =>
              Some (fst (ran (fst (ran (fst (ran s testRestartCommand))
                                     abortTestRestartCommand))
                           pendingRebootElevatedCommand),
                    match snd (ran (fst (ran (fst (ran s testRestartCommand))
                                           abortTestRestartCommand))
                                 pendingRebootElevatedCommand) with
                    | RunError err => Some err
                    | Exited st3 =>
                        if st3 =? 0 then None
                        else Some (errorString
                               ("Machine not yet available (exit status "
                                  ++ Go.fmt_d st3 ++ ")"))
                    end)
          end
        else Some (fst (ran s testRestartCommand),
                   Some (errorString
                           ("Machine not yet available (exit status "
                              ++ Go.fmt_d st ++ ")")))
    end.
Proof.
  unfold waitAttempt, bind. rewrite RunWithUi_ran.
  destruct (ran s testRestartCommand) as [s1 [err|st]]; [reflexivity|].
  cbn [fst snd]. destruct (st =? 0); [|reflexivity]. cbn [negb].
  rewrite RunWithUi_ran.
  destruct (ran s1 abortTestRestartCommand) as [s2 [err|st2]]; [reflexivity|].
  cbn [fst snd]. rewrite RunWithUi_ran.
  destruct (ran s2 pendingRebootElevatedCommand) as [s3 [err|st3]]; [reflexivity|].
  cbn [fst snd]. destruct (st3 =? 0); reflexivity.
Qed.

(** After an attempt of the second retried function that failed, with the
    context not cancelled and the deadline ahead, the loop sleeps for the
    delay and runs the whole function again: the next command is the
    probe, also when it was the check that failed. *)
Lemma waitAttempt_rerun (fuel : nat) (deadline : option Z)
    (s1 s2 s' : State Env) (e : error) (r : option error) :
  waitAttempt s1 = Some (s2, Some e) ->
  ctx_Done (env s2) (now s2) = false ->
  match deadline with Some d => now s2 < d | None => True end ->
  retryLoop (S fuel) retryableDelay deadline waitAttempt s1 = Some (s', r) ->
  exists evs,
    trace s' = (trace s2 ++ Slept retryableDelay
                  :: Ran testRestartCommand :: evs)%list.
Proof.
  intros Hw Hc Hd Hl.
  rewrite (retryLoop_retry _ _ _ _ _ _ _ Hw Hc Hd) in Hl.
  destruct fuel as [|fuel]; [discriminate|].
  cbn [retryLoop] in Hl. unfold bind at 1 in Hl.
  destruct (waitAttempt
              (mkState (env s2) (now s2 + retryableDelay)
                 (trace s2 ++ [Slept retryableDelay])))
    as [[s3 r3]|] eqn:E3; [|discriminate].
  destruct (waitAttempt_trace _ _ _ E3) as (evs3 & Et3 & _). cbn [trace] in Et3.
  assert (Ha : adds (fun _ => True)
                 (match r3 with
                  | None => ret None
                  | Some e0 =>
                      done <- ctxDone ;;
                      t <- time_Now ;;
                      if done || match deadline with
                                 | Some d => d <=? t
                                 | None => false
                                 end
                      then ret (Some e0)
                      else time_Sleep retryableDelay ;;;
                           retryLoop fuel retryableDelay deadline waitAttempt
                  end : M Env (option error))).
  { destruct r3 as [e0|]; [|apply adds_ret].
    apply adds_bind; [apply adds_ctxDone|]. intros done.
    apply adds_bind; [apply adds_time_Now|]. intros t.
    destruct (done || _); [apply adds_ret|].
    apply adds_bind; [now apply adds_Sleep|]. intros _.
    apply adds_retryLoop; [apply adds_waitAttempt|]; exact I. }
  destruct (Ha _ _ _ Hl) as (evs & Et & _).
  exists (evs3 ++ evs)%list. rewrite Et, Et3, <- !app_assoc. reflexivity.
Qed.

(** C3, as the code has it: the restart sequence calls the retry executor
    twice, each time with the delay of five seconds and a deadline that
    is the whole restart timeout after that call starts.  The first call
    retries the forced restart, which fails on a transport error or on an
    exit status other than 0.  The second call retries one function that
    runs the probe, aborts it, and runs the check for a pending reboot,
    stopping at the first of the three that fails (a transport error of
    any of them, or an exit status other than 0 of the probe or of the
    check); after an attempt that failed the loop sleeps and runs the
    probe again, also when it was the check that failed, and the
    deadline of the call stays the same.  With a restart timeout that is
    not zero the sequence comes to an end; a call whose function fails
    past its deadline returns that error, and an error of the restart
    sequence is what the loop of Provision returns. *)
Theorem restart_two_bounded_retries (p : Provisioner) (fuel : nat) (s : State Env) :
  restart fuel p s
  = match retryLoop fuel retryableDelay
            (if RestartTimeout (config p) =? 0 then None
             else Some (now s + RestartTimeout (config p)))
            restartAttempt
            (mkState (env s) (now s) (trace s ++ [Said "Restarting the machine..."]))
    with
    | Some (s1, Some e) => Some (s1, Some e)
    | Some (s1, None) =>
        retryLoop fuel retryableDelay
          (if RestartTimeout (config p) =? 0 then None
           else Some (now s1 + RestartTimeout (config p)))
          waitAttempt
          (mkState (env s1) (now s1)
             (trace s1 ++ [Said "Waiting for machine to become available..."]))
    | None => None
    end
  /\ (forall s1 s2 r,
      waitAttempt s1 = Some (s2, r) ->
      exists evs,
        trace s2 = (trace s1 ++ Ran testRestartCommand :: evs)%list
        /\ (evs = [] \/ evs = [Ran abortTestRestartCommand]
            \/ evs = [Ran abortTestRestartCommand; Ran pendingRebootElevatedCommand])
        /\ (r = None ->
            evs = [Ran abortTestRestartCommand; Ran pendingRebootElevatedCommand]))
  /\ (forall (fn : M Env (option error)) deadline s1 s2 e,
      fn s1 = Some (s2, Some e) -> deadline <= now s2 ->
      retryLoop (S fuel) retryableDelay (Some deadline) fn s1 = Some (s2, Some e))
  /\ (RestartTimeout (config p) <> 0 ->
      RestartTimeout (config p) < retryableDelay * Z.of_nat fuel ->
      exists s' r, restart (S fuel) p s = Some (s', r))
  /\ (forall s2 e,
      scriptResult s = Exited 101 ->
      restart (S fuel) p (afterUpdate s) = Some (s2, Some e) ->
      provisionLoop (S fuel) p s = Some (s2, Some e))
  /\ (forall s1,
      restartAttempt s1
      = Some (fst (ran s1 restartCommand),
              match snd (ran s1 restartCommand) with
              | RunError err => Some err
              | Exited st =>
                  if st =? 0 then None
                  else Some (errorString
                         ("Failed to restart the machine with exit status: "
                            ++ Go.fmt_d st))
              end))
  /\ (forall s1,
      waitAttempt s1
      = match snd (ran s1 testRestartCommand) with
        | RunError err => Some (fst (ran s1 testRestartCommand), Some err)
        | Exited st =>
            if st =? 0 then
              match snd (ran (fst (ran s1 testRestartCommand))
                           abortTestRestartCommand) with
              | RunError err =>
                  Some (fst (ran (fst (ran s1 testRestartCommand))
                               abortTestRestartCommand), Some err)
              | Exited _ =>
                  Some (fst (ran (fst (ran (fst (ran s1 testRestartCommand))
                                         abortTestRestartCommand))
                               pendingRebootElevatedCommand),
                        match snd (ran (fst (ran (fst (ran s1 testRestartCommand))
                                               abortTestRestartCommand))
                                     pendingRebootElevatedCommand) with
                        | RunError err => Some err
                        | Exited st3 =>
                            if st3 =? 0 then None
                            else Some (errorString
                                   ("Machine not yet available (exit status "
                                      ++ Go.fmt_d st3 ++ ")"))
                        end)
              end
            else Some (fst (ran s1 testRestartCommand),
                       Some (errorString
                               ("Machine not yet available (exit status "
                                  ++ Go.fmt_d st ++ ")")))
        end)
  /\ (forall deadline s1 s2 s' e r,
      waitAttempt s1 = Some (s2, Some e) ->
      ctx_Done (env s2) (now s2) = false ->
      match deadline with Some d => now s2 < d | None => True end ->
      retryLoop (S fuel) retryableDelay deadline waitAttempt s1 = Some (s', r) ->
      exists evs,
        trace s' = (trace s2 ++ Slept retryableDelay
                      :: Ran testRestartCommand :: evs)%list).
Proof.
  split; [|split; [|split; [|split; [|split; [|split; [|split]]]]]].
  - rewrite restart_eq, retryable_eq.
    destruct (retryLoop fuel retryableDelay _ restartAttempt _) as [[s1 [e|]]|];
      reflexivity.
  - apply waitAttempt_trace.
  - intros fn deadline s1 s2 e. apply retryLoop_budget_exhausted.
  - apply restart_returns.
  - intros s2 e Hst Hr. rewrite provisionLoop_step, Hst, Hr. reflexivity.
  - apply restartAttempt_eq.
  - apply waitAttempt_eq.
  - intros deadline s1 s2 s' e r. apply waitAttempt_rerun.
Qed.

End Orchestration.

(** ** The properties on scripted runs *)

Lemma update_exit_status_three_ways_witness :
  scriptResult (scripted [exits 7]) = Exited 7
  /\ provisionLoop 1 sampleP (scripted [exits 7])
     = Some (afterUpdate (scripted [exits 7]),
             Some (errorString
                     "Windows update script exited with non-zero exit status: 7")).
Proof.
  assert (Hs : scriptResult (scripted [exits 7]) = Exited 7) by reflexivity.
  split; [exact Hs|].
  destruct (update_exit_status_three_ways sampleP 0 (scripted [exits 7]) 7 Hs)
    as (_ & _ & _ & Hother).
  apply Hother; discriminate.
Defined.

Lemma transport_errors_are_fatal_witness :
  comm_Upload (env uploadFails) elevatedPath (windowsUpdateCommand sampleP)
  = (mkScripted [] [] None, Some (errorString "upload failed"))
  /\ Provision 3 sampleP uploadFails
     = Some (mkState (mkScripted [] [] None) 0
               [Said "Uploading the Windows update elevated script...";
                Uploaded elevatedPath (windowsUpdateCommand sampleP)],
             Some (errorString "upload failed")).
Proof.
  assert (Hc : comm_Upload (env uploadFails) elevatedPath
                 (windowsUpdateCommand sampleP)
               = (mkScripted [] [] None, Some (errorString "upload failed")))
    by reflexivity.
  split; [exact Hc|].
  destruct (transport_errors_are_fatal sampleP 3 uploadFails)
    as (_ & _ & _ & _ & _ & _ & Hfirst & _).
  exact (Hfirst _ _ _ _ _ eq_refl eq_refl Hc).
Defined.

Lemma k_restarts_then_success_witness :
  RestartsThenConverges 3 sampleP 2
    (scripted [exits 101; ok; ok; ok; ok; exits 101; ok; refused; ok; ok; ok; ok])
  /\ exists n s' evs,
       (forall fuel', (n <= fuel')%nat ->
          provisionLoop fuel' sampleP
            (scripted [exits 101; ok; ok; ok; ok; exits 101; ok; refused; ok; ok; ok; ok])
          = Some (s', None))
       /\ trace s' = evs
       /\ phases evs
          = [UpdateRun; RestartSequence; UpdateRun; RestartSequence; UpdateRun].
Proof.
  assert (HC : RestartsThenConverges 3 sampleP 2
    (scripted [exits 101; ok; ok; ok; ok; exits 101; ok; refused; ok; ok; ok; ok])).
  { split; [reflexivity|]. do 3 eexists.
    split; [vm_compute; reflexivity|]. split; [vm_compute; reflexivity|].
    split; [reflexivity|]. do 3 eexists.
    split; [vm_compute; reflexivity|]. split; [vm_compute; reflexivity|].
    reflexivity. }
  split; [exact HC|].
  destruct (k_restarts_then_success sampleP 2 3 _ HC)
    as (n & s' & evs & Hn & Ht & Hp & _).
  exists n, s', evs. split; [exact Hn|]. split; [exact Ht|exact Hp].
Defined.

Lemma restart_two_bounded_retries_witness :
  exists s2 e,
    scriptResult (scripted [exits 101]) = Exited 101
    /\ restart 5 hastyP (afterUpdate (scripted [exits 101])) = Some (s2, Some e)
    /\ provisionLoop 5 hastyP (scripted [exits 101]) = Some (s2, Some e).
Proof.
  do 2 eexists. split; [reflexivity|]. split; [vm_compute; reflexivity|].
  destruct (restart_two_bounded_retries hastyP 4 (scripted [exits 101]))
    as (_ & _ & _ & _ & Hfatal & _).
  apply Hfatal; [reflexivity|vm_compute; reflexivity].
Defined.

(** C3, as the specification has it, fails: with three retried sub-steps
    a failed check for a pending reboot would be followed by another
    check.  The code runs the probe and its abort again before it checks
    again: the probe, the abort and the check are one retried function. *)
Lemma restart_is_not_three_retries :
  commandsRun (restart 5 sampleP (scripted [ok; ok; ok; exits 1; ok; ok; ok]))
  = Some [restartCommand;
          testRestartCommand; abortTestRestartCommand; pendingRebootElevatedCommand;
          testRestartCommand; abortTestRestartCommand; pendingRebootElevatedCommand]
  /\ commandsRun
       (restartThreeRetries 5 sampleP (scripted [ok; ok; ok; exits 1; ok; ok; ok]))
     = Some [restartCommand;
             testRestartCommand; abortTestRestartCommand;
             pendingRebootElevatedCommand; pendingRebootElevatedCommand]
  /\ restart 5 sampleP (scripted [ok; ok; ok; exits 1; ok; ok; ok])
     <> restartThreeRetries 5 sampleP (scripted [ok; ok; ok; exits 1; ok; ok; ok]).
Proof.
  split; [vm_compute; reflexivity|]. split; [vm_compute; reflexivity|].
  intros Heq. apply (f_equal commandsRun) in Heq.
  vm_compute in Heq. discriminate Heq.
Qed.

(** ** The encoded payload *)

(** *** Bit operations as arithmetic *)

Lemma lor_disjoint (x y k : Z) :
  0 <= k -> x mod 2 ^ k = 0 -> 0 <= y < 2 ^ k -> Z.lor x y = x + y.
Proof.
  intros Hk Hx Hy.
  assert (Hl : Z.land x y = 0).
  { apply Z.bits_inj'. intros n Hn. rewrite Z.land_spec, Z.bits_0.
    destruct (Z.lt_ge_cases n k) as [Hlt|Hge].
    - replace (Z.testbit x n) with false; [reflexivity|].
      symmetry. rewrite <- (Z.mod_pow2_bits_low x k n) by lia.
      rewrite Hx. apply Z.bits_0.
    - replace (Z.testbit y n) with false; [apply andb_false_r|].
      symmetry. rewrite <- (Z.mod_small y (2 ^ k)) by lia.
      apply Z.mod_pow2_bits_high. lia. }
  pose proof (Z.add_lor_land x y). lia.
Qed.

Lemma land_mask (x : Z) (k : Z) : 0 <= k -> Z.land x (2 ^ k - 1) = x mod 2 ^ k.
Proof.
  intros Hk. rewrite <- Z.land_ones by exact Hk.
  f_equal. rewrite Z.ones_equiv. lia.
Qed.

Lemma land_0x3F x : Z.land x 0x3F = x mod 64.
Proof. apply (land_mask x 6). lia. Qed.
Lemma land_0xFF x : Z.land x 0xFF = x mod 256.
Proof. apply (land_mask x 8). lia. Qed.
Lemma land_0xFFFF x : Z.land x 0xFFFF = x mod 65536.
Proof. apply (land_mask x 16). lia. Qed.
Lemma land_0x3FF x : Z.land x 0x3FF = x mod 1024.
Proof. apply (land_mask x 10). lia. Qed.
Lemma land_0x1F x : Z.land x 0x1F = x mod 32.
Proof. apply (land_mask x 5). lia. Qed.
Lemma land_0x0F x : Z.land x 0x0F = x mod 16.
Proof. apply (land_mask x 4). lia. Qed.
Lemma land_0x07 x : Z.land x 0x07 = x mod 8.
Proof. apply (land_mask x 3). lia. Qed.

Lemma shiftr_div (x n : Z) : 0 <= n -> Z.shiftr x n = x / 2 ^ n.
Proof. apply Z.shiftr_div_pow2. Qed.

Lemma shiftl_mul (x n : Z) : 0 <= n -> Z.shiftl x n = x * 2 ^ n.
Proof. apply Z.shiftl_mul_pow2. Qed.

(** *** Bytes and strings *)

Lemma byteOf_range (c : ascii) : isByte (Go.byteOf c).
Proof.
  unfold isByte, Go.byteOf. pose proof (N_ascii_bounded c). lia.
Qed.

Lemma bytesOf_range (s : string) : Forall isByte (Go.bytesOf s).
Proof.
  unfold Go.bytesOf. apply Forall_map, Forall_forall. intros c _.
  apply byteOf_range.
Qed.

Lemma charOf_byteOf (c : ascii) : Go.charOf (Go.byteOf c) = c.
Proof.
  unfold Go.charOf, Go.byteOf. rewrite N2Z.id. apply ascii_N_embedding.
Qed.

Lemma stringOf_bytesOf (s : string) : Go.stringOf (Go.bytesOf s) = s.
Proof.
  unfold Go.stringOf, Go.bytesOf. rewrite map_map.
  rewrite (map_ext _ (fun c => c)) by apply charOf_byteOf.
  rewrite map_id. apply string_of_list_ascii_of_string.
Qed.

(** *** Base64 *)

Lemma small_nat (i : Z) (n : nat) :
  0 <= i < Z.of_nat n -> exists k, (k < n)%nat /\ i = Z.of_nat k.
Proof. intros Hi. exists (Z.to_nat i). lia. Qed.

Lemma dec_enc (i : Z) : 0 <= i < 64 -> Decoder.dec (Go.enc i) = Some i.
Proof.
  intros Hi. destruct (small_nat i 64 Hi) as (k & Hk & ->).
  do 64 (destruct k as [|k]; [reflexivity|]). lia.
Qed.

Lemma enc_not_pad (i : Z) : 0 <= i < 64 -> Decoder.isPad (Go.enc i) = false.
Proof.
  intros Hi. destruct (small_nat i 64 Hi) as (k & Hk & ->).
  do 64 (destruct k as [|k]; [reflexivity|]). lia.
Qed.

Lemma DecodeString_quad (v0 v1 v2 v3 : Z) (rest : string) :
  0 <= v0 < 64 -> 0 <= v1 < 64 -> 0 <= v2 < 64 -> 0 <= v3 < 64 ->
  Decoder.DecodeString
    (String (Go.enc v0) (String (Go.enc v1) (String (Go.enc v2)
       (String (Go.enc v3) rest))))
  = match Decoder.DecodeString rest with
    | Some bs =>
        Some (v0 * 4 + v1 / 16 :: (v1 mod 16) * 16 + v2 / 4
                :: (v2 mod 4) * 64 + v3 :: bs)
    | None => None
    end.
Proof.
  intros H0 H1 H2 H3. cbn [Decoder.DecodeString].
  rewrite (dec_enc v0 H0), (dec_enc v1 H1), (dec_enc v2 H2), (dec_enc v3 H3).
  rewrite (enc_not_pad v2 H2), (enc_not_pad v3 H3). reflexivity.
Qed.

Lemma DecodeString_pad1 (v0 v1 v2 : Z) :
  0 <= v0 < 64 -> 0 <= v1 < 64 -> 0 <= v2 < 64 ->
  Decoder.DecodeString
    (String (Go.enc v0) (String (Go.enc v1) (String (Go.enc v2)
       (String Go.StdPadding ""))))
  = Some [v0 * 4 + v1 / 16; (v1 mod 16) * 16 + v2 / 4].
Proof.
  intros H0 H1 H2. cbn [Decoder.DecodeString].
  rewrite (dec_enc v0 H0), (dec_enc v1 H1), (dec_enc v2 H2).
  rewrite (enc_not_pad v2 H2). reflexivity.
Qed.

Lemma DecodeString_pad2 (v0 v1 : Z) :
  0 <= v0 < 64 -> 0 <= v1 < 64 ->
  Decoder.DecodeString
    (String (Go.enc v0) (String (Go.enc v1) (String Go.StdPadding
       (String Go.StdPadding ""))))
  = Some [v0 * 4 + v1 / 16].
Proof.
  intros H0 H1. cbn [Decoder.DecodeString].
  rewrite (dec_enc v0 H0), (dec_enc v1 H1). reflexivity.
Qed.

Lemma list_ind3 {A} (P : list A -> Prop) :
  P [] -> (forall a, P [a]) -> (forall a b, P [a; b]) ->
  (forall a b c l, P l -> P (a :: b :: c :: l)) ->
  forall l, P l.
Proof.
  intros H0 H1 H2 H3. fix IH 1.
  intros [|a [|b [|c l]]]; [exact H0|apply H1|apply H2|apply H3, IH].
Qed.

Lemma val3 (b0 b1 b2 : Z) :
  isByte b0 -> isByte b1 -> isByte b2 ->
  Z.lor (Z.lor (Z.shiftl b0 16) (Z.shiftl b1 8)) b2
  = b0 * 65536 + b1 * 256 + b2.
Proof.
  unfold isByte. intros H0 H1 H2. rewrite !shiftl_mul by lia.
  rewrite (lor_disjoint (b0 * 2 ^ 16) (b1 * 2 ^ 8) 16);
    [|lia|apply Z.mod_mul; lia|lia].
  rewrite (lor_disjoint _ b2 8); [lia|lia| |lia].
  change (2 ^ 16) with (2 ^ 8 * 2 ^ 8). rewrite Z.mul_assoc, <- Z.mul_add_distr_r.
  apply Z.mod_mul. lia.
Qed.

Lemma base64_roundtrip (bs : list Z) :
  Forall isByte bs -> Decoder.DecodeString (Go.EncodeToString bs) = Some bs.
Proof.
  induction bs as [|b0|b0 b1|b0 b1 b2 rest IH] using list_ind3; intros HF.
  - reflexivity.
  - inversion_clear HF as [|? ? H0 _]. unfold isByte in H0.
    cbn [Go.EncodeToString]. rewrite !land_0x3F, !shiftr_div, shiftl_mul by lia.
    rewrite DecodeString_pad2 by (apply Z.mod_pos_bound; lia).
    do 2 f_equal. change (2 ^ 16) with 65536. change (2 ^ 18) with 262144.
    change (2 ^ 12) with 4096. Z.div_mod_to_equations. lia.
  - inversion_clear HF as [|? ? H0 HF']. inversion_clear HF' as [|? ? H1 _].
    cbn [Go.EncodeToString].
    replace (Z.lor (Z.shiftl b0 16) (Z.shiftl b1 8)) with (b0 * 65536 + b1 * 256).
    2:{ pose proof (val3 b0 b1 0 H0 H1) as Hv. rewrite Z.lor_0_r in Hv.
        rewrite Hv; [lia|unfold isByte; lia]. }
    unfold isByte in *.
    rewrite !land_0x3F, !shiftr_div by lia.
    rewrite DecodeString_pad1 by (apply Z.mod_pos_bound; lia).
    change (2 ^ 18) with 262144. change (2 ^ 12) with 4096. change (2 ^ 6) with 64.
    f_equal. f_equal; [|f_equal]; Z.div_mod_to_equations; lia.
  - inversion_clear HF as [|? ? H0 HF']. inversion_clear HF' as [|? ? H1 HF].
    inversion_clear HF as [|? ? H2 HF'].
    cbn [Go.EncodeToString]. rewrite (val3 b0 b1 b2 H0 H1 H2).
    unfold isByte in *.
    rewrite !land_0x3F, !shiftr_div by lia.
    rewrite DecodeString_quad by (apply Z.mod_pos_bound; lia).
    rewrite (IH HF').
    change (2 ^ 18) with 262144. change (2 ^ 12) with 4096. change (2 ^ 6) with 64.
    f_equal. f_equal; [|f_equal; [|f_equal]]; Z.div_mod_to_equations; lia.
Qed.

(** *** UTF-16LE bytes *)

Lemma store_app (pre t : list Z) (x v : Z) :
  Go.store (pre ++ x :: t) (List.length pre) v = (pre ++ v :: t)%list.
Proof. induction pre as [|y pre IH]; cbn; [reflexivity|]. now rewrite IH. Qed.

Lemma utf16Le_loop (d : list Z) :
  forall (pre : list Z) (i : nat),
    List.length pre = (i * 2)%nat ->
    snd (fold_left utf16LeStep d (i, (pre ++ repeat 0 (List.length d * 2))%list))
    = (pre ++ flat_map leBytes d)%list.
Proof.
  induction d as [|r d IH]; intros pre i Hlen.
  - cbn. reflexivity.
  - cbn [fold_left List.length Nat.mul Nat.add repeat utf16LeStep flat_map].
    rewrite <- Hlen, store_app.
    replace (List.length pre + 1)%nat with (List.length (pre ++ [Go.byte r])%list)
      by (rewrite length_app; reflexivity).
    change (pre ++ Go.byte r :: 0 :: repeat 0 (List.length d * 2))%list
      with (pre ++ [Go.byte r] ++ 0 :: repeat 0 (List.length d * 2))%list.
    rewrite app_assoc, store_app, <- app_assoc.
    change ([Go.byte r] ++ Go.byte (Z.shiftr r 8) :: repeat 0 (List.length d * 2))%list
      with ([Go.byte r; Go.byte (Z.shiftr r 8)] ++ repeat 0 (List.length d * 2))%list.
    rewrite app_assoc, (IH _ (S i)).
    + rewrite <- app_assoc. f_equal. unfold leBytes, Go.byte.
      rewrite !land_0xFF, shiftr_div by lia. reflexivity.
    + rewrite length_app, Hlen. cbn. lia.
Qed.

Lemma encodeUtf16Le_bytes (s : string) :
  encodeUtf16Le s = flat_map leBytes (Go.Encode (Go.runes s)).
Proof.
  unfold encodeUtf16Le. apply (utf16Le_loop _ [] 0%nat). reflexivity.
Qed.

Lemma leBytes_range (us : list Z) : Forall isByte (flat_map leBytes us).
Proof.
  induction us as [|u us IH]; [constructor|].
  cbn [flat_map leBytes app].
  repeat constructor; try exact IH; unfold isByte; apply Z.mod_pos_bound; lia.
Qed.

Lemma unitsOfBytes_leBytes (us : list Z) :
  Forall isUnit us -> Decoder.unitsOfBytes (flat_map leBytes us) = Some us.
Proof.
  induction 1 as [|u us Hu _ IH]; [reflexivity|].
  cbn [flat_map leBytes app Decoder.unitsOfBytes]. rewrite IH.
  do 2 f_equal. unfold isUnit in Hu. Z.div_mod_to_equations. lia.
Qed.

(** *** UTF-16 *)

Ltac zbool :=
  repeat match goal with
    | |- context [?a <=? ?b] => destruct (Z.leb_spec a b)
    | |- context [?a <? ?b] => destruct (Z.ltb_spec a b)
    end;
  cbn [andb orb negb].

Lemma Encode_units (rs : list Z) : Forall isUnit (Go.Encode rs).
Proof.
  assert (Hu : forall v, isUnit (Go.uint16 v)).
  { intros v. unfold isUnit, Go.uint16. rewrite land_0xFFFF.
    apply Z.mod_pos_bound. lia. }
  induction rs as [|v rs IH]; [constructor|].
  cbn [Go.Encode].
  destruct (_ || _); [constructor; [apply Hu|exact IH]|].
  destruct (_ && _); [|constructor; [apply Hu|exact IH]].
  destruct (Go.EncodeRune v).
  constructor; [apply Hu|constructor; [apply Hu|exact IH]].
Qed.

Lemma utf16_roundtrip (rs : list Z) :
  Forall isScalar rs -> Decoder.utf16Decode (Go.Encode rs) = rs.
Proof.
  induction 1 as [|v rs Hv _ IH]; [reflexivity|].
  unfold isScalar in Hv. cbn [Go.Encode].
  unfold Go.surr1, Go.surr3, Go.surrSelf, Go.maxRune.
  destruct (Z.lt_ge_cases v 0x10000) as [Hlt|Hge].
  - replace (((0 <=? v) && (v <? 55296)) || ((57344 <=? v) && (v <? 65536)))
      with true by (zbool; lia).
    unfold Go.uint16. rewrite land_0xFFFF, Z.mod_small by lia.
    cbn [Decoder.utf16Decode]. unfold Go.surr1, Go.surr3.
    replace ((v <? 55296) || (57344 <=? v)) with true by (zbool; lia).
    now rewrite IH.
  - replace (((0 <=? v) && (v <? 55296)) || ((57344 <=? v) && (v <? 65536)))
      with false by (zbool; lia).
    replace ((65536 <=? v) && (v <=? 1114111)) with true by (zbool; lia).
    unfold Go.EncodeRune, Go.surr1, Go.surr2, Go.surrSelf, Go.uint16.
    rewrite !land_0x3FF, !land_0xFFFF, shiftr_div by lia.
    change (2 ^ 10) with 1024.
    assert (H1 : 0 <= ((v - 65536) / 1024) mod 1024 < 1024)
      by (apply Z.mod_pos_bound; lia).
    assert (H2 : 0 <= (v - 65536) mod 1024 < 1024)
      by (apply Z.mod_pos_bound; lia).
    rewrite (Z.mod_small (55296 + _) 65536), (Z.mod_small (56320 + _) 65536) by lia.
    cbn [Decoder.utf16Decode]. unfold Go.surr1, Go.surr2, Go.surr3, Go.surrSelf.
    replace ((55296 + ((v - 65536) / 1024) mod 1024 <? 55296)
             || (57344 <=? 55296 + ((v - 65536) / 1024) mod 1024))
      with false by (zbool; lia).
    replace ((55296 + ((v - 65536) / 1024) mod 1024 <? 56320)
             && (56320 <=? 56320 + (v - 65536) mod 1024)
             && (56320 + (v - 65536) mod 1024 <? 57344))
      with true by (zbool; lia).
    rewrite IH. f_equal. Z.div_mod_to_equations. lia.
Qed.

(** *** UTF-8 *)

Lemma rune2 (s0 s1 : Z) :
  Z.lor (Z.shiftl (Z.land s0 0x1F) 6) (Z.land s1 0x3F)
  = (s0 mod 32) * 64 + s1 mod 64.
Proof.
  rewrite land_0x1F, land_0x3F, shiftl_mul by lia.
  apply (lor_disjoint _ _ 6); [lia|apply Z.mod_mul; lia|apply Z.mod_pos_bound; lia].
Qed.

Lemma rune3 (s0 s1 s2 : Z) :
  Z.lor (Z.lor (Z.shiftl (Z.land s0 0x0F) 12) (Z.shiftl (Z.land s1 0x3F) 6))
        (Z.land s2 0x3F)
  = (s0 mod 16) * 4096 + (s1 mod 64) * 64 + s2 mod 64.
Proof.
  rewrite land_0x0F, !land_0x3F, !shiftl_mul by lia.
  pose proof (Z.mod_pos_bound s1 64 ltac:(lia)).
  rewrite (lor_disjoint (s0 mod 16 * 2 ^ 12) _ 12);
    [|lia|apply Z.mod_mul; lia|lia].
  rewrite (lor_disjoint _ (s2 mod 64) 6);
    [lia|lia| |apply Z.mod_pos_bound; lia].
  change (2 ^ 12) with (2 ^ 6 * 2 ^ 6).
  rewrite Z.mul_assoc, <- Z.mul_add_distr_r. apply Z.mod_mul. lia.
Qed.

Lemma rune4 (s0 s1 s2 s3 : Z) :
  Z.lor (Z.lor (Z.lor (Z.shiftl (Z.land s0 0x07) 18)
                      (Z.shiftl (Z.land s1 0x3F) 12))
               (Z.shiftl (Z.land s2 0x3F) 6))
        (Z.land s3 0x3F)
  = (s0 mod 8) * 262144 + (s1 mod 64) * 4096 + (s2 mod 64) * 64 + s3 mod 64.
Proof.
  rewrite land_0x07, !land_0x3F, !shiftl_mul by lia.
  pose proof (Z.mod_pos_bound s1 64 ltac:(lia)).
  pose proof (Z.mod_pos_bound s2 64 ltac:(lia)).
  rewrite (lor_disjoint (s0 mod 8 * 2 ^ 18) _ 18);
    [|lia|apply Z.mod_mul; lia|lia].
  rewrite (lor_disjoint _ (s2 mod 64 * 2 ^ 6) 12); [|lia| |lia].
  2:{ change (2 ^ 18) with (2 ^ 6 * 2 ^ 12).
      rewrite Z.mul_assoc, <- Z.mul_add_distr_r. apply Z.mod_mul. lia. }
  rewrite (lor_disjoint _ (s3 mod 64) 6);
    [lia|lia| |apply Z.mod_pos_bound; lia].
  change (2 ^ 18) with (2 ^ 12 * 2 ^ 6). change (2 ^ 12) with (2 ^ 6 * 2 ^ 6).
  rewrite !Z.mul_assoc, <- !Z.mul_add_distr_r. apply Z.mod_mul. lia.
Qed.

Ltac bprop H :=
  repeat rewrite ?andb_true_iff, ?negb_true_iff, ?andb_false_iff,
    ?Z.leb_le, ?Z.ltb_lt, ?Z.leb_gt, ?Z.ltb_ge in H.

Lemma runeError_scalar : isScalar Go.runeError.
Proof. unfold isScalar, Go.runeError. lia. Qed.

Lemma decoderune_spec (s0 : Z) (t : list Z) (r : Z) (n : nat) :
  isByte s0 -> 0x80 <= s0 ->
  Go.decoderune (s0 :: t) = (r, n) ->
  (n = 1%nat /\ r = Go.runeError)
  \/ (isScalar r /\ (Decoder.utf8Bytes r ++ skipn (n - 1) t)%list = s0 :: t).
Proof.
  unfold isByte. intros H0 Hge Hd. unfold Go.decoderune in Hd.
  destruct ((0xC0 <=? s0) && (s0 <? 0xE0)) eqn:C2.
  { destruct t as [|s1 t']; [injection Hd as <- <-; now left|].
    rewrite rune2 in Hd. unfold Go.isCont in Hd.
    destruct ((0x80 <=? s1) && (s1 <=? 0xBF)
              && (0x7F <? s0 mod 32 * 64 + s1 mod 64)) eqn:C;
      [|injection Hd as <- <-; now left].
    injection Hd as <- <-. right. bprop C2. bprop C.
    assert (E0 : s0 mod 32 = s0 - 192) by (Z.div_mod_to_equations; lia).
    assert (E1 : s1 mod 64 = s1 - 128) by (Z.div_mod_to_equations; lia).
    rewrite E0, E1 in *. split; [unfold isScalar; lia|].
    cbn [skipn Nat.sub]. unfold Decoder.utf8Bytes.
    replace ((0 <=? (s0 - 192) * 64 + (s1 - 128))
             && ((s0 - 192) * 64 + (s1 - 128) <=? 0x7F))
      with false by (zbool; lia).
    replace ((0 <=? (s0 - 192) * 64 + (s1 - 128))
             && ((s0 - 192) * 64 + (s1 - 128) <=? 0x7FF))
      with true by (zbool; lia).
    cbn [app]. f_equal; [|f_equal]; Z.div_mod_to_equations; lia. }
  destruct ((0xE0 <=? s0) && (s0 <? 0xF0)) eqn:C3.
  { destruct t as [|s1 [|s2 t']]; try (injection Hd as <- <-; now left).
    rewrite rune3 in Hd. unfold Go.isCont, Go.surrogateMin, Go.surrogateMax in Hd.
    match type of Hd with (if ?c then _ else _) = _ => destruct c eqn:C end;
      [|injection Hd as <- <-; now left].
    injection Hd as <- <-. right. bprop C3. bprop C.
    assert (E0 : s0 mod 16 = s0 - 224) by (Z.div_mod_to_equations; lia).
    assert (E1 : s1 mod 64 = s1 - 128) by (Z.div_mod_to_equations; lia).
    assert (E2 : s2 mod 64 = s2 - 128) by (Z.div_mod_to_equations; lia).
    rewrite E0, E1, E2 in *. split; [unfold isScalar; lia|].
    cbn [skipn Nat.sub]. unfold Decoder.utf8Bytes, Go.maxRune,
      Go.surrogateMin, Go.surrogateMax.
    set (r := (s0 - 224) * 4096 + (s1 - 128) * 64 + (s2 - 128)) in *.
    replace ((0 <=? r) && (r <=? 0x7F)) with false by (zbool; lia).
    replace ((0 <=? r) && (r <=? 0x7FF)) with false by (zbool; lia).
    replace ((r <? 0) || (1114111 <? r) || ((55296 <=? r) && (r <=? 57343)))
      with false by (zbool; lia).
    replace (r <=? 0xFFFF) with true by (zbool; lia).
    cbn [app]. subst r.
    f_equal; [|f_equal; [|f_equal]]; Z.div_mod_to_equations; lia. }
  destruct ((0xF0 <=? s0) && (s0 <? 0xF8)) eqn:C4;
    [|injection Hd as <- <-; now left].
  destruct t as [|s1 [|s2 [|s3 t']]]; try (injection Hd as <- <-; now left).
  rewrite rune4 in Hd. unfold Go.isCont, Go.maxRune in Hd.
  match type of Hd with (if ?c then _ else _) = _ => destruct c eqn:C end;
    [|injection Hd as <- <-; now left].
  injection Hd as <- <-. right. bprop C4. bprop C.
  assert (E0 : s0 mod 8 = s0 - 240) by (Z.div_mod_to_equations; lia).
  assert (E1 : s1 mod 64 = s1 - 128) by (Z.div_mod_to_equations; lia).
  assert (E2 : s2 mod 64 = s2 - 128) by (Z.div_mod_to_equations; lia).
  assert (E3 : s3 mod 64 = s3 - 128) by (Z.div_mod_to_equations; lia).
  rewrite E0, E1, E2, E3 in *. split; [unfold isScalar; lia|].
  cbn [skipn Nat.sub]. unfold Decoder.utf8Bytes, Go.maxRune,
    Go.surrogateMin, Go.surrogateMax.
  set (r := (s0 - 240) * 262144 + (s1 - 128) * 4096 + (s2 - 128) * 64 + (s3 - 128)) in *.
  replace ((0 <=? r) && (r <=? 0x7F)) with false by (zbool; lia).
  replace ((0 <=? r) && (r <=? 0x7FF)) with false by (zbool; lia).
  replace ((r <? 0) || (1114111 <? r) || ((55296 <=? r) && (r <=? 57343)))
    with false by (zbool; lia).
  replace (r <=? 0xFFFF) with false by (zbool; lia).
  cbn [app]. subst r.
  f_equal; [|f_equal; [|f_equal; [|f_equal]]]; Z.div_mod_to_equations; lia.
Qed.

Lemma rangeStep_scalar (b : Z) (t : list Z) :
  isByte b -> isScalar (fst (Go.rangeStep (b :: t))).
Proof.
  intros Hb. unfold Go.rangeStep.
  destruct (Z.ltb_spec b 0x80) as [Hlt|Hge].
  - unfold isByte in Hb. unfold isScalar. cbn [fst]. lia.
  - destruct (Go.decoderune (b :: t)) as [r n] eqn:E.
    destruct (decoderune_spec b t r n Hb Hge E) as [[_ ->]|[Hs _]];
      [apply runeError_scalar|exact Hs].
Qed.

Lemma runesFrom_scalar (bs : list Z) :
  Forall isByte bs -> forall k, Forall isScalar (Go.runesFrom k bs).
Proof.
  induction 1 as [|b t Hb _ IH]; intros k; [constructor|].
  cbn [Go.runesFrom]. destruct k as [|k]; [|apply IH].
  pose proof (rangeStep_scalar b t Hb) as Hs.
  destruct (Go.rangeStep (b :: t)) as [r n].
  constructor; [exact Hs|apply IH].
Qed.

Lemma utf8_roundtrip (bs : list Z) :
  Forall isByte bs ->
  forall k, Go.validFrom k bs = true ->
            flat_map Decoder.utf8Bytes (Go.runesFrom k bs) = skipn k bs.
Proof.
  induction 1 as [|b t Hb _ IH]; intros k Hv.
  - destruct k; reflexivity.
  - destruct k as [|k]; cbn [Go.runesFrom Go.validFrom skipn] in *; [|now apply IH].
    unfold Go.rangeStep. destruct (Z.ltb_spec b 0x80) as [Hlt|Hge].
    + cbn [flat_map Nat.sub]. rewrite (IH 0%nat Hv). cbn [skipn].
      unfold Decoder.utf8Bytes. unfold isByte in Hb.
      replace ((0 <=? b) && (b <=? 0x7F)) with true by (zbool; lia).
      reflexivity.
    + destruct (Go.decoderune (b :: t)) as [r n] eqn:E.
      apply andb_true_iff in Hv. destruct Hv as [Hn Hv].
      destruct (decoderune_spec b t r n Hb Hge E) as [[-> _]|[_ Hbytes]];
        [discriminate Hn|].
      cbn [flat_map]. rewrite (IH _ Hv). exact Hbytes.
Qed.

Lemma stripPrefix_app (a b : string) : Decoder.stripPrefix a (a ++ b) = Some b.
Proof.
  induction a as [|c a IH]; cbn; [reflexivity|].
  now rewrite Ascii.eqb_refl.
Qed.

Lemma payload_decodes (s : string) :
  Decoder.decodePayload (Go.EncodeToString (encodeUtf16Le s))
  = Some (Decoder.stringOfRunes (Go.runes s)).
Proof.
  unfold Decoder.decodePayload.
  rewrite encodeUtf16Le_bytes, (base64_roundtrip _ (leBytes_range _)).
  rewrite (unitsOfBytes_leBytes _ (Encode_units _)).
  rewrite utf16_roundtrip; [reflexivity|].
  apply runesFrom_scalar, bytesOf_range.
Qed.

Lemma payload_roundtrip (s : string) :
  Go.ValidString s = true ->
  Decoder.decodePayload (Go.EncodeToString (encodeUtf16Le s)) = Some s.
Proof.
  intros Hv. rewrite payload_decodes. f_equal.
  unfold Decoder.stringOfRunes, Go.runes.
  rewrite (utf8_roundtrip _ (bytesOf_range s) 0%nat Hv).
  cbn [skipn]. apply stringOf_bytesOf.
Qed.

(** C6, as the code has it: the payload of the update command decodes
    (base64, then UTF-16LE) to the runes that the conversion of the
    invocation string yields, and so to exactly the invocation string
    whenever that string is valid UTF-8. *)
Theorem encoded_payload_round_trip (p : Provisioner) :
  Go.ValidString (windowsUpdateInvocation p) = true ->
  exists payload,
    Decoder.encodedPayload (windowsUpdateCommand p) = Some payload
    /\ payload = Go.EncodeToString (encodeUtf16Le (windowsUpdateInvocation p))
    /\ Decoder.decodePayload payload
       = Some (Decoder.stringOfRunes (Go.runes (windowsUpdateInvocation p)))
    /\ Decoder.decodePayload payload = Some (windowsUpdateInvocation p).
Proof.
  intros Hv. eexists. split; [apply stripPrefix_app|].
  split; [reflexivity|]. split; [apply payload_decodes|now apply payload_roundtrip].
Qed.

Lemma encoded_payload_round_trip_witness :
  Go.ValidString (windowsUpdateInvocation quotedP) = true
  /\ exists payload,
       Decoder.encodedPayload (windowsUpdateCommand quotedP) = Some payload
       /\ Decoder.decodePayload payload = Some (windowsUpdateInvocation quotedP).
Proof.
  assert (Hv : Go.ValidString (windowsUpdateInvocation quotedP) = true)
    by (vm_compute; reflexivity).
  split; [exact Hv|].
  destruct (encoded_payload_round_trip quotedP Hv) as (payload & H1 & _ & _ & H2).
  exists payload. split; [exact H1|exact H2].
Defined.

(** C6, as the specification has it, fails: a search criteria that is
    not UTF-8 is not recovered.  The byte 0xFF is read as U+FFFD when the
    invocation string is turned into runes, and the payload decodes to
    the three bytes of U+FFFD in its place. *)
Lemma invalid_utf8_is_not_recovered :
  windowsUpdateInvocation badP
  = windowsUpdatePath ++ " -SearchCriteria '" ++ byteFF ++ "' -UpdateLimit 1000"
  /\ Decoder.encodedPayload (windowsUpdateCommand badP)
     = Some (Go.EncodeToString (encodeUtf16Le (windowsUpdateInvocation badP)))
  /\ Decoder.decodePayload
       (Go.EncodeToString (encodeUtf16Le (windowsUpdateInvocation badP)))
     = Some (windowsUpdatePath ++ " -SearchCriteria '" ++ replacementBytes
               ++ "' -UpdateLimit 1000")
  /\ Decoder.decodePayload
       (Go.EncodeToString (encodeUtf16Le (windowsUpdateInvocation badP)))
     <> Some (windowsUpdateInvocation badP).
Proof.
  split; [vm_compute; reflexivity|]. split; [vm_compute; reflexivity|].
  split; [vm_compute; reflexivity|].
  intros Heq. vm_compute in Heq. discriminate Heq.
Qed.

(** C8: the command that only checks for a pending reboot has the same
    interpreter invocation as the update command, with a payload encoded
    the same way; its payload decodes to the same script path followed by
    the one flag [-OnlyCheckForRebootRequired]; no setting of the
    configuration, and so no update limit, takes part in it, while the
    update command ends its invocation with the update limit. *)
Theorem check_only_command (p : Provisioner) :
  encodedCommandPrefix
  = "PowerShell -ExecutionPolicy Bypass -OutputFormat Text -EncodedCommand "
  /\ Decoder.encodedPayload (windowsUpdateCommand p)
     = Some (Go.EncodeToString (encodeUtf16Le (windowsUpdateInvocation p)))
  /\ Decoder.encodedPayload (windowsUpdateCheckForRebootRequiredCommand p)
     = Some (Go.EncodeToString (encodeUtf16Le checkForRebootRequiredInvocation))
  /\ Decoder.decodePayload
       (Go.EncodeToString (encodeUtf16Le checkForRebootRequiredInvocation))
     = Some "C:/Windows/Temp/packer-windows-update.ps1 -OnlyCheckForRebootRequired"
  /\ checkForRebootRequiredInvocation
     = windowsUpdatePath ++ " -OnlyCheckForRebootRequired"
  /\ (forall q, windowsUpdateCheckForRebootRequiredCommand p
                = windowsUpdateCheckForRebootRequiredCommand q)
  /\ windowsUpdateInvocation p
     = windowsUpdatePath
         ++ searchCriteriaArgument (SearchCriteria (config p))
         ++ filtersArgument (Filters (config p))
         ++ " -UpdateLimit " ++ Go.fmt_d (UpdateLimit (config p)).
Proof.
  split; [reflexivity|]. split; [apply stripPrefix_app|].
  split; [apply stripPrefix_app|]. split; [|split; [reflexivity|split; reflexivity]].
  apply payload_roundtrip. vm_compute. reflexivity.
Qed.

(** * Further properties of the encoder *)

(** X1: The escaping is unambiguous: two values with the same literal are the
    same value. *)
Theorem escapePowerShellString_injective (a b : string) :
  escapePowerShellString a = escapePowerShellString b -> a = b.
Proof.
  intros Heq.
  pose proof (readLiteral_escape a "" I) as Ha.
  pose proof (readLiteral_escape b "" I) as Hb.
  rewrite Heq, Hb in Ha. now injection Ha.
Qed.

Lemma escapePowerShellString_injective_witness :
  escapePowerShellString "O'Brien" = escapePowerShellString "O'Brien"
  /\ "O'Brien" = "O'Brien".
Proof.
  split; [reflexivity|].
  exact (escapePowerShellString_injective "O'Brien" "O'Brien" eq_refl).
Defined.

Lemma startsWith_false (c : ascii) (rest : string) :
  startsWith c rest = false ->
  match rest with String d _ => d <> c | EmptyString => True end.
Proof.
  destruct rest as [|d r]; [trivial|]. cbn [startsWith].
  intros Hd. now apply Ascii.eqb_neq.
Qed.

(** X2: The search criteria cannot leave its quotes: whatever bytes it holds,
    the text that follows the flag in the invocation reads back as one
    literal, the search criteria itself, and what is left is the rest of
    the invocation. *)
Theorem search_criteria_stays_quoted
    (rt : Duration) (u pw : string) (c : ascii) (sc : string)
    (fs : option (list string)) (ul : Z) :
  exists tail,
    Decoder.stripPrefix (windowsUpdatePath ++ " -SearchCriteria ")
      (windowsUpdateInvocation
         (mkProvisioner (mkConfig rt u pw (String c sc) fs ul)))
    = Some tail
    /\ Decoder.readLiteral tail
       = Some (String c sc,
               filtersArgument fs ++ " -UpdateLimit " ++ Go.fmt_d ul).
Proof.
  exists (escapePowerShellString (String c sc)
            ++ filtersArgument fs ++ " -UpdateLimit " ++ Go.fmt_d ul).
  split.
  - replace (windowsUpdateInvocation
               (mkProvisioner (mkConfig rt u pw (String c sc) fs ul)))
      with ((windowsUpdatePath ++ " -SearchCriteria ")
              ++ escapePowerShellString (String c sc)
              ++ filtersArgument fs ++ " -UpdateLimit " ++ Go.fmt_d ul).
    + apply stripPrefix_app.
    + unfold windowsUpdateInvocation.
      cbn [config SearchCriteria Filters UpdateLimit].
      change (searchCriteriaArgument (String c sc))
        with (" -SearchCriteria " ++ escapePowerShellString (String c sc)).
      now rewrite !append_assoc.
  - apply readLiteral_escape.
    destruct fs as [fs|]; [|discriminate].
    rewrite filtersArgument_join. discriminate.
Qed.

Lemma readLiterals_join (fs : list string) :
  forall (f rest : string),
    startsWith "'"%char rest = false -> startsWith ","%char rest = false ->
    readLiterals (S (List.length fs))
      (String.concat "," (map escapePowerShellString (f :: fs)) ++ rest)
    = Some (f :: fs, rest).
Proof.
  induction fs as [|g fs IH]; intros f rest Hq Hc.
  - change (String.concat "," (map escapePowerShellString [f]))
      with (escapePowerShellString f).
    cbn [readLiterals List.length].
    rewrite (readLiteral_escape f rest (startsWith_false _ _ Hq)).
    destruct rest as [|c rest']; [reflexivity|].
    cbn [startsWith] in Hc. now rewrite Hc.
  - change (String.concat "," (map escapePowerShellString (f :: g :: fs)))
      with (escapePowerShellString f ++ ","
              ++ String.concat "," (map escapePowerShellString (g :: fs))).
    rewrite !append_assoc.
    change ("," ++ String.concat "," (map escapePowerShellString (g :: fs)) ++ rest)
      with (String ","%char
              (String.concat "," (map escapePowerShellString (g :: fs)) ++ rest)).
    change (readLiterals (S (List.length (g :: fs))) ?s)
      with (match Decoder.readLiteral s with
            | None => None
            | Some (v, rest) =>
                match rest with
                | String c rest' =>
                    if Ascii.eqb c ","%char then
                      match readLiterals (S (List.length fs)) rest' with
                      | Some (vs, r) => Some (v :: vs, r)
                      | None => None
                      end
                    else Some ([v], rest)
                | EmptyString => Some ([v], rest)
                end
            end).
    rewrite readLiteral_escape by discriminate.
    cbn [Ascii.eqb Bool.eqb]. now rewrite (IH g rest Hq Hc).
Qed.

(** X3: The filters can be read back from the argument: the text after the
    flag is a list of literals separated by commas that reads back as
    exactly the filters, in order, also when a filter holds commas or
    quotes of its own. *)
Theorem filters_read_back (f : string) (fs : list string) (rest : string) :
  startsWith "'"%char rest = false -> startsWith ","%char rest = false ->
  exists tail,
    Decoder.stripPrefix " -Filters " (filtersArgument (Some (f :: fs)) ++ rest)
    = Some tail
    /\ readLiterals (List.length (f :: fs)) tail = Some (f :: fs, rest).
Proof.
  intros Hq Hc.
  exists (String.concat "," (map escapePowerShellString (f :: fs)) ++ rest).
  split.
  - rewrite filtersArgument_join, append_assoc. apply stripPrefix_app.
  - apply readLiterals_join; assumption.
Qed.

Lemma filters_read_back_witness :
  exists tail,
    Decoder.stripPrefix " -Filters "
      (filtersArgument (Some ["include:a,b"; "it's"; ""]) ++ " -UpdateLimit 1000")
    = Some tail
    /\ readLiterals 3 tail
       = Some (["include:a,b"; "it's"; ""], " -UpdateLimit 1000").
Proof.
  exact (filters_read_back "include:a,b" ["it's"; ""] " -UpdateLimit 1000"
           eq_refl eq_refl).
Defined.

Lemma enc_isBase64Char (v : Z) : isBase64Char (Go.enc (Z.land v 0x3F)) = true.
Proof.
  unfold isBase64Char. rewrite land_0x3F, dec_enc; [reflexivity|].
  apply Z.mod_pos_bound. lia.
Qed.

Lemma EncodeToString_chars (bs : list Z) :
  forallb isBase64Char (list_ascii_of_string (Go.EncodeToString bs)) = true.
Proof.
  induction bs as [|b0|b0 b1|b0 b1 b2 rest IH] using list_ind3;
    cbn [Go.EncodeToString list_ascii_of_string forallb];
    rewrite ?enc_isBase64Char, ?IH; reflexivity.
Qed.

Lemma EncodeToString_length (bs : list Z) :
  String.length (Go.EncodeToString bs) = (4 * ((List.length bs + 2) / 3))%nat.
Proof.
  induction bs as [|b0|b0 b1|b0 b1 b2 rest IH] using list_ind3;
    try reflexivity.
  cbn [Go.EncodeToString String.length List.length]. rewrite IH.
  replace (S (S (S (List.length rest))) + 2)%nat
    with (List.length rest + 2 + 1 * 3)%nat by lia.
  rewrite Nat.div_add by lia. lia.
Qed.

Lemma string_length_app (a b : string) :
  String.length (a ++ b) = (String.length a + String.length b)%nat.
Proof. induction a as [|c a IH]; cbn; [reflexivity|now rewrite IH]. Qed.

(** X4: The payload is one word of base64 text: the update command and the
    check command are the interpreter prefix followed by characters of
    the base64 alphabet and padding only, so the payload holds no space
    and no quote, and its length is four characters for every three bytes
    of UTF-16LE, rounded up. *)
Theorem encoded_payload_is_one_word (p : Provisioner) :
  forall command invocation,
    (command, invocation) = (windowsUpdateCommand p, windowsUpdateInvocation p)
    \/ (command, invocation)
       = (windowsUpdateCheckForRebootRequiredCommand p,
          checkForRebootRequiredInvocation) ->
    exists payload,
      command = encodedCommandPrefix ++ payload
      /\ forallb isBase64Char (list_ascii_of_string payload) = true
      /\ (forall c, In c (list_ascii_of_string payload) ->
            c <> " "%char /\ c <> "'"%char /\ c <> "034"%char)
      /\ String.length payload
         = (4 * ((2 * List.length (Go.Encode (Go.runes invocation)) + 2) / 3))%nat.
Proof.
  intros command invocation Hc.
  exists (Go.EncodeToString (encodeUtf16Le invocation)).
  split; [destruct Hc as [[= -> ->]|[= -> ->]]; reflexivity|].
  split; [apply EncodeToString_chars|]. split.
  - intros c Hin.
    pose proof (EncodeToString_chars (encodeUtf16Le invocation)) as Hall.
    rewrite forallb_forall in Hall. specialize (Hall c Hin).
    repeat split; intros ->; discriminate Hall.
  - rewrite EncodeToString_length, encodeUtf16Le_bytes. do 3 f_equal.
    induction (Go.Encode (Go.runes invocation)) as [|r d IH]; [reflexivity|].
    cbn [flat_map leBytes app List.length]. rewrite IH. lia.
Qed.

Lemma encoded_payload_is_one_word_witness :
  exists payload,
    windowsUpdateCommand sampleP = encodedCommandPrefix ++ payload
    /\ forallb isBase64Char (list_ascii_of_string payload) = true.
Proof.
  destruct (encoded_payload_is_one_word sampleP (windowsUpdateCommand sampleP)
              (windowsUpdateInvocation sampleP) (or_introl eq_refl))
    as (payload & H1 & H2 & _).
  exists payload. split; [exact H1|exact H2].
Defined.

(** X5: The loop of [encodeUtf16Le] fills the slice it allocated: the result
    is two bytes a code unit, low byte first, and reading the byte pairs
    back as UTF-16 gives the runes of the string. *)
Theorem encodeUtf16Le_reads_back (s : string) :
  Forall isByte (encodeUtf16Le s)
  /\ List.length (encodeUtf16Le s)
     = (2 * List.length (Go.Encode (Go.runes s)))%nat
  /\ encodeUtf16Le s = flat_map leBytes (Go.Encode (Go.runes s))
  /\ option_map Decoder.utf16Decode (Decoder.unitsOfBytes (encodeUtf16Le s))
     = Some (Go.runes s).
Proof.
  rewrite encodeUtf16Le_bytes. split; [apply leBytes_range|].
  split; [|split; [reflexivity|]].
  - induction (Go.Encode (Go.runes s)) as [|r d IH]; [reflexivity|].
    cbn [flat_map leBytes app List.length]. rewrite IH. lia.
  - rewrite (unitsOfBytes_leBytes _ (Encode_units _)). cbn [option_map].
    f_equal. apply utf16_roundtrip, runesFrom_scalar, bytesOf_range.
Qed.

(** *** ASCII inputs *)

Lemma bytesOf_app (a b : string) :
  Go.bytesOf (a ++ b) = (Go.bytesOf a ++ Go.bytesOf b)%list.
Proof.
  unfold Go.bytesOf. induction a as [|c a IH]; cbn; [reflexivity|].
  now rewrite IH.
Qed.

Lemma isAscii_app (a b : string) : isAscii (a ++ b) = isAscii a && isAscii b.
Proof. unfold isAscii. rewrite bytesOf_app. apply forallb_app. Qed.

Lemma isAscii_String (c : ascii) (s : string) :
  isAscii (String c s) = (Go.byteOf c <? 0x80) && isAscii s.
Proof. reflexivity. Qed.

Lemma isAscii_Replace (v : string) :
  isAscii v = true -> isAscii (Go.Replace v "'"%char "''") = true.
Proof.
  induction v as [|c v IH]; [reflexivity|].
  rewrite isAscii_String. intros Hv. apply andb_true_iff in Hv.
  destruct Hv as [Hc Hv]. cbn [Go.Replace].
  destruct (Ascii.eqb c "'"%char).
  - rewrite isAscii_app, (IH Hv). reflexivity.
  - rewrite isAscii_String, Hc, (IH Hv). reflexivity.
Qed.

Lemma isAscii_escape (v : string) :
  isAscii v = true -> isAscii (escapePowerShellString v) = true.
Proof.
  intros Hv. unfold escapePowerShellString.
  rewrite !isAscii_app, (isAscii_Replace v Hv). reflexivity.
Qed.

Lemma isAscii_concat (sep : string) (l : list string) :
  isAscii sep = true -> forallb isAscii l = true ->
  isAscii (String.concat sep l) = true.
Proof.
  intros Hs. induction l as [|x l IH]; [reflexivity|].
  cbn [forallb]. intros Hl. apply andb_true_iff in Hl. destruct Hl as [Hx Hl].
  destruct l as [|y l]; [exact Hx|].
  change (String.concat sep (x :: y :: l))
    with (x ++ sep ++ String.concat sep (y :: l)).
  rewrite !isAscii_app, Hx, Hs, (IH Hl). reflexivity.
Qed.

Lemma isAscii_uint (d : Decimal.uint) :
  isAscii (NilEmpty.string_of_uint d) = true.
Proof.
  induction d; cbn [NilEmpty.string_of_uint]; [reflexivity|..];
    rewrite isAscii_String, IHd; reflexivity.
Qed.

Lemma isAscii_fmt_d (n : Z) : isAscii (Go.fmt_d n) = true.
Proof.
  unfold Go.fmt_d, NilZero.string_of_int, NilZero.string_of_uint.
  destruct (Z.to_int n) as [d|d].
  - destruct d; try apply isAscii_uint. reflexivity.
  - rewrite isAscii_String.
    destruct d; try apply isAscii_uint; reflexivity.
Qed.

Lemma isAscii_valid (s : string) : isAscii s = true -> Go.ValidString s = true.
Proof.
  unfold isAscii, Go.ValidString.
  induction (Go.bytesOf s) as [|b bs IH]; [reflexivity|].
  cbn [forallb Go.validFrom]. intros Hb. apply andb_true_iff in Hb.
  destruct Hb as [Hb Hbs]. rewrite Hb. exact (IH Hbs).
Qed.

Lemma isAscii_invocation (p : Provisioner) :
  isAscii (SearchCriteria (config p)) = true ->
  match Filters (config p) with
  | Some fs => forallb isAscii fs
  | None => true
  end = true ->
  isAscii (windowsUpdateInvocation p) = true.
Proof.
  intros Hs Hf. unfold windowsUpdateInvocation.
  rewrite !isAscii_app, isAscii_fmt_d.
  assert (Hsa : isAscii (searchCriteriaArgument (SearchCriteria (config p))) = true).
  { unfold searchCriteriaArgument, Go.WriteString.
    destruct (String.eqb _ ""); [reflexivity|].
    rewrite !isAscii_app, (isAscii_escape _ Hs). reflexivity. }
  assert (Hfa : isAscii (filtersArgument (Filters (config p))) = true).
  { destruct (Filters (config p)) as [fs|]; [|reflexivity].
    rewrite filtersArgument_join, isAscii_app. apply andb_true_iff.
    split; [reflexivity|]. apply isAscii_concat; [reflexivity|].
    rewrite forallb_forall in *. intros x Hx. apply in_map_iff in Hx.
    destruct Hx as (f & <- & Hin). apply isAscii_escape, Hf, Hin. }
  rewrite Hsa, Hfa. reflexivity.
Qed.

(** X6: For a search criteria and filters of ASCII bytes the round trip of
    the payload is exact: the whole invocation is ASCII, each of its
    bytes becomes one code unit, and the payload decodes to the
    invocation string itself. *)
Theorem ascii_inputs_round_trip (p : Provisioner) :
  isAscii (SearchCriteria (config p)) = true ->
  match Filters (config p) with
  | Some fs => forallb isAscii fs
  | None => true
  end = true ->
  isAscii (windowsUpdateInvocation p) = true
  /\ exists payload,
       Decoder.encodedPayload (windowsUpdateCommand p) = Some payload
       /\ Decoder.decodePayload payload = Some (windowsUpdateInvocation p).
Proof.
  intros Hs Hf. pose proof (isAscii_invocation p Hs Hf) as Ha.
  split; [exact Ha|]. eexists. split; [apply stripPrefix_app|].
  apply payload_roundtrip, isAscii_valid, Ha.
Qed.

Lemma ascii_inputs_round_trip_witness :
  exists payload,
    Decoder.encodedPayload (windowsUpdateCommand sampleP) = Some payload
    /\ Decoder.decodePayload payload = Some (windowsUpdateInvocation sampleP).
Proof.
  exact (proj2 (ascii_inputs_round_trip sampleP eq_refl eq_refl)).
Defined.

(** * Further properties of Prepare *)

Section PrepareFurther.

Variable Raw : Type.
Variable Decode : Config -> list Raw -> Config * option error.

Lemma Prepare_nonzero (p : Provisioner) (raws : list Raw) (c : Config) :
  Decode (config p) raws = (c, None) ->
  RestartTimeout (config (fst (Prepare Raw Decode p raws))) <> 0
  /\ Username (config (fst (Prepare Raw Decode p raws))) <> ""
  /\ UpdateLimit (config (fst (Prepare Raw Decode p raws))) <> 0.
Proof.
  intros HD. unfold Prepare. rewrite HD.
  destruct c as [rt u pw sc fs ul].
  cbn [RestartTimeout Username UpdateLimit Password SearchCriteria Filters].
  destruct (Z.eqb_spec rt 0) as [->|Hrt]; cbn -[Z.mul];
    destruct (String.eqb_spec u "") as [->|Hu]; cbn -[Z.mul];
    destruct (Z.eqb_spec ul 0) as [->|Hul]; cbn -[Z.mul];
    repeat split; try assumption; try discriminate;
    rewrite four_hours; discriminate.
Qed.

(** X7: Prepare adds no failure of its own: it returns an error exactly when
    the decoding does, and that error; then no default is filled in and
    the configuration is left as the decoding left it. *)
Theorem Prepare_fails_as_Decode_fails (p : Provisioner) (raws : list Raw) :
  snd (Prepare Raw Decode p raws) = snd (Decode (config p) raws)
  /\ match snd (Decode (config p) raws) with
     | Some e => config (fst (Prepare Raw Decode p raws))
                 = fst (Decode (config p) raws)
     | None => True
     end.
Proof.
  unfold Prepare. destruct (Decode (config p) raws) as [c [e|]].
  - split; reflexivity.
  - split; [|exact I]. cbn [snd].
    destruct (String.eqb_spec
                (Username (if RestartTimeout c =? 0
                           then withRestartTimeout c (4 * Hour) else c)) "")
      as [Hu|Hu]; [reflexivity|].
    destruct (String.eqb_spec
                (Username (if RestartTimeout c =? 0
                           then withRestartTimeout c (4 * Hour) else c)) "");
      [contradiction|reflexivity].
Qed.

(** X8: After a successful Prepare no defaulted setting is at its zero value:
    the restart timeout is not 0, the username is not empty and the
    update limit is not 0. *)
Theorem Prepare_leaves_no_zero (p : Provisioner) (raws : list Raw) (c : Config) :
  Decode (config p) raws = (c, None) ->
  RestartTimeout (config (fst (Prepare Raw Decode p raws))) <> 0
  /\ Username (config (fst (Prepare Raw Decode p raws))) <> ""
  /\ UpdateLimit (config (fst (Prepare Raw Decode p raws))) <> 0.
Proof. apply Prepare_nonzero. Qed.

End PrepareFurther.

Lemma Prepare_leaves_no_zero_witness :
  lastRaw unsetConfig [unsetConfig] = (unsetConfig, None)
  /\ RestartTimeout
       (config (fst (Prepare Config lastRaw (mkProvisioner unsetConfig) [unsetConfig])))
     <> 0.
Proof.
  split; [reflexivity|].
  exact (proj1 (Prepare_leaves_no_zero Config lastRaw (mkProvisioner unsetConfig)
                  [unsetConfig] unsetConfig eq_refl)).
Defined.

(** * Further properties of the update and restart loop *)

Section OrchestrationFurther.

Context {Env : Type} `{Collaborators Env}.

(** X9: [update] reports a pending restart exactly when the script exits
    with 101, and then without an error; it returns no error exactly when
    the script exits with 0 or 101; a transport error is returned as it
    is. *)
Theorem update_reports_exit_status
    (p : Provisioner) (s s1 : State Env) (pending : bool) (err : option error) :
  update p s = Some (s1, (pending, err)) ->
  s1 = afterUpdate s
  /\ (pending = true <-> scriptResult s = Exited 101)
  /\ (pending = true -> err = None)
  /\ (err = None <-> scriptResult s = Exited 0 \/ scriptResult s = Exited 101)
  /\ (forall e, scriptResult s = RunError e -> err = Some e).
Proof.
  rewrite update_eq. intros [= <- Hr]. split; [reflexivity|].
  destruct (scriptResult s) as [e|st].
  - injection Hr as <- <-. repeat split; try discriminate.
    + intros [|]; discriminate.
    + now intros e' [= ->].
  - destruct (Z.eqb_spec st 0) as [E0|H0].
    { injection Hr as <- <-. rewrite E0.
      repeat split; try discriminate; auto. }
    destruct (Z.eqb_spec st 101) as [E101|H101].
    { injection Hr as <- <-. rewrite E101.
      repeat split; try discriminate; auto. }
    injection Hr as <- <-. repeat split; try discriminate.
    + intros [= E]. contradiction.
    + intros [[= E]|[= E]]; contradiction.
Qed.

(** X10: The loop returns without error only straight after a run of the
    update script that exited with 0: it never ends in success after a
    restart sequence without running the script again. *)
Theorem success_only_after_exit_0
    (fuel : nat) (p : Provisioner) (s s' : State Env) :
  provisionLoop fuel p s = Some (s', None) ->
  exists s0, scriptResult s0 = Exited 0 /\ s' = afterUpdate s0.
Proof.
  revert s. induction fuel as [|fuel IH]; intros s; [discriminate|].
  rewrite provisionLoop_step.
  destruct (scriptResult s) as [e|st] eqn:Es; [discriminate|].
  destruct (Z.eqb_spec st 0) as [E0|H0].
  { intros [= <-]. exists s. rewrite Es, E0. split; reflexivity. }
  destruct (st =? 101); [|discriminate].
  destruct (restart (S fuel) p (afterUpdate s)) as [[s2 [e|]]|];
    [discriminate|apply IH|discriminate].
Qed.

(** X11: In every run of the loop, whatever its outcome, runs of the update
    script and restart sequences alternate, starting with a run of the
    script; the phases end with a restart sequence only when that restart
    sequence failed. *)
Theorem phases_alternate_in_every_run
    (fuel : nat) (p : Provisioner) (s s' : State Env) (r : option error) :
  provisionLoop fuel p s = Some (s', r) ->
  exists evs k,
    trace s' = (trace s ++ evs)%list
    /\ (phases evs = alternating k
        \/ (phases evs = (alternating k ++ [RestartSequence])%list /\ r <> None)).
Proof.
  revert s. induction fuel as [|fuel IH]; intros s; [discriminate|].
  rewrite provisionLoop_step.
  assert (Hdone : forall x, Some (afterUpdate s, x) = Some (s', r) ->
    exists evs k,
      trace s' = (trace s ++ evs)%list
      /\ (phases evs = alternating k
          \/ (phases evs = (alternating k ++ [RestartSequence])%list /\ r <> None))).
  { intros x [= <- _].
    exists [Said "Running Windows update..."; Ran elevatedCommand], 0%nat.
    split; [reflexivity|left; reflexivity]. }
  destruct (scriptResult s) as [e|st]; [apply Hdone|].
  destruct (st =? 0); [apply Hdone|].
  destruct (st =? 101); [|apply Hdone].
  destruct (restart (S fuel) p (afterUpdate s)) as [[s2 r2]|] eqn:Er; [|discriminate].
  destruct (restart_trace _ _ _ _ _ Er) as (evsR & EtR & FR).
  cbn [afterUpdate trace] in EtR. rewrite <- app_assoc in EtR.
  destruct r2 as [e|].
  - intros [= <- <-]. eexists. exists 0%nat. split; [exact EtR|].
    right. split; [|discriminate].
    change (Said "Restarting the machine..." :: evsR)
      with ([Said "Restarting the machine..."] ++ evsR)%list.
    rewrite !phases_app, (phases_silent evsR FR). reflexivity.
  - intros Hl. destruct (IH _ Hl) as (evs & k & Et & Hp).
    exists ([Said "Running Windows update..."; Ran elevatedCommand]
              ++ [Said "Restarting the machine..."] ++ evsR ++ evs)%list, (S k).
    split.
    + rewrite Et, EtR, <- !app_assoc. reflexivity.
    + rewrite !phases_app, (phases_silent evsR FR).
      destruct Hp as [Hp|[Hp Hr]]; rewrite Hp; [left|right; split; [|exact Hr]];
        reflexivity.
Qed.

(** X12: The restart sequence has two stages, parted by the message that the
    provisioner waits for the machine.  The first stage is the retried
    forced restart, run after the opening message: it only runs the
    forced restart, with sleeps of five seconds between attempts.  When
    it ends in an error the restart sequence ends there, with that error
    and in the state the first stage left: the second stage never
    starts and no probe is run.  When it ends without error, the second
    stage is the retried probe, abort and check, run after the waiting
    message: it only runs these three, with the same sleeps, and its
    result is the result of the restart sequence. *)
Theorem restart_two_stages
    (fuel : nat) (p : Provisioner) (s s' : State Env) (r : option error) :
  restart fuel p s = Some (s', r) ->
  exists s1 r1 evs1,
    retryable fuel p restartAttempt
      (mkState (env s) (now s) (trace s ++ [Said "Restarting the machine..."]))
    = Some (s1, r1)
    /\ trace s1 = (trace s ++ Said "Restarting the machine..." :: evs1)%list
    /\ Forall (fun e => In e forcedRestartEvents) evs1
    /\ match r1 with
       | Some e => s' = s1 /\ r = Some e
       | None =>
           retryable fuel p waitAttempt
             (mkState (env s1) (now s1)
                (trace s1 ++ [Said "Waiting for machine to become available..."]))
           = Some (s', r)
           /\ exists evs2,
                Forall (fun e => In e waitEvents) evs2
                /\ trace s'
                   = (trace s1
                        ++ Said "Waiting for machine to become available..."
                        :: evs2)%list
       end.
Proof.
  rewrite restart_eq.
  destruct (retryable fuel p restartAttempt _) as [[s1 r1]|] eqn:E1; [|discriminate].
  assert (A1 : adds (fun e => In e forcedRestartEvents)
                 (retryable fuel p restartAttempt : M Env (option error))).
  { apply adds_retryable; [apply adds_restartAttempt; left; reflexivity|].
    right; left; reflexivity. }
  destruct (A1 _ _ _ E1) as (evs1 & Et1 & F1). cbn [trace] in Et1.
  intros E2. exists s1, r1, evs1. split; [reflexivity|].
  split; [rewrite Et1, <- app_assoc; reflexivity|]. split; [exact F1|].
  destruct r1 as [e|].
  - injection E2 as <- <-. split; reflexivity.
  - split; [exact E2|].
    assert (A2 : adds (fun e => In e waitEvents)
                   (retryable fuel p waitAttempt : M Env (option error))).
    { apply adds_retryable; [apply adds_waitAttempt|]; cbn [waitEvents In]; auto. }
    destruct (A2 _ _ _ E2) as (evs2 & Et2 & F2). cbn [trace] in Et2.
    exists evs2. split; [exact F2|].
    rewrite Et2, <- app_assoc. reflexivity.
Qed.

Lemma RunWithUi_eq (command : string) (s : State Env) e' r dt :
  cmd_RunWithUi (env s) command = (e', r, dt) ->
  RunWithUi command s
  = Some (mkState e' (now s + Z.of_N dt) (trace s ++ [Ran command]), r).
Proof. intros Hc. unfold RunWithUi. now rewrite Hc. Qed.

(** X13: When the forced restart, the probe and the check each exit with 0 at
    the first attempt, the restart sequence runs exactly the four
    commands, in order and without a sleep, and returns no error; the
    exit status of the abort command is not looked at. *)
Theorem restart_at_first_attempt
    (fuel : nat) (p : Provisioner) (s : State Env)
    (e1 e2 e3 e4 : Env) (d1 d2 d3 d4 : N) (abortStatus : Z) :
  cmd_RunWithUi (env s) restartCommand = (e1, Exited 0, d1) ->
  cmd_RunWithUi e1 testRestartCommand = (e2, Exited 0, d2) ->
  cmd_RunWithUi e2 abortTestRestartCommand = (e3, Exited abortStatus, d3) ->
  cmd_RunWithUi e3 pendingRebootElevatedCommand = (e4, Exited 0, d4) ->
  restart (S fuel) p s
  = Some (mkState e4
            (now s + Z.of_N d1 + Z.of_N d2 + Z.of_N d3 + Z.of_N d4)
            (trace s ++ [Said "Restarting the machine...";
                         Ran restartCommand;
                         Said "Waiting for machine to become available...";
                         Ran testRestartCommand;
                         Ran abortTestRestartCommand;
                         Ran pendingRebootElevatedCommand]),
          None).
Proof.
  intros H1 H2 H3 H4. rewrite restart_eq, !retryable_eq.
  erewrite (retryLoop_success _ _ _ restartAttempt); cycle 1.
  { unfold restartAttempt, bind.
    erewrite RunWithUi_eq by (cbn [env]; exact H1). reflexivity. }
  cbn [env now trace]. rewrite retryable_eq.
  erewrite (retryLoop_success _ _ _ waitAttempt); cycle 1.
  { unfold waitAttempt, bind.
    erewrite RunWithUi_eq by (cbn [env]; exact H2). cbn [Z.eqb negb env].
    erewrite RunWithUi_eq by (cbn [env]; exact H3). cbn [env].
    erewrite RunWithUi_eq by (cbn [env]; exact H4). reflexivity. }
  cbn [env now trace]. rewrite <- !app_assoc. reflexivity.
Qed.

Lemma adds_update (P : Event -> Prop) (p : Provisioner) :
  P (Said "Running Windows update...") -> P (Ran elevatedCommand) ->
  adds P (update p : M Env (bool * option error)).
Proof.
  intros H1 H2. unfold update, ui_Say.
  apply adds_bind; [now apply adds_emit|]. intros _.
  apply adds_bind; [now apply adds_RunWithUi|].
  intros [err|st]; [apply adds_ret|].
  destruct (st =? 0); [apply adds_ret|]. destruct (st =? 101); apply adds_ret.
Qed.

Lemma adds_restart (P : Event -> Prop) (fuel : nat) (p : Provisioner) :
  (forall m, P (Said m)) -> (forall c, P (Ran c)) -> (forall d, P (Slept d)) ->
  adds P (restart fuel p : M Env (option error)).
Proof.
  intros H1 H2 H3. unfold restart, ui_Say.
  apply adds_bind; [now apply adds_emit|]. intros _.
  apply adds_bind; [apply adds_retryable; [apply adds_restartAttempt|]; auto|].
  intros [e|]; [apply adds_ret|].
  apply adds_bind; [now apply adds_emit|]. intros _.
  apply adds_retryable; [apply adds_waitAttempt|]; auto.
Qed.

Lemma adds_provisionLoop (P : Event -> Prop) (fuel : nat) (p : Provisioner) :
  (forall m, P (Said m)) -> (forall c, P (Ran c)) -> (forall d, P (Slept d)) ->
  adds P (provisionLoop fuel p : M Env (option error)).
Proof.
  intros H1 H2 H3. induction fuel as [|fuel IH]; [apply adds_outOfFuel|].
  cbn [provisionLoop]. apply adds_bind; [apply adds_update; auto|].
  intros [pending [e|]]; [apply adds_ret|].
  destruct (negb pending); [apply adds_ret|].
  apply adds_bind; [apply adds_restart; auto|].
  intros [e|]; [apply adds_ret|exact IH].
Qed.

Lemma uploadedPaths_cons (e : Event) (evs : list Event) :
  uploadedPaths (e :: evs) = (uploadedPaths [e] ++ uploadedPaths evs)%list.
Proof. unfold uploadedPaths. cbn [flat_map]. now rewrite app_nil_r. Qed.

Lemma commandsOf_cons (e : Event) (evs : list Event) :
  commandsOf (e :: evs) = (commandsOf [e] ++ commandsOf evs)%list.
Proof. unfold commandsOf. cbn [flat_map]. now rewrite app_nil_r. Qed.

Lemma uploadedPaths_none (evs : list Event) :
  Forall (fun e => uploadedPaths [e] = []) evs -> uploadedPaths evs = [].
Proof.
  induction 1 as [|e evs He _ IH]; [reflexivity|].
  now rewrite uploadedPaths_cons, He, IH.
Qed.

Lemma uploadElevated_event
    (p : Provisioner) (path description namePrefix command : string)
    (s s' : State Env) (r : option error) :
  uploadElevated p path description namePrefix command s = Some (s', r) ->
  exists e,
    trace s' = (trace s ++ [e])%list
    /\ commandsOf [e] = []
    /\ ((uploadedPaths [e] = [path]
         /\ exists e1 content, r = snd (comm_Upload e1 path content))
        \/ (uploadedPaths [e] = [] /\ r <> None)).
Proof.
  unfold uploadElevated, bind, TimeOrderedUUID.
  destruct (uuid_TimeOrderedUUID (env s)) as [e1 u].
  destruct (elevatedTemplate_Execute _) as [buffer [err|]].
  - unfold emit, ret. cbn [env now trace]. intros [= <- <-].
    eexists. split; [reflexivity|]. split; [reflexivity|].
    right. split; [reflexivity|discriminate].
  - rewrite Upload_eq. cbn [env now trace]. intros [= <- <-].
    eexists. split; [reflexivity|]. split; [reflexivity|]. left.
    split; [reflexivity|]. exists e1, buffer. reflexivity.
Qed.

(** X14: Provision uploads before it runs anything: the events of a run are
    the upload steps followed by the events of the loop; the uploads go
    to the three fixed paths, in the order elevated script, pending
    reboot script, update script; no command is run among them, nothing
    is uploaded once the loop has started, and the loop starts only
    after all three uploads.  The uploads stop at the first that fails:
    when the communicator fails every upload to one of the three paths,
    no later path is uploaded, the loop is not entered and Provision
    returns an error; when the communicator fails the upload of the
    elevated script in this run, that upload is the only one, the loop is
    not entered and Provision returns that error; and Provision returns
    without error only after all three uploads. *)
Theorem uploads_precede_commands
    (fuel : nat) (p : Provisioner) (s s' : State Env) (r : option error) :
  Provision fuel p s = Some (s', r) ->
  exists ups rest n,
    trace s' = (trace s ++ ups ++ rest)%list
    /\ commandsOf ups = []
    /\ uploadedPaths rest = []
    /\ uploadedPaths ups
       = firstn n [elevatedPath; pendingRebootElevatedPath; windowsUpdatePath]
    /\ (rest <> [] ->
        uploadedPaths ups
        = [elevatedPath; pendingRebootElevatedPath; windowsUpdatePath])
    /\ (r = None ->
        uploadedPaths ups
        = [elevatedPath; pendingRebootElevatedPath; windowsUpdatePath])
    /\ (forall k,
        (k < 3)%nat ->
        (forall e content,
            snd (comm_Upload e
                   (nth k [elevatedPath; pendingRebootElevatedPath;
                           windowsUpdatePath] "")
                   content) <> None) ->
        rest = [] /\ r <> None /\ (n <= S k)%nat)
    /\ (forall e1 u buffer e2 err,
        uuid_TimeOrderedUUID (env s) = (e1, u) ->
        elevatedTemplate_Execute
          (Elevated.mkOptions (Username (config p)) (Password (config p))
             "Packer Windows update elevated task"
             ("packer-windows-update-" ++ u) (windowsUpdateCommand p))
        = (buffer, None) ->
        comm_Upload e1 elevatedPath buffer = (e2, Some err) ->
        uploadedPaths ups = [elevatedPath] /\ rest = [] /\ r = Some err).
Proof.
  rewrite Provision_eq.
  destruct (uploadElevatedScript p s) as [[s1 r1]|] eqn:E1; [|discriminate].
  assert (HF : forall e1 u buffer e2 err,
             uuid_TimeOrderedUUID (env s) = (e1, u) ->
             elevatedTemplate_Execute
               (Elevated.mkOptions (Username (config p)) (Password (config p))
                  "Packer Windows update elevated task"
                  ("packer-windows-update-" ++ u) (windowsUpdateCommand p))
             = (buffer, None) ->
             comm_Upload e1 elevatedPath buffer = (e2, Some err) ->
             r1 = Some err
             /\ trace s1
                = (trace s ++ [Said "Uploading the Windows update elevated script...";
                               Uploaded elevatedPath buffer])%list).
  { intros e1 u buffer e2 err Hu Ht Hc.
    unfold uploadElevatedScript, bind at 1, ui_Say, emit in E1.
    rewrite (uploadElevated_uploads p _ _ _ _
               (mkState (env s) (now s)
                  (trace s ++ [Said "Uploading the Windows update elevated script..."]))
               _ _ _ _ _ Hu Ht Hc) in E1.
    injection E1 as <- <-. cbn [trace]. rewrite <- app_assoc.
    split; reflexivity. }
  unfold uploadElevatedScript, bind, ui_Say, emit in E1.
  apply uploadElevated_event in E1. destruct E1 as (x1 & T1 & C1 & U1).
  cbn [trace] in T1. rewrite <- app_assoc in T1. cbn [app] in T1.
  assert (Hstop : forall ups n,
             trace s' = (trace s ++ ups)%list -> commandsOf ups = [] ->
             uploadedPaths ups
             = firstn n [elevatedPath; pendingRebootElevatedPath; windowsUpdatePath] ->
             r <> None ->
             (forall k,
                 (k < 3)%nat ->
                 (forall e content,
                     snd (comm_Upload e
                            (nth k [elevatedPath; pendingRebootElevatedPath;
                                    windowsUpdatePath] "")
                            content) <> None) ->
                 (n <= S k)%nat) ->
             (forall e1 u buffer e2 err,
                 uuid_TimeOrderedUUID (env s) = (e1, u) ->
                 elevatedTemplate_Execute
                   (Elevated.mkOptions (Username (config p)) (Password (config p))
                      "Packer Windows update elevated task"
                      ("packer-windows-update-" ++ u) (windowsUpdateCommand p))
                 = (buffer, None) ->
                 comm_Upload e1 elevatedPath buffer = (e2, Some err) ->
                 uploadedPaths ups = [elevatedPath] /\ r = Some err) ->
             exists ups rest n,
               trace s' = (trace s ++ ups ++ rest)%list
               /\ commandsOf ups = []
               /\ uploadedPaths rest = []
               /\ uploadedPaths ups
                  = firstn n [elevatedPath; pendingRebootElevatedPath; windowsUpdatePath]
               /\ (rest <> [] ->
                   uploadedPaths ups
                   = [elevatedPath; pendingRebootElevatedPath; windowsUpdatePath])
               /\ (r = None ->
                   uploadedPaths ups
                   = [elevatedPath; pendingRebootElevatedPath; windowsUpdatePath])
               /\ (forall k,
                   (k < 3)%nat ->
                   (forall e content,
                       snd (comm_Upload e
                              (nth k [elevatedPath; pendingRebootElevatedPath;
                                      windowsUpdatePath] "")
                              content) <> None) ->
                   rest = [] /\ r <> None /\ (n <= S k)%nat)
               /\ (forall e1 u buffer e2 err,
                   uuid_TimeOrderedUUID (env s) = (e1, u) ->
                   elevatedTemplate_Execute
                     (Elevated.mkOptions (Username (config p)) (Password (config p))
                        "Packer Windows update elevated task"
                        ("packer-windows-update-" ++ u) (windowsUpdateCommand p))
                   = (buffer, None) ->
                   comm_Upload e1 elevatedPath buffer = (e2, Some err) ->
                   uploadedPaths ups = [elevatedPath] /\ rest = [] /\ r = Some err)).
  { intros ups n Ht Hc Hu Hr Hk Hf1. exists ups, [], n. rewrite app_nil_r.
    split; [exact Ht|]. split; [exact Hc|]. split; [reflexivity|].
    split; [exact Hu|]. split; [intros Hne; now contradiction Hne|].
    split; [intros Hn; now contradiction Hr|].
    split.
    - intros k Hlt Hf. split; [reflexivity|]. split; [exact Hr|].
      exact (Hk k Hlt Hf).
    - intros e1 u buffer e2 err Hu1 Ht1 Hc1.
      destruct (Hf1 _ _ _ _ _ Hu1 Ht1 Hc1) as [Ha Hb].
      split; [exact Ha|]. split; [reflexivity|exact Hb]. }
  destruct r1 as [err1|].
  { intros [= <- <-].
    destruct U1 as [[U1 _]|[U1 _]].
    - apply (Hstop _ 1%nat T1 C1 U1); [discriminate| |].
      + intros k _ _. lia.
      + intros e1 u buffer e2 err Hu1 Ht1 Hc1.
        destruct (HF _ _ _ _ _ Hu1 Ht1 Hc1) as [Ha _].
        split; [exact U1|exact Ha].
    - apply (Hstop _ 0%nat T1 C1 U1); [discriminate| |].
      + intros k _ _. lia.
      + intros e1 u buffer e2 err Hu1 Ht1 Hc1. exfalso.
        destruct (HF _ _ _ _ _ Hu1 Ht1 Hc1) as [_ Hb].
        rewrite T1 in Hb. apply app_inv_head in Hb.
        injection Hb as Hx. rewrite Hx in U1. discriminate U1. }
  assert (HFn : forall e1 u buffer e2 err,
             uuid_TimeOrderedUUID (env s) = (e1, u) ->
             elevatedTemplate_Execute
               (Elevated.mkOptions (Username (config p)) (Password (config p))
                  "Packer Windows update elevated task"
                  ("packer-windows-update-" ++ u) (windowsUpdateCommand p))
             = (buffer, None) ->
             comm_Upload e1 elevatedPath buffer = (e2, Some err) ->
             False).
  { intros e1 u buffer e2 err Hu1 Ht1 Hc1.
    destruct (HF _ _ _ _ _ Hu1 Ht1 Hc1) as [Ha _]. discriminate Ha. }
  clear HF.
  destruct U1 as [[U1 (a1 & c1 & N1)]|[_ U1]]; [|now contradiction U1].
  destruct (uploadPendingRebootScript p s1) as [[s2 r2]|] eqn:E2; [|discriminate].
  unfold uploadPendingRebootScript, bind, ui_Say, emit in E2.
  apply uploadElevated_event in E2. destruct E2 as (x2 & T2 & C2 & U2).
  cbn [trace] in T2. rewrite <- app_assoc in T2. cbn [app] in T2.
  rewrite T1, <- app_assoc in T2. cbn [app] in T2.
  assert (C12 : forall tl, commandsOf tl = [] ->
            commandsOf (Said "Uploading the Windows update elevated script..."
                          :: x1 :: tl) = []).
  { intros tl Htl.
    rewrite commandsOf_cons, (commandsOf_cons x1), C1, Htl. reflexivity. }
  assert (U12 : forall tl,
            uploadedPaths (Said "Uploading the Windows update elevated script..."
                             :: x1 :: tl)
            = elevatedPath :: uploadedPaths tl).
  { intros tl.
    rewrite uploadedPaths_cons, (uploadedPaths_cons x1), U1. reflexivity. }
  assert (K0 : forall k n,
            (k < 3)%nat ->
            (forall e content,
                snd (comm_Upload e
                       (nth k [elevatedPath; pendingRebootElevatedPath;
                               windowsUpdatePath] "")
                       content) <> None) ->
            (n <= 2)%nat -> (n <= S k)%nat).
  { intros k n Hlt Hf Hn. destruct k as [|k]; [|lia].
    exfalso. apply (Hf a1 c1). symmetry. exact N1. }
  destruct r2 as [err2|].
  { intros [= <- <-].
    destruct U2 as [[U2 _]|[U2 _]].
    - apply (Hstop _ 2%nat T2);
        [apply C12; rewrite commandsOf_cons, C2; reflexivity| |discriminate| |].
      + rewrite U12, uploadedPaths_cons, U2. reflexivity.
      + intros k Hlt Hf. apply (K0 k 2%nat Hlt Hf). lia.
      + intros e1 u buffer e2 err Hu1 Ht1 Hc1.
        now contradiction (HFn _ _ _ _ _ Hu1 Ht1 Hc1).
    - apply (Hstop _ 1%nat T2);
        [apply C12; rewrite commandsOf_cons, C2; reflexivity| |discriminate| |].
      + rewrite U12, uploadedPaths_cons, U2. reflexivity.
      + intros k _ _. lia.
      + intros e1 u buffer e2 err Hu1 Ht1 Hc1.
        now contradiction (HFn _ _ _ _ _ Hu1 Ht1 Hc1). }
  destruct U2 as [[U2 (a2 & c2 & N2)]|[_ U2]]; [|now contradiction U2].
  assert (K1 : forall k n,
            (k < 3)%nat ->
            (forall e content,
                snd (comm_Upload e
                       (nth k [elevatedPath; pendingRebootElevatedPath;
                               windowsUpdatePath] "")
                       content) <> None) ->
            (n <= 3)%nat -> (n <= S k)%nat).
  { intros k n Hlt Hf Hn. destruct k as [|[|k]]; [| |lia].
    - exfalso. apply (Hf a1 c1). symmetry. exact N1.
    - exfalso. apply (Hf a2 c2). symmetry. exact N2. }
  destruct (uploadUpdateScript s2) as [[s3 r3]|] eqn:E3; [|discriminate].
  unfold uploadUpdateScript, bind, ui_Say, emit in E3.
  rewrite Upload_eq in E3. cbn [env now trace] in E3.
  assert (T3 : trace s3
               = (trace s ++ Said "Uploading the Windows update elevated script..."
                    :: x1
                    :: Said "Uploading the Windows update check for reboot required elevated script..."
                    :: x2
                    :: [Said "Uploading the Windows update script...";
                        Uploaded windowsUpdatePath (MustAsset "windows-update.ps1")])%list).
  { injection E3 as <- _. cbn [trace]. rewrite T2, <- !app_assoc. reflexivity. }
  assert (N3 : r3 = snd (comm_Upload (env s2) windowsUpdatePath
                           (MustAsset "windows-update.ps1"))).
  { injection E3 as _ <-. reflexivity. }
  assert (C3 : commandsOf
                 (Said "Uploading the Windows update elevated script..."
                    :: x1
                    :: Said "Uploading the Windows update check for reboot required elevated script..."
                    :: x2
                    :: [Said "Uploading the Windows update script...";
                        Uploaded windowsUpdatePath (MustAsset "windows-update.ps1")])
               = []).
  { apply C12. rewrite commandsOf_cons, (commandsOf_cons x2), C2. reflexivity. }
  assert (U3 : uploadedPaths
                 (Said "Uploading the Windows update elevated script..."
                    :: x1
                    :: Said "Uploading the Windows update check for reboot required elevated script..."
                    :: x2
                    :: [Said "Uploading the Windows update script...";
                        Uploaded windowsUpdatePath (MustAsset "windows-update.ps1")])
               = [elevatedPath; pendingRebootElevatedPath; windowsUpdatePath]).
  { rewrite U12, uploadedPaths_cons, (uploadedPaths_cons x2), U2. reflexivity. }
  destruct r3 as [err3|].
  { intros [= <- <-]. apply (Hstop _ 3%nat T3 C3 U3); [discriminate| |].
    - intros k Hlt Hf. apply (K1 k 3%nat Hlt Hf). lia.
    - intros e1 u buffer e2 err Hu1 Ht1 Hc1.
      now contradiction (HFn _ _ _ _ _ Hu1 Ht1 Hc1). }
  intros HL.
  destruct (adds_provisionLoop (fun e => uploadedPaths [e] = []) fuel p
              (fun _ => eq_refl) (fun _ => eq_refl) (fun _ => eq_refl)
              _ _ _ HL) as (rest & TL & FL).
  eexists. exists rest, 3%nat. split; [rewrite TL, T3, <- app_assoc; reflexivity|].
  split; [exact C3|]. split; [apply uploadedPaths_none, FL|].
  split; [exact U3|]. split; [intros _; exact U3|]. split; [intros _; exact U3|].
  split.
  - intros k Hlt Hf. exfalso. destruct k as [|[|[|k]]]; [| | |lia].
    + apply (Hf a1 c1). symmetry. exact N1.
    + apply (Hf a2 c2). symmetry. exact N2.
    + apply (Hf (env s2) (MustAsset "windows-update.ps1")). symmetry. exact N3.
  - intros e1 u buffer e2 err Hu1 Ht1 Hc1.
    now contradiction (HFn _ _ _ _ _ Hu1 Ht1 Hc1).
Qed.

End OrchestrationFurther.

(** * Prepare and the restart sequence together *)

Lemma enough_attempts (d t : Z) :
  0 < d -> t < d * Z.of_nat (Z.to_nat (t / d + 1)).
Proof.
  intros Hd. pose proof (Z.div_mod t d ltac:(lia)) as Hdm.
  pose proof (Z.mod_pos_bound t d Hd) as Hm.
  destruct (Z.le_gt_cases 0 (t / d + 1)) as [Hq|Hq].
  - rewrite Z2Nat.id by exact Hq. lia.
  - assert (t < 0); [|lia].
    destruct (Z.lt_ge_cases t 0) as [Hneg|Hpos]; [exact Hneg|].
    pose proof (Z.div_pos t d Hpos Hd). lia.
Qed.

Section PreparedRestart.

Variable Raw : Type.
Variable Decode : Config -> list Raw -> Config * option error.
Context {Env : Type} `{Collaborators Env}.

(** X15: A prepared provisioner never waits for ever: its restart timeout is
    not zero, so both retried steps of the restart sequence have a
    deadline, and from every state the restart sequence returns, within
    one attempt more than the timeout holds delays of five seconds, for
    each of the two. *)
Theorem prepared_restart_returns
    (p : Provisioner) (raws : list Raw) (c : Config) (s : State Env) :
  Decode (config p) raws = (c, None) ->
  exists s' r,
    restart
      (S (Z.to_nat (RestartTimeout (config (fst (Prepare Raw Decode p raws)))
                      / retryableDelay + 1)))
      (fst (Prepare Raw Decode p raws)) s
    = Some (s', r).
Proof.
  intros HD. apply restart_returns.
  - exact (proj1 (Prepare_nonzero Raw Decode p raws c HD)).
  - apply enough_attempts. reflexivity.
Qed.

End PreparedRestart.

(** * The further properties on scripted runs *)

Lemma prepared_restart_returns_witness :
  lastRaw (config hastyP) [config hastyP] = (config hastyP, None)
  /\ exists s' r,
       restart 4 (fst (Prepare Config lastRaw hastyP [config hastyP]))
         (scripted [refused; refused; refused; refused])
       = Some (s', r).
Proof.
  split; [reflexivity|].
  destruct (prepared_restart_returns Config lastRaw hastyP [config hastyP]
              (config hastyP) (scripted [refused; refused; refused; refused])
              eq_refl) as (s' & r & Hr).
  exists s', r. vm_compute in Hr |- *. exact Hr.
Defined.

Lemma update_reports_exit_status_witness :
  update sampleP (scripted [exits 101])
  = Some (afterUpdate (scripted [exits 101]), (true, None))
  /\ scriptResult (scripted [exits 101]) = Exited 101.
Proof.
  assert (Hu : update sampleP (scripted [exits 101])
               = Some (afterUpdate (scripted [exits 101]), (true, None)))
    by reflexivity.
  split; [exact Hu|].
  destruct (update_reports_exit_status sampleP _ _ _ _ Hu) as (_ & Hp & _).
  now apply Hp.
Defined.

Lemma success_only_after_exit_0_witness :
  provisionLoop 3 sampleP (scripted [exits 101; ok; ok; ok; ok; ok])
  = Some (afterUpdate
            (mkState (mkScripted [ok] [] None) 5000000000
               (trace (afterUpdate (scripted [exits 101; ok; ok; ok; ok; ok]))
                  ++ [Said "Restarting the machine..."; Ran restartCommand;
                      Said "Waiting for machine to become available...";
                      Ran testRestartCommand; Ran abortTestRestartCommand;
                      Ran pendingRebootElevatedCommand])), None)
  /\ exists s0, scriptResult s0 = Exited 0.
Proof.
  assert (Hl : provisionLoop 3 sampleP (scripted [exits 101; ok; ok; ok; ok; ok])
               = Some (afterUpdate
                         (mkState (mkScripted [ok] [] None) 5000000000
                            (trace (afterUpdate
                                      (scripted [exits 101; ok; ok; ok; ok; ok]))
                               ++ [Said "Restarting the machine...";
                                   Ran restartCommand;
                                   Said "Waiting for machine to become available...";
                                   Ran testRestartCommand;
                                   Ran abortTestRestartCommand;
                                   Ran pendingRebootElevatedCommand])), None))
    by (vm_compute; reflexivity).
  split; [exact Hl|].
  destruct (success_only_after_exit_0 _ _ _ _ Hl) as (s0 & H0 & _).
  exists s0. exact H0.
Defined.

Lemma waitAttempt_refused (rest : list (RunResult * N)) (t : Z) (tr : list Event) :
  waitAttempt (mkState (mkScripted (refused :: rest) [] None) t tr)
  = Some (mkState (mkScripted rest [] None) (t + 1000000000)
            (tr ++ [Ran testRestartCommand]),
          Some (errorString "connection refused")).
Proof. reflexivity. Qed.

Lemma waitAttempt_available (t : Z) (tr : list Event) :
  waitAttempt (mkState (mkScripted [ok; ok; ok] [] None) t tr)
  = Some (mkState (mkScripted [] [] None)
            (t + 1000000000 + 1000000000 + 1000000000)
            (((tr ++ [Ran testRestartCommand]) ++ [Ran abortTestRestartCommand])
               ++ [Ran pendingRebootElevatedCommand]),
          None).
Proof. reflexivity. Qed.

Lemma probes_until_available (n : nat) :
  forall (fuel : nat) (t : Z) (tr : list Event) (deadline : option Z),
    (n < fuel)%nat ->
    match deadline with
    | Some d => t + Z.of_nat n * 6000000000 <= d
    | None => True
    end ->
    retryLoop fuel retryableDelay deadline waitAttempt
      (mkState (mkScripted (repeat refused n ++ [ok; ok; ok]) [] None) t tr)
    = Some (mkState (mkScripted [] [] None)
              (t + Z.of_nat n * 6000000000 + 3000000000)
              (tr ++ failedProbes n
                  ++ [Ran testRestartCommand; Ran abortTestRestartCommand;
                      Ran pendingRebootElevatedCommand]),
            None).
Proof.
  induction n as [|n IH]; intros fuel t tr deadline Hf Hd;
    (destruct fuel as [|fuel]; [lia|]).
  - cbn [repeat app].
    rewrite (retryLoop_success _ _ _ _ _ _ (waitAttempt_available t tr)).
    rewrite <- !app_assoc. do 3 f_equal. lia.
  - cbn [repeat app].
    rewrite (retryLoop_retry _ _ _ _ _ _ _ (waitAttempt_refused _ t tr)).
    + cbn [env now trace]. rewrite IH; [|lia|destruct deadline; [|exact I]].
      * unfold failedProbes. cbn [repeat List.concat]. fold (failedProbes n).
        rewrite <- !app_assoc. do 3 f_equal.
        change retryableDelay with (5 * Second). unfold Second. lia.
      * change retryableDelay with (5 * Second). unfold Second. lia.
    + reflexivity.
    + cbn [now]. destruct deadline; [lia|exact I].
Qed.

(** X16: While the machine reboots: when the forced restart is accepted, the
    probe is refused [n] times and then the probe, the abort and the
    check are answered, the restart sequence runs the probe [n + 1]
    times with a sleep of five seconds after each refusal, runs the abort
    and the check straight after the probe that was answered, and returns
    no error, provided the restart timeout holds the [n] refusals. *)
Theorem probe_is_retried_until_available (n fuel : nat) (p : Provisioner) :
  (n < fuel)%nat ->
  Z.of_nat n * 6000000000 <= RestartTimeout (config p) ->
  restart fuel p (rebooting n)
  = Some (mkState (mkScripted [] [] None)
            (1000000000 + Z.of_nat n * 6000000000 + 3000000000)
            ([Said "Restarting the machine..."; Ran restartCommand;
              Said "Waiting for machine to become available..."]
               ++ failedProbes n
               ++ [Ran testRestartCommand; Ran abortTestRestartCommand;
                   Ran pendingRebootElevatedCommand]),
          None).
Proof.
  intros Hf Hd. destruct fuel as [|fuel]; [lia|].
  rewrite restart_eq, retryable_eq. unfold rebooting, scripted.
  rewrite (retryLoop_success _ _ _ restartAttempt _
             (mkState (mkScripted (repeat refused n ++ [ok; ok; ok]) [] None)
                1000000000
                [Said "Restarting the machine..."; Ran restartCommand]))
    by reflexivity.
  rewrite retryable_eq. cbn [env now trace].
  apply (probes_until_available n (S fuel) 1000000000
           [Said "Restarting the machine..."; Ran restartCommand;
            Said "Waiting for machine to become available..."]); [exact Hf|].
  destruct (RestartTimeout (config p) =? 0); [exact I|lia].
Qed.

Lemma probe_is_retried_until_available_witness :
  commandsRun (restart 4 sampleP (rebooting 3))
  = Some [restartCommand; testRestartCommand; testRestartCommand;
          testRestartCommand; testRestartCommand; abortTestRestartCommand;
          pendingRebootElevatedCommand].
Proof.
  rewrite (probe_is_retried_until_available 3 4 sampleP);
    [reflexivity|lia|vm_compute; discriminate].
Defined.

(** * Giving up *)

Section GivingUp.

Context {Env : Type} `{Collaborators Env}.

Lemma retryLoop_stop (fuel : nat) (delay : Duration) (deadline : option Z)
    (fn : M Env (option error)) (s s1 : State Env) (e : error) :
  fn s = Some (s1, Some e) ->
  ctx_Done (env s1) (now s1) = true
  \/ match deadline with Some d => d <= now s1 | None => False end ->
  retryLoop (S fuel) delay deadline fn s = Some (s1, Some e).
Proof.
  intros Hfn Hstop. cbn [retryLoop]. unfold bind. rewrite Hfn.
  unfold ctxDone, time_Now.
  destruct Hstop as [Hd|Hd]; [now rewrite Hd|].
  destruct deadline as [d|]; [|contradiction].
  destruct (Z.leb_spec d (now s1)); [|lia].
  now rewrite orb_true_r.
Qed.

(** X17: The restart sequence gives up at once when the forced restart fails
    (the communicator returns an error, as it does with the error of the
    context when the context is cancelled, or the command exits with a
    status other than 0) and either the context is cancelled by then or
    the command took the whole restart timeout: the command is handed to
    the communicator once, nothing is slept, the probe is not run, and the
    error returned is the error of that attempt, the error of the
    communicator as it is or the error that says the exit status. *)
Theorem restart_gives_up_when_cancelled_or_late
    (fuel : nat) (p : Provisioner) (s : State Env)
    (e1 : Env) (r1 : RunResult) (d1 : N) :
  cmd_RunWithUi (env s) restartCommand = (e1, r1, d1) ->
  r1 <> Exited 0 ->
  ctx_Done e1 (now s + Z.of_N d1) = true
  \/ (RestartTimeout (config p) <> 0 /\ RestartTimeout (config p) <= Z.of_N d1) ->
  restart (S fuel) p s
  = Some (mkState e1 (now s + Z.of_N d1)
            (trace s ++ [Said "Restarting the machine..."; Ran restartCommand]),
          Some (match r1 with
                | RunError err => err
                | Exited status =>
                    errorString
                      ("Failed to restart the machine with exit status: "
                         ++ Go.fmt_d status)
                end)).
Proof.
  intros Hc Hst Hstop. rewrite restart_eq, retryable_eq.
  assert (Hd : ctx_Done e1 (now s + Z.of_N d1) = true
               \/ match (if RestartTimeout (config p) =? 0 then None
                         else Some (now s + RestartTimeout (config p))) with
                  | Some d => d <= now s + Z.of_N d1
                  | None => False
                  end).
  { destruct Hstop as [Hd|[Hnz Hle]]; [left; exact Hd|right].
    destruct (Z.eqb_spec (RestartTimeout (config p)) 0); [contradiction|]. lia. }
  destruct r1 as [err|status].
  - erewrite retryLoop_stop; cycle 1.
    + unfold restartAttempt, bind.
      erewrite RunWithUi_eq by (cbn [env]; exact Hc). reflexivity.
    + cbn [env now]. exact Hd.
    + cbn [trace]. rewrite <- app_assoc. reflexivity.
  - assert (Hne : (status =? 0) = false).
    { apply Z.eqb_neq. intros ->. now apply Hst. }
    erewrite retryLoop_stop; cycle 1.
    + unfold restartAttempt, bind.
      erewrite RunWithUi_eq by (cbn [env]; exact Hc).
      cbn beta iota. rewrite Hne. reflexivity.
    + cbn [env now]. exact Hd.
    + cbn [trace]. rewrite <- app_assoc. reflexivity.
Qed.

End GivingUp.

Lemma restart_gives_up_when_cancelled_or_late_witness :
  restart 3 sampleP (mkState (mkScripted [exits 1] [] (Some 0%nat)) 0 [])
  = Some (mkState (mkScripted [exits 1] [] (Some 0%nat)) 0
            [Said "Restarting the machine..."; Ran restartCommand],
          Some (errorString "context canceled"))
  /\ restart 3 sampleP (mkState (mkScripted [exits 1] [] (Some 1%nat)) 0 [])
     = Some (mkState (mkScripted [] [] (Some 0%nat)) 1000000000
               [Said "Restarting the machine..."; Ran restartCommand],
             Some (errorString "Failed to restart the machine with exit status: 1")).
Proof.
  split.
  - assert (Hc : cmd_RunWithUi
                   (env (mkState (mkScripted [exits 1] [] (Some 0%nat)) 0 []))
                   restartCommand
                 = (mkScripted [exits 1] [] (Some 0%nat),
                    RunError (errorString "context canceled"), 0%N))
      by reflexivity.
    rewrite (restart_gives_up_when_cancelled_or_late 2 sampleP _ _ _ _ Hc);
      [reflexivity|discriminate|left; reflexivity].
  - assert (Hc : cmd_RunWithUi
                   (env (mkState (mkScripted [exits 1] [] (Some 1%nat)) 0 []))
                   restartCommand
                 = (mkScripted [] [] (Some 0%nat), Exited 1, 1000000000%N))
      by reflexivity.
    rewrite (restart_gives_up_when_cancelled_or_late 2 sampleP _ _ _ _ Hc);
      [reflexivity|discriminate|left; reflexivity].
Defined.

Lemma phases_alternate_in_every_run_witness :
  exists s' r,
    provisionLoop 5 hastyP (scripted [exits 101; ok; ok; ok; ok; exits 101]) = Some (s', r)
    /\ exists evs k,
         trace s' = evs
         /\ (phases evs = alternating k
             \/ (phases evs = (alternating k ++ [RestartSequence])%list
                 /\ r <> None)).
Proof.
  assert (E : exists s' r,
             provisionLoop 5 hastyP (scripted [exits 101; ok; ok; ok; ok; exits 101])
             = Some (s', r)) by (do 2 eexists; vm_compute; reflexivity).
  destruct E as (s' & r & E). exists s', r. split; [exact E|].
  exact (phases_alternate_in_every_run _ _ _ _ _ E).
Defined.

Lemma restart_two_stages_witness :
  exists s' r,
    restart 5 hastyP (scripted [exits 1; exits 1; exits 1; ok; ok; ok]) = Some (s', r)
    /\ r = Some (errorString "Failed to restart the machine with exit status: 1")
    /\ commandsOf (trace s') = [restartCommand; restartCommand; restartCommand].
Proof.
  assert (E : exists s' r,
             restart 5 hastyP (scripted [exits 1; exits 1; exits 1; ok; ok; ok])
             = Some (s', r))
    by (do 2 eexists; vm_compute; reflexivity).
  destruct E as (s' & r & E). exists s', r. split; [exact E|].
  destruct (restart_two_stages _ _ _ _ _ E) as (s1 & r1 & evs1 & E1 & _ & _ & Hr).
  vm_compute in E1. injection E1 as <- <-.
  destruct Hr as [-> ->]. split; reflexivity.
Defined.

Lemma restart_at_first_attempt_witness :
  restart 1 sampleP (scripted [ok; ok; exits 1116; ok])
  = Some (mkState (mkScripted [] [] None) 4000000000
            [Said "Restarting the machine..."; Ran restartCommand;
             Said "Waiting for machine to become available...";
             Ran testRestartCommand; Ran abortTestRestartCommand;
             Ran pendingRebootElevatedCommand],
          None).
Proof.
  rewrite (restart_at_first_attempt 0 sampleP (scripted [ok; ok; exits 1116; ok])
             (mkScripted [ok; exits 1116; ok] [] None)
             (mkScripted [exits 1116; ok] [] None)
             (mkScripted [ok] [] None)
             (mkScripted [] [] None)
             1000000000 1000000000 1000000000 1000000000 1116);
    reflexivity.
Defined.

Lemma uploads_precede_commands_witness :
  comm_Upload (env uploadFails) elevatedPath (windowsUpdateCommand sampleP)
  = (mkScripted [] [] None, Some (errorString "upload failed"))
  /\ exists s' r,
       Provision 3 sampleP uploadFails = Some (s', r)
       /\ r = Some (errorString "upload failed")
       /\ exists ups,
            trace s' = ups
            /\ commandsOf ups = []
            /\ uploadedPaths ups = [elevatedPath].
Proof.
  assert (Hc : comm_Upload (env uploadFails) elevatedPath (windowsUpdateCommand sampleP)
               = (mkScripted [] [] None, Some (errorString "upload failed")))
    by reflexivity.
  split; [exact Hc|].
  assert (E : exists s' r, Provision 3 sampleP uploadFails = Some (s', r))
    by (do 2 eexists; vm_compute; reflexivity).
  destruct E as (s' & r & E). exists s', r. split; [exact E|].
  destruct (uploads_precede_commands _ _ _ _ _ E)
    as (ups & rest & n & Ht & Hcs & _ & _ & _ & _ & _ & Hfirst).
  destruct (Hfirst _ _ _ _ _ eq_refl eq_refl Hc) as (Hu & Hrest & Hr).
  split; [exact Hr|]. exists ups.
  rewrite Hrest, app_nil_r in Ht. split; [exact Ht|]. split; [exact Hcs|exact Hu].
Defined.
